(** * The board store of the boards plugin: boards, their history, members

    A shallow embedding of [server/services/store/sqlstore/board.go].

    The storage engine is modelled by the tables the file reads and writes,
    each a list of rows in physical order.  A JSON column is kept as the
    value it decodes to: [MarshalJSONB] on the way in and the
    [json.Unmarshal] of [boardsFromRows] on the way out are taken to be
    inverse to each other on the values the encoder accepts, and the
    encoder's refusals are an oracle of the environment.  Columns hold no
    SQL NULL, so every [COALESCE] of the column lists is the identity.
    Transport failures of the engine are outside the model; a statement
    fails only where the schema makes it fail.  Wall-clock readings
    ([utils.GetMillis]) and the engine's [insert_at] stamps are arguments of
    the operations that take them. *)

From stdpp Require Import base decidable option list strings gmap.
From Stdlib Require Import ZArith Lia Sorted Permutation.

Open Scope string_scope.
Open Scope Z_scope.

(** ** Values *)

(** What an [interface{}] holds after [json.Unmarshal]. *)
#[warnings="-register-all"]
Inductive JSON : Type :=
| JNull
| JBool (b : bool)
| JNumber (literal : string)
| JString (s : string)
| JArray (items : list JSON)
| JObject (fields : list (string * JSON)).

Lemma JSON_eq_dec : forall x y : JSON, {x = y} + {x <> y}.
Proof.
  fix IH 1.
  intros x y; destruct x as [|b|n|s|xs|fs], y as [|b'|n'|s'|ys|gs];
    try (right; discriminate).
  - left; reflexivity.
  - destruct (Bool.bool_dec b b') as [->|N]; [left; reflexivity|right; congruence].
  - destruct (String.string_dec n n') as [->|N]; [left; reflexivity|right; congruence].
  - destruct (String.string_dec s s') as [->|N]; [left; reflexivity|right; congruence].
  - destruct (List.list_eq_dec IH xs ys) as [->|N];
      [left; reflexivity|right; congruence].
  - assert (D : forall p q : string * JSON, {p = q} + {p <> q}).
    { intros [k v] [k' v'].
      destruct (String.string_dec k k') as [->|N]; [|right; congruence].
      destruct (IH v v') as [->|N]; [left; reflexivity|right; congruence]. }
    destruct (List.list_eq_dec D fs gs) as [->|N];
      [left; reflexivity|right; congruence].
Defined.

#[global] Instance JSON_EqDecision : EqDecision JSON := JSON_eq_dec.

(** [map[string]interface{}]; [None] is the nil map. *)
Definition GoMap : Type := option (gmap string JSON).

(** [[]map[string]interface{}]; [None] is the nil slice. *)
Definition GoMapSlice : Type := option (list (gmap string JSON)).

(** ** Errors and results *)

Inductive error : Type :=
| ErrNotFound (entity : string)                 (* model.NewErrNotFound *)
| AppError (StatusCode : Z)                     (* mmModel.AppError *)
| ErrOther (msg : string)
| Errorf (format : string) (arg : string) (cause : error). (* fmt.Errorf with %w *)

(** What a call comes back with: a value, an error, or a run-time panic. *)
Inductive Result (A : Type) : Type :=
| Ok (a : A)
| Err (e : error)
| Panic (msg : string).
Arguments Ok {A} a.
Arguments Err {A} e.
Arguments Panic {A} msg.

Definition StatusNotFound : Z := 404.           (* http.StatusNotFound *)

(** ** model.Board, model.BoardMember, model.User *)

Record Board : Type := mkBoard {
  ID : string;
  TeamID : string;
  ChannelID : string;
  CreatedBy : string;
  ModifiedBy : string;
  Type_ : string;
  MinimumRole : string;
  Title : string;
  Description : string;
  Icon : string;
  ShowDescription : bool;
  IsTemplate : bool;
  TemplateVersion : Z;
  Properties : GoMap;
  CardProperties : GoMapSlice;
  CreateAt : Z;
  UpdateAt : Z;
  DeleteAt : Z
}.

#[global] Instance Board_EqDecision : EqDecision Board.
Proof. solve_decision. Defined.

Record BoardMember : Type := mkBoardMember {
  BoardID : string;
  UserID : string;
  Roles : string;
  MemberMinimumRole : string;
  SchemeAdmin : bool;
  SchemeEditor : bool;
  SchemeCommenter : bool;
  SchemeViewer : bool;
  Synthetic : bool
}.

Record User : Type := mkUser {
  UserId : string;
  IsGuest : bool
}.

Record QueryBoardHistoryOptions : Type := mkHistoryOptions {
  BeforeUpdateAt : Z;
  AfterUpdateAt : Z;
  Limit : N;
  Descending : bool
}.

Inductive BoardSearchField : Type :=
| BoardSearchFieldTitle
| BoardSearchFieldPropertyName.

Inductive DBType : Type :=
| PostgresDBType
| MysqlDBType
| SqliteDBType
| OtherDBType (name : string).

(** ** Tables *)

(** A row of [boards_history]: the snapshot and the engine's stamp. *)
Record BoardHistoryRow : Type := mkHistoryRow {
  insert_at : Z;
  snapshot : Board
}.

(** A row of [board_members]. *)
Record BoardMemberRow : Type := mkMemberRow {
  board_id : string;
  user_id : string;
  roles : string;
  scheme_admin : bool;
  scheme_editor : bool;
  scheme_commenter : bool;
  scheme_viewer : bool
}.

(** A row of [board_members_history]. *)
Record BoardMemberHistoryRow : Type := mkMemberHistoryRow {
  h_board_id : string;
  h_user_id : string;
  h_action : string;
  h_insert_at : Z
}.

(** Rows of the host's [TeamMembers] and [ChannelMembers]. *)
Record TeamMemberRow : Type := mkTeamMember {
  tm_teamid : string;
  tm_userID : string;
  tm_deleteAt : Z
}.

Record ChannelMemberRow : Type := mkChannelMember {
  cm_channelId : string;
  cm_userId : string
}.

(** A call made to the children collaborator of [blocks.go]. *)
Inductive ChildrenCall : Type :=
| DeleteBlockChildren (boardID parentID userID : string)
| UndeleteBlockChildren (boardID parentID userID : string).

Record Store : Type := mkStore {
  boards : list Board;
  boards_history : list BoardHistoryRow;
  board_members : list BoardMemberRow;
  board_members_history : list BoardMemberHistoryRow;
  TeamMembers : list TeamMemberRow;
  ChannelMembers : list ChannelMemberRow;
  children : list ChildrenCall
}.

(** ** The environment

    What [board.go] uses and does not define: constants of the [model]
    package, the dialect, library functions, and the collaborators reached
    through the store and the services API. *)

Record Env : Type := mkEnv {
  GlobalTeamID : string;                          (* model.GlobalTeamID *)
  SystemUserID : string;                          (* model.SystemUserID *)
  BoardTypeOpen : string;                         (* model.BoardTypeOpen *)
  dbType : DBType;                                (* s.dbType *)
  sha256_hex : string -> string;    (* fmt.Sprintf("%x", sha256.Sum256(..)) *)
  marshalProperties : GoMap -> option error;      (* s.MarshalJSONB, refusals *)
  marshalCardProperties : GoMapSlice -> option error;
  IsErrNotFound : error -> bool;                  (* model.IsErrNotFound *)
  GetUserByID : string -> Result User;            (* s.GetUserByID *)
  getUserByID : string -> Result User;            (* s.getUserByID(db, ..) *)
  GetBoard : Store -> string -> Result Board;     (* s.GetBoard *)
  GetChannelMember : string -> string -> option error; (* servicesAPI *)
  GetTeamMember : string -> string -> option error;    (* servicesAPI *)
  deleteBlockChildren : string -> string -> string -> option error;
  undeleteBlockChildren : string -> string -> string -> option error;
  TrimSpace : string -> string;                   (* strings.TrimSpace *)
  Split : string -> string -> list string;        (* strings.Split *)
  ToLower : string -> string;                     (* strings.ToLower *)
  sqlHolds : string -> string -> Board -> bool    (* the engine on a predicate *)
}.

(** ** Store operations as state-passing computations *)

Definition M (A : Type) : Type := Store -> Result A * Store.

Definition ret {A : Type} (a : A) : M A := fun st => (Ok a, st).
Definition fail {A : Type} (e : error) : M A := fun st => (Err e, st).
Definition panic {A : Type} (msg : string) : M A := fun st => (Panic msg, st).

Definition bind {A B : Type} (m : M A) (k : A -> M B) : M B :=
  fun st =>
    match m st with
    | (Ok a, st') => k a st'
    | (Err e, st') => (Err e, st')
    | (Panic msg, st') => (Panic msg, st')
    end.

Notation "'do' x <- m ; k" := (bind m (fun x => k))
  (at level 10, x name, m at level 100, k at level 200).
Notation "m ;; k" := (bind m (fun _ => k))
  (at level 100, k at level 200, right associativity).

Definition gets {A : Type} (f : Store -> A) : M A := fun st => (Ok (f st), st).
Definition modify (f : Store -> Store) : M unit := fun st => (Ok tt, f st).

(** [if err != nil { return err }] on an oracle that reports refusals. *)
Definition check (r : option error) : M unit :=
  match r with
  | None => ret tt
  | Some e => fail e
  end.

(** A collaborator's answer, threaded into the computation. *)
Definition call {A : Type} (r : Result A) : M A := fun st => (r, st).

(** Table updates. *)
Definition set_boards (f : list Board -> list Board) (st : Store) : Store :=
  mkStore (f (boards st)) (boards_history st) (board_members st)
          (board_members_history st) (TeamMembers st) (ChannelMembers st)
          (children st).

Definition set_boards_history
    (f : list BoardHistoryRow -> list BoardHistoryRow) (st : Store) : Store :=
  mkStore (boards st) (f (boards_history st)) (board_members st)
          (board_members_history st) (TeamMembers st) (ChannelMembers st)
          (children st).

Definition set_board_members
    (f : list BoardMemberRow -> list BoardMemberRow) (st : Store) : Store :=
  mkStore (boards st) (boards_history st) (f (board_members st))
          (board_members_history st) (TeamMembers st) (ChannelMembers st)
          (children st).

Definition set_board_members_history
    (f : list BoardMemberHistoryRow -> list BoardMemberHistoryRow)
    (st : Store) : Store :=
  mkStore (boards st) (boards_history st) (board_members st)
          (f (board_members_history st)) (TeamMembers st) (ChannelMembers st)
          (children st).

Definition set_children (f : list ChildrenCall -> list ChildrenCall)
    (st : Store) : Store :=
  mkStore (boards st) (boards_history st) (board_members st)
          (board_members_history st) (TeamMembers st) (ChannelMembers st)
          (f (children st)).

(** Field updates through the [*model.Board] pointer. *)
Definition with_Properties (p : GoMap) (b : Board) : Board :=
  mkBoard (ID b) (TeamID b) (ChannelID b) (CreatedBy b) (ModifiedBy b)
          (Type_ b) (MinimumRole b) (Title b) (Description b) (Icon b)
          (ShowDescription b) (IsTemplate b) (TemplateVersion b) p
          (CardProperties b) (CreateAt b) (UpdateAt b) (DeleteAt b).

Definition with_Modified (userID : string) (now : Z) (b : Board) : Board :=
  mkBoard (ID b) (TeamID b) (ChannelID b) (CreatedBy b) userID
          (Type_ b) (MinimumRole b) (Title b) (Description b) (Icon b)
          (ShowDescription b) (IsTemplate b) (TemplateVersion b) (Properties b)
          (CardProperties b) (CreateAt b) now (DeleteAt b).

Definition with_Created (userID : string) (now : Z) (b : Board) : Board :=
  mkBoard (ID b) (TeamID b) (ChannelID b) userID (ModifiedBy b)
          (Type_ b) (MinimumRole b) (Title b) (Description b) (Icon b)
          (ShowDescription b) (IsTemplate b) (TemplateVersion b) (Properties b)
          (CardProperties b) now (UpdateAt b) (DeleteAt b).

(** ** Reading boards *)

(** [getBoardsFieldsByCondition]: the rows the conditions keep, and
    [NotFound] when there is none. *)
Definition getBoardsFieldsByCondition (conditions : list (Board -> bool))
    : M (list Board) :=
  do rows <- gets (fun st =>
      List.filter (fun b => forallb (fun c => c b) conditions) (boards st));
  match rows with
  | [] => fail (ErrNotFound "boards")
  | _ => ret rows
  end.

Definition getBoardsByCondition (conditions : list (Board -> bool))
    : M (list Board) :=
  getBoardsFieldsByCondition conditions.

Definition getBoardByCondition (conditions : list (Board -> bool)) : M Board :=
  do boards <- getBoardsByCondition conditions;
  match boards with
  | b :: _ => ret b
  | [] => panic "index out of range [0] with length 0"
  end.

(** The live rows an id selects. *)
Definition liveRows (boardID : string) (st : Store) : list Board :=
  List.filter (fun b => String.eqb (ID b) boardID) (boards st).

Definition getBoard (boardID : string) : M Board :=
  getBoardByCondition [fun b => String.eqb (ID b) boardID].

(** ** History of a board *)

(** [ORDER BY insert_at, update_at]: the key of a history row, and its
    lexicographic order. *)
Definition historyKey (r : BoardHistoryRow) : Z * Z :=
  (insert_at r, UpdateAt (snapshot r)).

Definition key_leb (a b : Z * Z) : bool :=
  (a.1 <? b.1) || ((a.1 =? b.1) && (a.2 <=? b.2)).

Fixpoint insertSorted {A : Type} (leb : A -> A -> bool) (x : A) (l : list A)
    : list A :=
  match l with
  | [] => [x]
  | y :: l' => if leb x y then x :: l else y :: insertSorted leb x l'
  end.

(** A stable sort: rows with equal keys keep their physical order. *)
Definition orderBy {A : Type} (leb : A -> A -> bool) (l : list A) : list A :=
  fold_right (insertSorted leb) [] l.

Definition historyOrder (descending : bool) (r1 r2 : BoardHistoryRow) : bool :=
  if descending then key_leb (historyKey r2) (historyKey r1)
  else key_leb (historyKey r1) (historyKey r2).

Definition getBoardHistory (boardID : string) (opts : QueryBoardHistoryOptions)
    : M (list Board) :=
  do rows <- gets (fun st =>
      List.filter (fun r => String.eqb (ID (snapshot r)) boardID) (boards_history st));
  let rows :=
    if BeforeUpdateAt opts =? 0 then rows
    else List.filter (fun r => UpdateAt (snapshot r) <? BeforeUpdateAt opts) rows in
  let rows :=
    if AfterUpdateAt opts =? 0 then rows
    else List.filter (fun r => AfterUpdateAt opts <? UpdateAt (snapshot r)) rows in
  let rows := orderBy (historyOrder (Descending opts)) rows in
  let rows :=
    if (Limit opts =? 0)%N then rows
    else firstn (N.to_nat (Limit opts)) rows in
  ret (map snapshot rows).

(** ** Writing boards *)

(** Runs [m] and hands its outcome to the caller, as Go's two-valued
    return does. *)
Definition try {A : Type} (m : M A) : M (Result A) :=
  fun st => (Ok (m st).1, (m st).2).

(** [x, err := f(); if err != nil && !model.IsErrNotFound(err) { return wrap(err) }]:
    [x] is nil when [f] reports NotFound. *)
Definition unlessNotFound {A : Type} (E : Env) (wrap : error -> error)
    (m : M A) : M (option A) :=
  do r <- try m;
  match r with
  | Ok a => ret (Some a)
  | Err e => if IsErrNotFound E e then ret None else fail (wrap e)
  | Panic msg => panic msg
  end.

(** Modelled from the spec: the schema of the tables is declared by the
    migrations, outside [board.go]; the spec has [boards] hold one row per
    entity, so the engine refuses an INSERT of an id that is there. *)
Definition execInsertBoard (row : Board) : M unit :=
  do rows <- gets boards;
  if existsb (fun b => String.eqb (ID b) (ID row)) rows
  then fail (ErrOther "duplicate key")
  else modify (set_boards (fun l => (l ++ [row])%list)).

Definition execInsertBoardHistory (ts : Z) (row : Board) : M unit :=
  modify (set_boards_history (fun l => (l ++ [mkHistoryRow ts row])%list)).

(** The columns the UPDATE of [insertBoard] sets, on one row. *)
Definition updatedRow (board row : Board) : Board :=
  mkBoard (ID row) (TeamID row) (ChannelID board) (CreatedBy row)
          (ModifiedBy board) (Type_ board) (MinimumRole board) (Title board)
          (Description board) (Icon board) (ShowDescription board)
          (IsTemplate board) (TemplateVersion board) (Properties board)
          (CardProperties board) (CreateAt row) (UpdateAt board)
          (DeleteAt board).

Definition execUpdateBoard (board : Board) : M unit :=
  modify (set_boards (map (fun row =>
    if String.eqb (ID row) (ID board) then updatedRow board row else row))).

(** The store after the UPDATE and after the INSERT of [insertBoard], with
    the history row. *)
Definition afterUpdate (ts : Z) (b : Board) (st : Store) : Store :=
  (execInsertBoardHistory ts b (execUpdateBoard b st).2).2.

Definition afterInsert (ts : Z) (b : Board) (st : Store) : Store :=
  (execInsertBoardHistory ts b (set_boards (fun l => (l ++ [b])%list) st)).2.

Definition trackingTemplateId : string := "trackingTemplateId".

(** [board.Properties["trackingTemplateId"] = ..] for the built-in
    templates; Go panics on a write to a nil map. *)
Definition setTrackingTemplateId (E : Env) (board : Board) : M Board :=
  if IsTemplate board && String.eqb (TeamID board) (GlobalTeamID E) then
    match Properties board with
    | None => panic "assignment to entry in nil map"
    | Some m =>
        ret (with_Properties
               (Some (<[trackingTemplateId :=
                          JString (sha256_hex E (Title board))]> m)) board)
    end
  else ret board.

(** [insertBoard]; [now] is the reading of [utils.GetMillis], [ts] the
    [insert_at] the engine gives the history row.  The result is the board
    the caller's pointer ends up at. *)
Definition insertBoard (E : Env) (board : Board) (userID : string)
    (now ts : Z) : M Board :=
  do board <- setTrackingTemplateId E board;
  check (marshalProperties E (Properties board));;
  check (marshalCardProperties E (CardProperties board));;
  do existingBoard <-
    unlessNotFound E
      (Errorf "insertBoard error occurred while fetching existing board %s: %w"
              (ID board))
      (getBoard (ID board));
  let board := with_Modified userID now board in
  match existingBoard with
  | Some _ =>
      execUpdateBoard board;;
      execInsertBoardHistory ts board;;
      ret board
  | None =>
      let board := with_Created userID now board in
      do r <- try (execInsertBoard board);
      match r with
      | Ok _ =>
          execInsertBoardHistory ts board;;
          ret board
      | Err e =>
          fail (Errorf "insertBoard error occurred while inserting board %s: %w"
                       (ID board) e)
      | Panic msg => panic msg
      end
  end.

Definition callDeleteBlockChildren (E : Env) (boardID parentID userID : string)
    : M unit :=
  modify (set_children (fun l => (l ++ [DeleteBlockChildren boardID parentID userID])%list));;
  check (deleteBlockChildren E boardID parentID userID).

Definition callUndeleteBlockChildren (E : Env) (boardID parentID userID : string)
    : M unit :=
  modify (set_children (fun l => (l ++ [UndeleteBlockChildren boardID parentID userID])%list));;
  check (undeleteBlockChildren E boardID parentID userID).

Definition deleteBoardAndChildren (E : Env) (boardID userID : string)
    (keepChildren : bool) (now ts : Z) : M unit :=
  do board <- getBoard boardID;
  check (marshalProperties E (Properties board));;
  check (marshalCardProperties E (CardProperties board));;
  let insertQueryValues :=
    mkBoard (ID board) (TeamID board) (ChannelID board) (CreatedBy board)
            userID (Type_ board) (MinimumRole board) (Title board)
            (Description board) (Icon board) (ShowDescription board)
            (IsTemplate board) (TemplateVersion board) (Properties board)
            (CardProperties board) (CreateAt board) now now in
  execInsertBoardHistory ts insertQueryValues;;
  modify (set_boards (List.filter (fun b =>
    negb (String.eqb (ID b) boardID && String.eqb (TeamID b) (TeamID board)))));;
  if keepChildren then ret tt
  else callDeleteBlockChildren E boardID EmptyString userID.

Definition deleteBoard (E : Env) (boardID userID : string) (now ts : Z)
    : M unit :=
  deleteBoardAndChildren E boardID userID false now ts.

(** The options [undeleteBoard] reads the history with. *)
Definition latest : QueryBoardHistoryOptions := mkHistoryOptions 0 0 1 true.

(** A snapshot stamped [(ts, now)] sorts after every snapshot the board
    has. *)
Definition newerThanAll (boardID : string) (ts now : Z) (st : Store) : Prop :=
  forall r, In r (boards_history st) -> ID (snapshot r) = boardID ->
            key_leb (ts, now) (historyKey r) = false.

Definition undeleteBoard (E : Env) (boardID modifiedBy : string) (now ts : Z)
    : M unit :=
  do boards <- getBoardHistory boardID latest;
  match boards with
  | [] => ret tt
  | board :: _ =>
      if DeleteAt board =? 0 then ret tt
      else
        check (marshalProperties E (Properties board));;
        check (marshalCardProperties E (CardProperties board));;
        let values :=
          mkBoard (ID board) (TeamID board) EmptyString (CreatedBy board) modifiedBy
                  (Type_ board) (MinimumRole board) (Title board)
                  (Description board) (Icon board) (ShowDescription board)
                  (IsTemplate board) (TemplateVersion board) (Properties board)
                  (CardProperties board) (CreateAt board) now 0 in
        execInsertBoardHistory ts values;;
        execInsertBoard values;;
        callUndeleteBlockChildren E (ID board) EmptyString modifiedBy
  end.

(** The snapshot [deleteBoardAndChildren] writes and the row
    [undeleteBoard] writes, as functions of the board read. *)
Definition deletedSnapshot (board : Board) (userID : string) (now : Z) : Board :=
  mkBoard (ID board) (TeamID board) (ChannelID board) (CreatedBy board)
          userID (Type_ board) (MinimumRole board) (Title board)
          (Description board) (Icon board) (ShowDescription board)
          (IsTemplate board) (TemplateVersion board) (Properties board)
          (CardProperties board) (CreateAt board) now now.

Definition restoredRow (board : Board) (modifiedBy : string) (now : Z) : Board :=
  mkBoard (ID board) (TeamID board) EmptyString (CreatedBy board) modifiedBy
          (Type_ board) (MinimumRole board) (Title board)
          (Description board) (Icon board) (ShowDescription board)
          (IsTemplate board) (TemplateVersion board) (Properties board)
          (CardProperties board) (CreateAt board) now 0.

(** ** Members *)

(** A scanned row of [boardMemberFields]; [Synthetic] is not a column. *)
Definition memberOfRow (minimumRole : string) (r : BoardMemberRow)
    : BoardMember :=
  mkBoardMember (board_id r) (user_id r) (roles r) minimumRole
                (scheme_admin r) (scheme_editor r) (scheme_commenter r)
                (scheme_viewer r) false.

(** [board_members AS BM LEFT JOIN boards AS B ON B.id=BM.board_id], on the
    member rows the WHERE keeps. *)
Definition selectBoardMembers (keep : BoardMemberRow -> bool) (st : Store)
    : list BoardMember :=
  flat_map (fun bm =>
    if keep bm then
      match List.filter (fun b => String.eqb (ID b) (board_id bm)) (boards st) with
      | [] => [memberOfRow EmptyString bm]
      | bs => map (fun b => memberOfRow (MinimumRole b) bm) bs
      end
    else []) (board_members st).

(** [errors.As(err, &appErr)]: the status of the first [AppError] in the
    chain. *)
Fixpoint asAppError (e : error) : option Z :=
  match e with
  | AppError code => Some code
  | Errorf _ _ cause => asAppError cause
  | _ => None
  end.

Definition isKey (boardID userID : string) (r : BoardMemberRow) : bool :=
  String.eqb (board_id r) boardID && String.eqb (user_id r) userID.

(** Whether [board_members] holds a row for the pair. *)
Definition hasExplicit (boardID userID : string) (st : Store) : bool :=
  existsb (isKey boardID userID) (board_members st).

(** The two synthetic memberships [getMemberForBoard] makes up. *)
Definition syntheticEditor (boardID userID : string) : BoardMember :=
  mkBoardMember boardID userID "editor" EmptyString false true false false true.

Definition syntheticViewer (boardID userID : string) : BoardMember :=
  mkBoardMember boardID userID "viewer" EmptyString false false false true true.

Definition getMemberForBoard (E : Env) (boardID userID : string)
    : M BoardMember :=
  do members <- gets (selectBoardMembers (isKey boardID userID));
  match members with
  | m :: _ => ret m
  | [] =>
      if String.eqb userID (SystemUserID E) then fail (ErrNotFound userID)
      else
        do user <- call (GetUserByID E userID);
        if IsGuest user then fail (ErrNotFound "user is a guest")
        else
          do b <- (fun st => (GetBoard E st boardID, st));
          if negb (String.eqb (ChannelID b) EmptyString) then
            match GetChannelMember E (ChannelID b) userID with
            | Some memberErr =>
                match asAppError memberErr with
                | Some code =>
                    if code =? StatusNotFound then
                      fail (ErrNotFound
                              ("member BoardID=" ++ boardID ++ " UserID=" ++ userID))
                    else fail memberErr
                | None => fail memberErr
                end
            | None =>
                ret (syntheticEditor boardID userID)
            end
          else if String.eqb (Type_ b) (BoardTypeOpen E) && IsTemplate b then
            match GetTeamMember E (TeamID b) userID with
            | Some memberErr =>
                match asAppError memberErr with
                | Some code =>
                    if code =? StatusNotFound then fail (ErrNotFound userID)
                    else fail memberErr
                | None => fail memberErr
                end
            | None =>
                ret (syntheticViewer boardID userID)
            end
          else fail (ErrNotFound "member")
  end.

(** The lookup at the head of [saveMember] reports NotFound: the pair has
    no membership, explicit or synthetic. *)
Definition lookupNotFound (E : Env) (boardID userID : string) (st : Store)
    : Prop :=
  exists e, (getMemberForBoard E boardID userID st).1 = Err e
            /\ IsErrNotFound E e = true.

(** The lookup at the head of [saveMember] lets it go on: it finds a member
    or reports NotFound. *)
Definition lookupSettles (E : Env) (boardID userID : string) (st : Store)
    : Prop :=
  match (getMemberForBoard E boardID userID st).1 with
  | Ok _ => True
  | Err e => IsErrNotFound E e = true
  | Panic _ => False
  end.

(** The row [saveMember] sends to the engine, and the history row it adds. *)
Definition memberValues (bm : BoardMember) : BoardMemberRow :=
  mkMemberRow (BoardID bm) (UserID bm) EmptyString (SchemeAdmin bm)
              (SchemeEditor bm) (SchemeCommenter bm) (SchemeViewer bm).

Definition createdRow (bm : BoardMember) (ts : Z) : BoardMemberHistoryRow :=
  mkMemberHistoryRow (BoardID bm) (UserID bm) "created" ts.

(** [INSERT .. ON CONFLICT (board_id, user_id) DO UPDATE SET] the four
    scheme columns (on MySQL, [ON DUPLICATE KEY UPDATE] of the same four). *)
Definition upsertMember (row : BoardMemberRow) (l : list BoardMemberRow)
    : list BoardMemberRow :=
  if existsb (isKey (board_id row) (user_id row)) l then
    map (fun r =>
      if isKey (board_id row) (user_id row) r then
        mkMemberRow (board_id r) (user_id r) (roles r) (scheme_admin row)
                    (scheme_editor row) (scheme_commenter row)
                    (scheme_viewer row)
      else r) l
  else (l ++ [row])%list.

Definition saveMember (E : Env) (bm : BoardMember) (ts : Z) : M BoardMember :=
  let queryValues := memberValues bm in
  do oldMember <-
    unlessNotFound E (fun e => e) (getMemberForBoard E (BoardID bm) (UserID bm));
  modify (set_board_members (upsertMember queryValues));;
  match oldMember with
  | None =>
      modify (set_board_members_history (fun l => (l ++ [createdRow bm ts])%list));;
      ret bm
  | Some _ => ret bm
  end.

Definition deleteMember (boardID userID : string) (ts : Z) : M unit :=
  do rowsAffected <- gets (fun st =>
      length (List.filter (isKey boardID userID) (board_members st)));
  modify (set_board_members (List.filter (fun r => negb (isKey boardID userID r))));;
  if (0 <? Z.of_nat rowsAffected) then
    modify (set_board_members_history (fun l =>
      (l ++ [mkMemberHistoryRow boardID userID "deleted" ts])%list))
  else ret tt.

(** ** Search *)

(** A WHERE clause added to the three selects of a search. *)
Inductive Where : Type :=
| WhereExpr (sql arg : string)        (* Where(where, whereTerm) *)
| WhereAnd (patterns : list string).  (* sq.And of sq.Like{"lower(b.title)": .} *)

Definition evalWhere (E : Env) (w : Where) (b : Board) : bool :=
  match w with
  | WhereExpr sql arg => sqlHolds E sql arg b
  | WhereAnd patterns =>
      forallb (fun pat => sqlHolds E "lower(b.title) LIKE ?" pat b) patterns
  end.

Definition dquote : string :=
  String (Ascii.Ascii false true false false false true false false) EmptyString.

(** The conditions [searchBoardsForUser] derives from the term. *)
Definition searchConditions (E : Env) (term : string)
    (searchField : BoardSearchField) : list Where :=
  if String.eqb term EmptyString then []
  else
    match searchField with
    | BoardSearchFieldPropertyName =>
        match dbType E with
        | PostgresDBType => [WhereExpr "b.properties->? is not null" term]
        | MysqlDBType | SqliteDBType =>
            [WhereExpr "JSON_EXTRACT(b.properties, ?) IS NOT NULL" ("$." ++ term)]
        | OtherDBType _ =>
            [WhereExpr "b.properties LIKE ?" ("%" ++ dquote ++ term ++ dquote ++ "%")]
        end
    | BoardSearchFieldTitle =>
        [WhereAnd (map (fun word => "%" ++ ToLower E word ++ "%")
                       (Split E (TrimSpace E term) " "))]
    end.

(** The three selects of [searchBoardsForUser]. *)
Inductive Branch : Type :=
| boardMembersQ
| teamMembersQ
| channelMembersQ.

Definition selectBranch (E : Env) (userID : string) (conds : list Where)
    (q : Branch) (st : Store) : list Board :=
  let extra b := forallb (fun w => evalWhere E w b) conds in
  match q with
  | boardMembersQ =>
      flat_map (fun b => flat_map (fun bm =>
        if String.eqb (ID b) (board_id bm) && negb (IsTemplate b)
           && String.eqb (user_id bm) userID && extra b
        then [b] else []) (board_members st)) (boards st)
  | teamMembersQ =>
      flat_map (fun b => flat_map (fun tm =>
        if String.eqb (tm_teamid tm) (TeamID b) && negb (IsTemplate b)
           && String.eqb (tm_userID tm) userID && (tm_deleteAt tm =? 0)
           && String.eqb (Type_ b) (BoardTypeOpen E) && extra b
        then [b] else []) (TeamMembers st)) (boards st)
  | channelMembersQ =>
      flat_map (fun b => flat_map (fun cm =>
        if String.eqb (cm_channelId cm) (ChannelID b) && negb (IsTemplate b)
           && String.eqb (cm_userId cm) userID && extra b
        then [b] else []) (ChannelMembers st)) (boards st)
  end.

(** The statement handed to the engine: one select, or the UNION of a
    parenthesised first select with the ones suffixed to it. *)
Inductive UnionQuery : Type :=
| Select (q : Branch)
| Union (q : Branch) (suffixes : list Branch).

Definition runQuery (E : Env) (userID : string) (conds : list Where)
    (u : UnionQuery) (st : Store) : list Board :=
  match u with
  | Select q => selectBranch E userID conds q st
  | Union q suffixes =>
      remove_dups (selectBranch E userID conds q st ++
                   flat_map (fun q' => selectBranch E userID conds q' st) suffixes)%list
  end.

(** [Prefix("(").Suffix(") UNION (" + sql + ")")] on the first select, and a
    further [Suffix(" UNION (" + sql + ")")] on a statement that is a UNION. *)
Definition addUnion (u : UnionQuery) (q' : Branch) : UnionQuery :=
  match u with
  | Select q => Union q [q']
  | Union q suffixes => Union q (suffixes ++ [q'])%list
  end.

(** [unionQ] as [searchBoardsForUser] assembles it once the user is known. *)
Definition unionQ (user : User) (includePublicBoards : bool) : UnionQuery :=
  let unionQ := Select boardMembersQ in
  if negb (IsGuest user) then
    let unionQ := addUnion unionQ channelMembersQ in
    if includePublicBoards then addUnion unionQ teamMembersQ else unionQ
  else if includePublicBoards then addUnion unionQ teamMembersQ
  else unionQ.

Definition searchBoardsForUser (E : Env) (term : string)
    (searchField : BoardSearchField) (userID : string)
    (includePublicBoards : bool) : M (list Board) :=
  let conds := searchConditions E term searchField in
  do user <- call (getUserByID E userID);
  gets (runQuery E userID conds (unionQ user includePublicBoards)).

(** Which selects a statement is made of. *)
Definition branches (u : UnionQuery) : list Branch :=
  match u with
  | Select q => [q]
  | Union q suffixes => q :: suffixes
  end.

(** ** A small installation

    One team, one channel, a member, a guest; used to run the operations. *)
Module Sample.

Definition isNotFound (e : error) : bool :=
  match e with
  | ErrNotFound _ => true
  | _ => false
  end.

Definition users (id : string) : Result User :=
  if String.eqb id "nobody" then Err (ErrNotFound "user")
  else Ok (mkUser id (String.eqb id "guest")).

(** The channel roster answers for the pairs it holds and reports 404 for
    the others. *)
Definition channelRoster (channelID userID : string) : option error :=
  if String.eqb channelID "c1"
     && (String.eqb userID "u1" || String.eqb userID "system")
  then None else Some (AppError 404).

Definition teamRoster (teamID userID : string) : option error :=
  if String.eqb teamID "t1" && String.eqb userID "u2"
  then None else Some (AppError 404).

Definition env : Env :=
  mkEnv "0" "system" "O" PostgresDBType
        (fun title => "sha256:" ++ title)
        (fun _ => None) (fun _ => None)
        isNotFound users users
        (fun st id => (getBoard id st).1)
        channelRoster teamRoster
        (fun _ _ _ => None) (fun _ _ _ => None)
        (fun s => s) (fun s _ => [s]) (fun s => s)
        (fun _ _ _ => true).

Definition board (id channel : string) : Board :=
  mkBoard id "t1" channel "alice" "alice" "O" "viewer" "Roadmap" "Plans" "R" false false 0
          (Some ∅) (Some []) 100 100 0.

Definition emptyStore : Store := mkStore [] [] [] [] [] [] [].

(** A live board linked to channel [c1], with its creation snapshot. *)
Definition linked : Store :=
  mkStore [board "b1" "c1"] [mkHistoryRow 100 (board "b1" "c1")] [] [] [] [] [].

(** A live open board without a channel, in a team the guest belongs to. *)
Definition open : Store :=
  mkStore [board "b2" EmptyString] [mkHistoryRow 100 (board "b2" EmptyString)]
          [] [] [mkTeamMember "t1" "guest" 0] [] [].

(** The board [b1] as a caller might hand it to [insertBoard] without
    having read it: another creator, another creation time. *)
Definition stale : Board :=
  mkBoard "b1" "t1" "c1" "mallory" "mallory" "O" "viewer" "Roadmap v2" "Plans"
          "R" false false 0 (Some ∅) (Some []) 5 5 0.

(** A built-in template of the global team, with and without a map. *)
Definition template (properties : GoMap) : Board :=
  mkBoard "tpl" "0" EmptyString "system" "system" "O" "viewer" "Kanban"
          "Template" "K" false true 1 properties (Some []) 0 0 0.

Definition member (boardID userID roles : string) (admin editor : bool)
    : BoardMember :=
  mkBoardMember boardID userID roles EmptyString admin editor false false false.

End Sample.

(** * The rest of the file *)

(** ** Column lists *)

(** [strings.HasSuffix]: the suffix is one of the tails of the string. *)
Fixpoint HasSuffix (s suffix : string) : bool :=
  String.eqb s suffix
  || match s with
     | EmptyString => false
     | String _ s' => HasSuffix s' suffix
     end.

Definition boardFields (tableAlias : string) : list string :=
  let tableAlias :=
    if negb (String.eqb tableAlias EmptyString) && negb (HasSuffix tableAlias ".")
    then tableAlias ++ "."
    else tableAlias in
  [ tableAlias ++ "id";
    tableAlias ++ "team_id";
    "COALESCE(" ++ tableAlias ++ "channel_id, '')";
    "COALESCE(" ++ tableAlias ++ "created_by, '')";
    tableAlias ++ "modified_by";
    tableAlias ++ "type";
    tableAlias ++ "minimum_role";
    tableAlias ++ "title";
    tableAlias ++ "description";
    tableAlias ++ "icon";
    tableAlias ++ "show_description";
    tableAlias ++ "is_template";
    tableAlias ++ "template_version";
    "COALESCE(" ++ tableAlias ++ "properties, '{}')";
    "COALESCE(" ++ tableAlias ++ "card_properties, '[]')";
    tableAlias ++ "create_at";
    tableAlias ++ "update_at";
    tableAlias ++ "delete_at" ].

(** ** Boards of a team, by id *)

(** [model.NewErrNotAllFound]. *)
Inductive ErrNotAllFound : Type :=
| NewErrNotAllFound (entity : string) (resources : list string).

(** [getBoardsInTeamByIds]: the rows found, and the error that goes with
    them when their number is not the number of ids asked for. *)
Definition getBoardsInTeamByIds (boardIDs : list string) (teamID : string)
    (st : Store) : list Board * option ErrNotAllFound :=
  let boards :=
    List.filter (fun b =>
      String.eqb (TeamID b) teamID && existsb (String.eqb (ID b)) boardIDs)
      (boards st) in
  if negb (Nat.eqb (length boards) (length boardIDs))
  then (boards, Some (NewErrNotAllFound "board" boardIDs))
  else (boards, None).

(** ** Patching, and inserting with an administrator *)

(** [patchBoard]; [boardPatch] is [boardPatch.Patch], of the [model]
    package. *)
Definition patchBoard (E : Env) (boardID : string) (boardPatch : Board -> Board)
    (userID : string) (now ts : Z) : M Board :=
  do existingBoard <- getBoard boardID;
  let board := boardPatch existingBoard in
  insertBoard E board userID now ts.

(** [insertBoardWithAdmin]; [ts] stamps the history row of the board and
    [ts'] that of the member.  The two arguments of the error message are
    kept in order, separated by a space. *)
Definition insertBoardWithAdmin (E : Env) (board : Board) (userID : string)
    (now ts ts' : Z) : M (Board * BoardMember) :=
  do newBoard <- insertBoard E board userID now ts;
  let bm :=
    mkBoardMember (ID newBoard) (CreatedBy newBoard) EmptyString EmptyString
                  true true false false false in
  do r <- try (saveMember E bm ts');
  match r with
  | Ok nbm => ret (newBoard, nbm)
  | Err e =>
      fail (Errorf "cannot save member %s while inserting board %s: %w"
                   (UserID bm ++ " " ++ BoardID bm) e)
  | Panic msg => panic msg
  end.

(** ** Members of a user and of a board *)

(** [implicitBoardMembershipsFromRows]: a row is a user id and a board id. *)
Definition implicitBoardMembershipsFromRows (rows : list (string * string))
    : list BoardMember :=
  map (fun row =>
    mkBoardMember row.2 row.1 "editor" EmptyString false true false false true)
    rows.

(** [existingMembers[k]] after the loop over the explicit members. *)
Definition existingMembers (key : BoardMember -> string)
    (explicitMembers : list BoardMember) (k : string) : bool :=
  existsb (fun m => String.eqb (key m) k) explicitMembers.

(** The loops that put the explicit members first and then the implicit
    ones whose key no explicit member has. *)
Definition mergeMembers (key : BoardMember -> string)
    (explicitMembers implicitMembers : list BoardMember) : list BoardMember :=
  (explicitMembers
   ++ List.filter (fun m => negb (existingMembers key explicitMembers (key m)))
                  implicitMembers)%list.

(** [boards AS B JOIN ChannelMembers AS CM ON B.channel_id=CM.channelId
    WHERE CM.userID = userID], selecting [CM.userID, B.Id]. *)
Definition channelBoardsOfUser (userID : string) (st : Store)
    : list (string * string) :=
  flat_map (fun b => flat_map (fun cm =>
    if String.eqb (ChannelID b) (cm_channelId cm)
       && String.eqb (cm_userId cm) userID
    then [(cm_userId cm, ID b)] else []) (ChannelMembers st)) (boards st).

Definition getMembersForUser (E : Env) (userID : string)
    : M (list BoardMember) :=
  do explicitMembers <-
    gets (selectBoardMembers (fun bm => String.eqb (user_id bm) userID));
  do user <- call (GetUserByID E userID);
  if IsGuest user then ret explicitMembers
  else
    do rows <- gets (channelBoardsOfUser userID);
    let implicitMembers := implicitBoardMembershipsFromRows rows in
    ret (mergeMembers BoardID explicitMembers implicitMembers).

(** Rows of the host's [Users] and [Bots]. *)
Record UserRow : Type := mkUserRow {
  u_id : string;
  u_roles : string
}.

Record BotRow : Type := mkBotRow {
  bo_UserId : string
}.

(** The implicit-members select of [getMembersForBoard], over the host's
    [Users] and [Bots]: the LEFT JOIN with [Bots] and the test that
    [bo.UserId IS NOT NULL] is false keep the users no bot row matches. *)
Definition channelUsersOfBoard (Users : list UserRow) (Bots : list BotRow)
    (boardID : string) (st : Store) : list (string * string) :=
  flat_map (fun b => flat_map (fun cm => flat_map (fun u =>
    if String.eqb (ChannelID b) (cm_channelId cm)
       && String.eqb (cm_userId cm) (u_id u)
       && String.eqb (ID b) boardID
       && negb (String.eqb (ChannelID b) EmptyString)
       && negb (String.eqb (u_roles u) "system_guest")
       && negb (existsb (fun bo => String.eqb (u_id u) (bo_UserId bo)) Bots)
    then [(cm_userId cm, ID b)] else []) Users) (ChannelMembers st)) (boards st).

Definition getMembersForBoard (Users : list UserRow) (Bots : list BotRow)
    (boardID : string) : M (list BoardMember) :=
  do explicitMembers <-
    gets (selectBoardMembers (fun bm => String.eqb (board_id bm) boardID));
  do rows <- gets (channelUsersOfBoard Users Bots boardID);
  let implicitMembers := implicitBoardMembershipsFromRows rows in
  ret (mergeMembers UserID explicitMembers implicitMembers).

(** ** Search within a team *)

(** The three selects of [searchBoardsForUserInTeam]. *)
Inductive TeamBranch : Type :=
| openBoardsQ
| memberBoardsQ
| channelMemberBoardsQ.

(** The conditions [searchBoardsForUserInTeam] derives from the term. *)
Definition teamSearchConditions (E : Env) (term : string) : list Where :=
  if String.eqb term EmptyString then []
  else [WhereAnd (map (fun word => "%" ++ ToLower E word ++ "%")
                      (Split E (TrimSpace E term) " "))].

Definition selectTeamBranch (E : Env) (teamID userID : string)
    (conds : list Where) (q : TeamBranch) (st : Store) : list Board :=
  let extra b := forallb (fun w => evalWhere E w b) conds in
  match q with
  | openBoardsQ =>
      List.filter (fun b =>
        negb (IsTemplate b) && String.eqb (TeamID b) teamID
        && String.eqb (Type_ b) (BoardTypeOpen E) && extra b) (boards st)
  | memberBoardsQ =>
      flat_map (fun b => flat_map (fun bm =>
        if String.eqb (ID b) (board_id bm) && negb (IsTemplate b)
           && String.eqb (TeamID b) teamID
           && String.eqb (user_id bm) userID && extra b
        then [b] else []) (board_members st)) (boards st)
  | channelMemberBoardsQ =>
      flat_map (fun b => flat_map (fun cm =>
        if String.eqb (cm_channelId cm) (ChannelID b) && negb (IsTemplate b)
           && String.eqb (TeamID b) teamID
           && String.eqb (cm_userId cm) userID && extra b
        then [b] else []) (ChannelMembers st)) (boards st)
  end.

(** [searchBoardsForUserInTeam]: the UNION of the parenthesised open-boards
    select with the two selects suffixed to it. *)
Definition searchBoardsForUserInTeam (E : Env) (teamID term userID : string)
    : M (list Board) :=
  let conds := teamSearchConditions E term in
  gets (fun st =>
    remove_dups (selectTeamBranch E teamID userID conds openBoardsQ st
                 ++ selectTeamBranch E teamID userID conds memberBoardsQ st
                 ++ selectTeamBranch E teamID userID conds channelMemberBoardsQ st)%list).

(** ** Boards of a user in a team *)

(** What [getBoardsForUserAndTeam] comes back with: boards, an error of the
    calls it makes, or the [ErrNotAllFound] of the fetch by ids. *)
Inductive TeamBoards : Type :=
| TeamBoardsOk (boards : list Board)
| TeamBoardsErr (e : error)
| TeamBoardsNotAllFound (e : ErrNotAllFound)
| TeamBoardsPanic (msg : string).

(** [getBoardsForUserAndTeam]; [notFound] is [model.IsErrNotFound] on the
    error of [getBoardsInTeamByIds]. *)
Definition getBoardsForUserAndTeam (E : Env) (notFound : ErrNotAllFound -> bool)
    (userID teamID : string) (includePublicBoards : bool) (st : Store)
    : TeamBoards :=
  if includePublicBoards then
    match (searchBoardsForUserInTeam E teamID EmptyString userID st).1 with
    | Ok boards => TeamBoardsOk boards
    | Err e => TeamBoardsErr e
    | Panic msg => TeamBoardsPanic msg
    end
  else
    match (getMembersForUser E userID st).1 with
    | Ok members =>
        let boardIDs := map BoardID members in
        match getBoardsInTeamByIds boardIDs teamID st with
        | (boards, Some err) =>
            if notFound err then TeamBoardsOk boards
            else TeamBoardsNotAllFound err
        | (boards, None) => TeamBoardsOk boards
        end
    | Err e => TeamBoardsErr e
    | Panic msg => TeamBoardsPanic msg
    end.

(** ** Keys of the tables *)

(** No two live rows share an id; no two member rows share a pair. *)
Definition uniqueIDs (st : Store) : Prop :=
  List.NoDup (map ID (boards st)).

Definition memberKey (r : BoardMemberRow) : string * string :=
  (board_id r, user_id r).

Definition uniqueMembers (st : Store) : Prop :=
  List.NoDup (map memberKey (board_members st)).

(** ** History of a membership *)

(** [model.BoardMemberHistoryEntry]. *)
Record BoardMemberHistoryEntry : Type := mkHistoryEntry {
  EntryBoardID : string;
  EntryUserID : string;
  Action : string;
  InsertAt : Z
}.

(** The layout [time.Parse] is given, by dialect. *)
Definition dateTemplate (E : Env) : string :=
  match dbType E with
  | MysqlDBType => "2006-01-02 15:04:05.000000"
  | _ => "2006-01-02T15:04:05Z0700"
  end.

(** [boardMemberHistoryEntriesFromRows]; [render] is the text the driver
    scans an [insert_at] stamp into and [Parse] is [time.Parse].  The loop
    stops at the first row whose stamp does not parse. *)
Fixpoint boardMemberHistoryEntriesFromRows (E : Env) (render : Z -> string)
    (Parse : string -> string -> Result Z) (rows : list BoardMemberHistoryRow)
    : Result (list BoardMemberHistoryEntry) :=
  match rows with
  | [] => Ok []
  | r :: rows' =>
      match Parse (dateTemplate E) (render (h_insert_at r)) with
      | Ok ts =>
          match boardMemberHistoryEntriesFromRows E render Parse rows' with
          | Ok entries =>
              Ok (mkHistoryEntry (h_board_id r) (h_user_id r) (h_action r) ts
                  :: entries)
          | Err e => Err e
          | Panic msg => Panic msg
          end
      | Err e =>
          Err (Errorf
                 "cannot parse datetime '%s' for board_members_history scan: %w"
                 (render (h_insert_at r)) e)
      | Panic msg => Panic msg
      end
  end.

(** [ORDER BY insert_at DESC]. *)
Definition memberHistoryOrder (r1 r2 : BoardMemberHistoryRow) : bool :=
  h_insert_at r2 <=? h_insert_at r1.

(** The rows [getBoardMemberHistory] selects, ordered and limited. *)
Definition memberHistoryRows (boardID userID : string) (limit : N)
    (st : Store) : list BoardMemberHistoryRow :=
  let rows :=
    orderBy memberHistoryOrder
      (List.filter (fun r => String.eqb (h_board_id r) boardID
                             && String.eqb (h_user_id r) userID)
                   (board_members_history st)) in
  if (0 <? limit)%N then firstn (N.to_nat limit) rows else rows.

Definition getBoardMemberHistory (E : Env) (render : Z -> string)
    (Parse : string -> string -> Result Z) (boardID userID : string)
    (limit : N) : M (list BoardMemberHistoryEntry) :=
  do rows <- gets (memberHistoryRows boardID userID limit);
  call (boardMemberHistoryEntriesFromRows E render Parse rows).

(** ** More of the small installation *)
Module Fixture.

(** The board [b1] with three snapshots, the last one of a delete. *)
Definition snapshotAt (updateAt deleteAt : Z) : Board :=
  mkBoard "b1" "t1" "c1" "alice" "alice" "O" "viewer" "Roadmap" "Plans" "R"
          false false 0 (Some ∅) (Some []) 100 updateAt deleteAt.

Definition threeSnapshots : Store :=
  mkStore [] [mkHistoryRow 100 (snapshotAt 100 0);
              mkHistoryRow 300 (snapshotAt 300 300);
              mkHistoryRow 200 (snapshotAt 200 0)] [] [] [] [] [].

(** Two boards of team [t1], one linked to channel [c1]; [alice] has an
    explicit row on both, [u1] is on the roster of the channel. *)
Definition staffed : Store :=
  mkStore [Sample.board "b1" "c1"; Sample.board "b2" EmptyString] []
          [mkMemberRow "b1" "alice" EmptyString true true false false;
           mkMemberRow "b2" "alice" EmptyString true true false false]
          [mkMemberHistoryRow "b1" "alice" "created" 100;
           mkMemberHistoryRow "b2" "alice" "created" 101]
          [mkTeamMember "t1" "alice" 0]
          [mkChannelMember "c1" "u1"; mkChannelMember "c1" "robot";
           mkChannelMember "c1" "visitor"] [].

Definition hostUsers : list UserRow :=
  [mkUserRow "alice" "system_user"; mkUserRow "u1" "system_user";
   mkUserRow "robot" "system_user"; mkUserRow "visitor" "system_guest"].

Definition hostBots : list BotRow := [mkBotRow "robot"].


(** A driver that renders the stamps before the epoch as the empty text,
    and a parser that refuses the empty text. *)
Definition render (stamp : Z) : string :=
  if stamp <? 0 then EmptyString else "2024-01-01T00:00:00Z".

Definition Parse (layout text : string) : Result Z :=
  if String.eqb text EmptyString then Err (ErrOther "parsing time")
  else Ok 1704067200000.

(** An installation whose user directory is out of reach. *)
Definition unreachable : Env :=
  mkEnv "0" "system" "O" PostgresDBType
        (fun title => "sha256:" ++ title)
        (fun _ => None) (fun _ => None)
        Sample.isNotFound
        (fun _ => Err (ErrOther "connection refused"))
        (fun _ => Err (ErrOther "connection refused"))
        (fun st id => (getBoard id st).1)
        Sample.channelRoster Sample.teamRoster
        (fun _ _ _ => None) (fun _ _ _ => None)
        (fun s => s) (fun s _ => [s]) (fun s => s)
        (fun _ _ _ => true).

End Fixture.

(** * Properties *)

Ltac run :=
  unfold bind, ret, fail, panic, gets, modify, check, call, try in *;
  cbn [fst snd] in *.

(** ** Explicit membership rows *)

Section MemberRows.

Variables (boardID userID : string).

Lemma selectBoardMembers_none (st : Store) :
  hasExplicit boardID userID st = false ->
  selectBoardMembers (isKey boardID userID) st = [].
Proof.
  unfold hasExplicit, selectBoardMembers.
  induction (board_members st) as [|r l IH]; cbn; [reflexivity|].
  intros H; apply orb_false_iff in H as [Hr Hl].
  rewrite Hr; cbn; auto.
Qed.

Lemma selectBoardMembers_some (st : Store) :
  hasExplicit boardID userID st = true ->
  exists m rest, selectBoardMembers (isKey boardID userID) st = m :: rest.
Proof.
  unfold hasExplicit, selectBoardMembers.
  induction (board_members st) as [|r l IH]; cbn; [discriminate|].
  destruct (isKey boardID userID r) eqn:Hr; cbn.
  - intros _.
    destruct (List.filter _ (boards st)) as [|b bs]; cbn; eauto.
  - intros H; apply IH, H.
Qed.

Lemma filter_key_count (l : list BoardMemberRow) :
  (0 <? Z.of_nat (length (List.filter (isKey boardID userID) l)))
  = existsb (isKey boardID userID) l.
Proof.
  induction l as [|r l IH]; cbn; [reflexivity|].
  destruct (isKey boardID userID r); cbn; [|exact IH].
  apply Z.ltb_lt; lia.
Qed.

Lemma existsb_filter_out (l : list BoardMemberRow) :
  existsb (isKey boardID userID)
          (List.filter (fun r => negb (isKey boardID userID r)) l) = false.
Proof.
  induction l as [|r l IH]; cbn; [reflexivity|].
  destruct (isKey boardID userID r) eqn:Hr; cbn; [exact IH|].
  rewrite Hr; exact IH.
Qed.

Lemma filter_out_absent (l : list BoardMemberRow) :
  existsb (isKey boardID userID) l = false ->
  List.filter (fun r => negb (isKey boardID userID r)) l = l.
Proof.
  induction l as [|r l IH]; cbn; [reflexivity|].
  intros H; apply orb_false_iff in H as [Hr Hl].
  rewrite Hr; cbn; f_equal; auto.
Qed.

End MemberRows.

(** The lookup of a member reads and never writes. *)
Lemma getMemberForBoard_reads (E : Env) (boardID userID : string) (st : Store) :
  (getMemberForBoard E boardID userID st).2 = st.
Proof.
  unfold getMemberForBoard; run.
  destruct (selectBoardMembers _ st); [|reflexivity].
  destruct (String.eqb userID (SystemUserID E)); [reflexivity|].
  destruct (GetUserByID E userID) as [u|e|msg]; try reflexivity.
  destruct (IsGuest u); [reflexivity|].
  destruct (GetBoard E st boardID) as [b|e|msg]; try reflexivity.
  destruct (negb (String.eqb (ChannelID b) EmptyString)).
  - destruct (GetChannelMember E (ChannelID b) userID) as [e|]; [|reflexivity].
    destruct (asAppError e) as [code|]; [|reflexivity].
    destruct (code =? StatusNotFound); reflexivity.
  - destruct (String.eqb (Type_ b) (BoardTypeOpen E) && IsTemplate b);
      [|reflexivity].
    destruct (GetTeamMember E (TeamID b) userID) as [e|]; [|reflexivity].
    destruct (asAppError e) as [code|]; [|reflexivity].
    destruct (code =? StatusNotFound); reflexivity.
Qed.

Lemma getMemberForBoard_explicit (E : Env) (boardID userID : string)
    (st : Store) :
  hasExplicit boardID userID st = true ->
  exists m, getMemberForBoard E boardID userID st = (Ok m, st).
Proof.
  intros H.
  destruct (selectBoardMembers_some boardID userID st H) as (m & rest & Hs).
  exists m. unfold getMemberForBoard; run. rewrite Hs. reflexivity.
Qed.

(** ** C10 *)

(** C10. With no explicit row, the lookup of the reserved system user
    answers NotFound for the user id and leaves the store as it is, whatever
    the user directory, the board lookup and the channel and team rosters
    would say: two environments that agree on the reserved id give the same
    answer. *)
Theorem getMemberForBoard_system_user (E : Env) (boardID : string) (st : Store) :
  hasExplicit boardID (SystemUserID E) st = false ->
  getMemberForBoard E boardID (SystemUserID E) st
    = (Err (ErrNotFound (SystemUserID E)), st)
  /\ forall E' : Env,
       SystemUserID E' = SystemUserID E ->
       getMemberForBoard E' boardID (SystemUserID E) st
       = getMemberForBoard E boardID (SystemUserID E) st.
Proof.
  intros H.
  assert (R : forall E0 : Env, SystemUserID E0 = SystemUserID E ->
            getMemberForBoard E0 boardID (SystemUserID E) st
            = (Err (ErrNotFound (SystemUserID E)), st)).
  { intros E0 HE. unfold getMemberForBoard; run.
    rewrite (selectBoardMembers_none _ _ _ H), HE, String.eqb_refl.
    reflexivity. }
  split; [apply R; reflexivity|].
  intros E' HE. rewrite (R E' HE), (R E eq_refl). reflexivity.
Qed.

(** ** C5 *)


(** ** Saving and removing members *)

Section Upsert.

Variable row : BoardMemberRow.

Let key := isKey (board_id row) (user_id row).

Lemma isKey_self : key row = true.
Proof. unfold key, isKey. rewrite !String.eqb_refl. reflexivity. Qed.


Lemma upsertMember_present (l : list BoardMemberRow) :
  existsb key (upsertMember row l) = true.
Proof.
  unfold upsertMember. fold key.
  destruct (existsb key l) eqn:Hex.
  - induction l as [|r l IH]; cbn in *; [discriminate|].
    destruct (key r) eqn:Hr; cbn.
    + unfold key, isKey in *; cbn. rewrite Hr. reflexivity.
    + rewrite Hr. cbn. auto.
  - rewrite existsb_app. cbn. rewrite isKey_self.
    rewrite orb_true_r. reflexivity.
Qed.

Lemma upsertMember_flags (l : list BoardMemberRow) (r : BoardMemberRow) :
  In r (upsertMember row l) -> key r = true ->
  scheme_admin r = scheme_admin row
  /\ scheme_editor r = scheme_editor row
  /\ scheme_commenter r = scheme_commenter row
  /\ scheme_viewer r = scheme_viewer row.
Proof.
  unfold upsertMember. fold key.
  destruct (existsb key l) eqn:Hex.
  - intros Hin Hk. apply in_map_iff in Hin as (r0 & Hr0 & _).
    destruct (key r0) eqn:Hk0.
    + subst r; cbn; auto.
    + subst r0. congruence.
  - intros Hin Hk. apply in_app_iff in Hin as [Hin|[<-|[]]]; [|auto].
    assert (existsb key l = true) by (apply existsb_exists; eauto).
    congruence.
Qed.

Lemma upsertMember_others (l : list BoardMemberRow) :
  List.filter (fun r => negb (key r)) (upsertMember row l)
  = List.filter (fun r => negb (key r)) l.
Proof.
  unfold upsertMember. fold key.
  destruct (existsb key l).
  - induction l as [|r l IH]; cbn; [reflexivity|].
    destruct (key r) eqn:Hr; cbn.
    + unfold key, isKey in *; cbn. rewrite Hr. cbn. exact IH.
    + rewrite Hr. cbn. rewrite IH. reflexivity.
  - rewrite List.filter_app. cbn. rewrite isKey_self. cbn.
    apply app_nil_r.
Qed.

End Upsert.

(** [saveMember], one outcome of its lookup at a time. *)
Lemma saveMember_run (E : Env) (bm : BoardMember) (ts : Z) (st : Store) :
  saveMember E bm ts st =
  match (getMemberForBoard E (BoardID bm) (UserID bm) st).1 with
  | Ok _ => (Ok bm, set_board_members (upsertMember (memberValues bm)) st)
  | Err e =>
      if IsErrNotFound E e then
        (Ok bm,
         set_board_members_history (fun l => (l ++ [createdRow bm ts])%list)
           (set_board_members (upsertMember (memberValues bm)) st))
      else (Err e, st)
  | Panic msg => (Panic msg, st)
  end.
Proof.
  unfold saveMember, unlessNotFound; run.
  rewrite getMemberForBoard_reads.
  destruct (getMemberForBoard E (BoardID bm) (UserID bm) st).1 as [m|e|msg];
    cbn; try reflexivity.
  destruct (IsErrNotFound E e); reflexivity.
Qed.



(** C7. [deleteMember] succeeds; afterwards no row of the pair is left and
    the other rows are as they were; [board_members_history] gains exactly
    one row, with action "deleted", when a row of the pair was there, and no
    row when none was; a second call changes nothing. *)
Theorem deleteMember_history (boardID userID : string) (ts ts' : Z)
    (st : Store) :
  (deleteMember boardID userID ts st).1 = Ok tt
  /\ board_members (deleteMember boardID userID ts st).2
     = List.filter (fun r => negb (isKey boardID userID r)) (board_members st)
  /\ hasExplicit boardID userID (deleteMember boardID userID ts st).2 = false
  /\ board_members_history (deleteMember boardID userID ts st).2
     = (board_members_history st
        ++ if hasExplicit boardID userID st
           then [mkMemberHistoryRow boardID userID "deleted" ts]
           else [])%list
  /\ deleteMember boardID userID ts' (deleteMember boardID userID ts st).2
     = (Ok tt, (deleteMember boardID userID ts st).2).
Proof.
  assert (D : forall t s,
    deleteMember boardID userID t s =
    (Ok tt,
     if hasExplicit boardID userID s then
       set_board_members_history
         (fun l => (l ++ [mkMemberHistoryRow boardID userID "deleted" t])%list)
         (set_board_members
            (List.filter (fun r => negb (isKey boardID userID r))) s)
     else set_board_members
            (List.filter (fun r => negb (isKey boardID userID r))) s)).
  { intros t s. unfold deleteMember, hasExplicit; run. cbn.
    rewrite filter_key_count.
    destruct (existsb (isKey boardID userID) (board_members s)); reflexivity. }
  assert (G : hasExplicit boardID userID (deleteMember boardID userID ts st).2
              = false).
  { rewrite D. cbn [snd]. unfold hasExplicit.
    destruct (existsb (isKey boardID userID) (board_members st)); cbn;
      apply existsb_filter_out. }
  repeat split.
  - rewrite D; reflexivity.
  - rewrite D. cbn [snd]. destruct (hasExplicit boardID userID st); reflexivity.
  - exact G.
  - rewrite D. cbn [snd].
    destruct (hasExplicit boardID userID st); cbn; [reflexivity|].
    symmetry; apply app_nil_r.
  - rewrite (D ts'), G. f_equal.
    generalize G. unfold hasExplicit.
    destruct (deleteMember boardID userID ts st).2 as [b h m mh t c k]; cbn.
    intros Hm. unfold set_board_members; cbn.
    rewrite (filter_out_absent boardID userID m Hm). reflexivity.
Qed.

(** ** The history of a board, newest first *)

Section Ordering.

Context {A : Type} (leb : A -> A -> bool).

(** An element that nothing in the list comes before stays at the head. *)
Lemma insertSorted_behind (x top : A) (l : list A) :
  leb x top = false ->
  insertSorted leb x (top :: l) = top :: insertSorted leb x l.
Proof. intros H; cbn; rewrite H; reflexivity. Qed.

Lemma orderBy_last_first (l : list A) (top : A) :
  (forall x, In x l -> leb x top = false) ->
  orderBy leb (l ++ [top]) = top :: orderBy leb l.
Proof.
  unfold orderBy. induction l as [|x l IH]; intros H; [reflexivity|].
  cbn [app fold_right]. rewrite IH by (intros y Hy; apply H; right; exact Hy).
  apply insertSorted_behind, H; left; reflexivity.
Qed.

End Ordering.

Lemma getBoardHistory_reads (boardID : string) (opts : QueryBoardHistoryOptions)
    (st : Store) :
  (getBoardHistory boardID opts st).2 = st.
Proof. reflexivity. Qed.

Lemma getBoardHistory_latest (boardID : string) (st : Store) :
  (getBoardHistory boardID latest st).1
  = Ok (map snapshot
          (firstn 1 (orderBy (historyOrder true)
             (List.filter (fun r => String.eqb (ID (snapshot r)) boardID)
                          (boards_history st))))).
Proof. reflexivity. Qed.

(** A snapshot appended with a stamp after all the others of its board is
    what the newest-first query with limit 1 returns. *)
Lemma getBoardHistory_appended (ts : Z) (b : Board) (st : Store) :
  newerThanAll (ID b) ts (UpdateAt b) st ->
  (getBoardHistory (ID b) latest (execInsertBoardHistory ts b st).2).1 = Ok [b].
Proof.
  intros Hnew. rewrite getBoardHistory_latest.
  change (boards_history (execInsertBoardHistory ts b st).2)
    with (boards_history st ++ [mkHistoryRow ts b])%list.
  rewrite List.filter_app.
  assert (F : List.filter (fun r => String.eqb (ID (snapshot r)) (ID b))
                          [mkHistoryRow ts b] = [mkHistoryRow ts b])
    by (cbn; rewrite String.eqb_refl; reflexivity).
  rewrite F, orderBy_last_first; [reflexivity|].
  intros x Hx. apply List.filter_In in Hx as [Hin Hid].
  apply String.eqb_eq in Hid. unfold historyOrder.
  exact (Hnew x Hin Hid).
Qed.

(** ** C4 *)

(** C4. When the board id has no snapshot in [boards_history], and when the
    newest snapshot of the board has [DeleteAt] 0, [undeleteBoard] succeeds
    and leaves the store as it is: the live rows, the history and the calls
    made to the children collaborator. *)
Theorem undeleteBoard_noop (E : Env) (boardID modifiedBy : string)
    (now ts : Z) (st : Store) :
  (forall r, In r (boards_history st) -> ID (snapshot r) <> boardID)
  \/ (exists b rest, (getBoardHistory boardID latest st).1 = Ok (b :: rest)
                     /\ DeleteAt b = 0) ->
  undeleteBoard E boardID modifiedBy now ts st = (Ok tt, st).
Proof.
  intros [Hnone|(b & rest & Hb & Hlive)].
  - assert (F : List.filter (fun r => String.eqb (ID (snapshot r)) boardID)
                            (boards_history st) = []).
    { induction (boards_history st) as [|r l IH]; [reflexivity|]. cbn.
      destruct (String.eqb (ID (snapshot r)) boardID) eqn:Hid.
      - apply String.eqb_eq in Hid. exfalso. apply (Hnone r); [left|]; auto.
      - apply IH. intros r' Hr'. apply Hnone. right; exact Hr'. }
    assert (G : getBoardHistory boardID latest st = (Ok [], st)).
    { apply injective_projections; [|reflexivity].
      cbn [fst]. rewrite getBoardHistory_latest, F. reflexivity. }
    unfold undeleteBoard, bind. rewrite G. reflexivity.
  - assert (G : getBoardHistory boardID latest st = (Ok (b :: rest), st)).
    { apply injective_projections; [exact Hb|reflexivity]. }
    unfold undeleteBoard, bind. rewrite G, Hlive. reflexivity.
Qed.

(** ** Reading and writing live boards *)

Lemma getBoard_run (boardID : string) (st : Store) :
  getBoard boardID st =
  match liveRows boardID st with
  | [] => (Err (ErrNotFound "boards"), st)
  | b :: _ => (Ok b, st)
  end.
Proof.
  unfold getBoard, getBoardByCondition, getBoardsByCondition,
    getBoardsFieldsByCondition, liveRows; run.
  rewrite (List.filter_ext
             (fun b => forallb (fun c => c b) [fun b0 => String.eqb (ID b0) boardID])
             (fun b => String.eqb (ID b) boardID))
    by (intros b; cbn; apply andb_true_r).
  destruct (List.filter _ (boards st)); reflexivity.
Qed.

Lemma liveRows_none (boardID : string) (st : Store) :
  liveRows boardID st = [] ->
  existsb (fun b => String.eqb (ID b) boardID) (boards st) = false.
Proof.
  unfold liveRows. induction (boards st) as [|b l IH]; cbn; [reflexivity|].
  destruct (String.eqb (ID b) boardID); [discriminate|]. exact IH.
Qed.

Lemma setTrackingTemplateId_reads (E : Env) (board : Board) (st : Store) :
  (setTrackingTemplateId E board st).2 = st.
Proof.
  unfold setTrackingTemplateId.
  destruct (IsTemplate board && String.eqb (TeamID board) (GlobalTeamID E));
    [destruct (Properties board)|]; reflexivity.
Qed.

Lemma setTrackingTemplateId_ID (E : Env) (board b1 : Board) (st : Store) :
  (setTrackingTemplateId E board st).1 = Ok b1 -> ID b1 = ID board.
Proof.
  unfold setTrackingTemplateId.
  destruct (IsTemplate board && String.eqb (TeamID board) (GlobalTeamID E));
    [destruct (Properties board)|]; cbn; intros H; inversion H; reflexivity.
Qed.

(** [insertBoard], one step at a time. *)
Lemma insertBoard_run (E : Env) (board : Board) (userID : string) (now ts : Z)
    (st : Store) :
  insertBoard E board userID now ts st =
  match (setTrackingTemplateId E board st).1 with
  | Ok b1 =>
      match marshalProperties E (Properties b1) with
      | Some e => (Err e, st)
      | None =>
          match marshalCardProperties E (CardProperties b1) with
          | Some e => (Err e, st)
          | None =>
              let b2 := with_Modified userID now b1 in
              match liveRows (ID b1) st with
              | _ :: _ => (Ok b2, afterUpdate ts b2 st)
              | [] =>
                  if IsErrNotFound E (ErrNotFound "boards") then
                    (Ok (with_Created userID now b2),
                     afterInsert ts (with_Created userID now b2) st)
                  else
                    (Err (Errorf
                       "insertBoard error occurred while fetching existing board %s: %w"
                       (ID b1) (ErrNotFound "boards")), st)
              end
          end
      end
  | Err e => (Err e, st)
  | Panic msg => (Panic msg, st)
  end.
Proof.
  unfold insertBoard, bind at 1.
  pose proof (setTrackingTemplateId_reads E board st) as R.
  destruct (setTrackingTemplateId E board st) as [[b1|e|msg] s1];
    cbn in R; subst s1; cbn [fst]; try reflexivity.
  unfold check at 1, bind at 1.
  destruct (marshalProperties E (Properties b1)); [reflexivity|].
  unfold ret at 1, check at 1, bind at 1.
  destruct (marshalCardProperties E (CardProperties b1)); [reflexivity|].
  unfold ret at 1, unlessNotFound, try, bind at 1, bind at 1.
  rewrite getBoard_run.
  destruct (liveRows (ID b1) st) as [|row rows] eqn:Hrows; cbn [fst snd].
  - destruct (IsErrNotFound E (ErrNotFound "boards")); [|reflexivity].
    unfold ret at 1, bind at 1, try, execInsertBoard, bind, gets.
    change (ID (with_Created userID now (with_Modified userID now b1)))
      with (ID b1).
    rewrite (liveRows_none _ _ Hrows). reflexivity.
  - reflexivity.
Qed.

Lemma setTrackingTemplateId_fields (E : Env) (board b1 : Board) (st : Store) :
  (setTrackingTemplateId E board st).1 = Ok b1 ->
  exists p, b1 = with_Properties p board.
Proof.
  unfold setTrackingTemplateId.
  destruct (IsTemplate board && String.eqb (TeamID board) (GlobalTeamID E));
    [destruct (Properties board) as [m|] eqn:Hp|]; cbn; intros H;
    try discriminate; injection H as <-.
  - eauto.
  - exists (Properties board). destruct board; reflexivity.
Qed.

Lemma liveRows_In (boardID : string) (st : Store) (row : Board) :
  In row (liveRows boardID st) <-> In row (boards st) /\ ID row = boardID.
Proof.
  unfold liveRows. rewrite List.filter_In, String.eqb_eq. reflexivity.
Qed.

Lemma liveRows_updated (b : Board) (st : Store) :
  liveRows (ID b) (execUpdateBoard b st).2
  = map (updatedRow b) (liveRows (ID b) st).
Proof.
  unfold liveRows, execUpdateBoard, modify, set_boards; cbn.
  induction (boards st) as [|row l IH]; cbn; [reflexivity|].
  destruct (String.eqb (ID row) (ID b)) eqn:Hid; cbn; rewrite Hid, IH;
    reflexivity.
Qed.

Lemma liveRows_inserted (b : Board) (st : Store) :
  liveRows (ID b) st = [] ->
  liveRows (ID b) (set_boards (fun l => (l ++ [b])%list) st) = [b].
Proof.
  unfold liveRows, set_boards; cbn. intros H.
  rewrite List.filter_app, H. cbn. rewrite String.eqb_refl. reflexivity.
Qed.

(** ** C3 *)


(** ** C8 *)

Lemma setTrackingTemplateId_template (E : Env) (board : Board) (st : Store) :
  IsTemplate board = true -> TeamID board = GlobalTeamID E ->
  setTrackingTemplateId E board st =
  match Properties board with
  | None => (Panic "assignment to entry in nil map", st)
  | Some m =>
      (Ok (with_Properties
             (Some (<[trackingTemplateId :=
                        JString (sha256_hex E (Title board))]> m)) board), st)
  end.
Proof.
  intros Ht Hg. unfold setTrackingTemplateId.
  rewrite Ht, Hg, String.eqb_refl. cbn.
  destruct (Properties board); reflexivity.
Qed.

(** C8. For a template of the reserved global team, [insertBoard] writes
    the key "trackingTemplateId", bound to the hex digest of the title, into
    [Properties] before anything is marshalled.  On a nil map the write
    panics and the store is untouched, whatever the encoder would have said.
    On a map that is there no panic can occur: the encoder is asked about
    the map with the key written, its refusal is the error returned, and on
    success the board returned, every live row of the id and the snapshot
    added to the history carry that map. *)
Theorem insertBoard_tracking (E : Env) (board : Board) (userID : string)
    (now ts : Z) (st : Store) :
  IsTemplate board = true -> TeamID board = GlobalTeamID E ->
  (Properties board = None ->
     insertBoard E board userID now ts st
     = (Panic "assignment to entry in nil map", st))
  /\ (forall m : gmap string JSON, Properties board = Some m ->
      let m' := <[trackingTemplateId := JString (sha256_hex E (Title board))]> m in
      let r := insertBoard E board userID now ts st in
      m' !! trackingTemplateId = Some (JString (sha256_hex E (Title board)))
      /\ (forall msg, r.1 <> Panic msg)
      /\ (forall e, marshalProperties E (Some m') = Some e -> r = (Err e, st))
      /\ (forall b', r.1 = Ok b' ->
            Properties b' = Some m'
            /\ (forall row, In row (boards r.2) -> ID row = ID board ->
                  Properties row = Some m')
            /\ boards_history r.2
               = (boards_history st ++ [mkHistoryRow ts b'])%list)).
Proof.
  intros Ht Hg.
  pose proof (setTrackingTemplateId_template E board st Ht Hg) as T.
  split.
  - intros Hp. rewrite insertBoard_run, T, Hp. reflexivity.
  - intros m Hp; cbv zeta.
    rewrite Hp in T. rewrite insertBoard_run, T. cbn [fst].
    set (m' := <[trackingTemplateId := JString (sha256_hex E (Title board))]> m).
    change (Properties (with_Properties (Some m') board)) with (Some m').
    change (ID (with_Properties (Some m') board)) with (ID board).
    split; [apply lookup_insert_eq|].
    split; [|split].
    + intros msg.
      destruct (marshalProperties E (Some m')); [discriminate|].
      destruct (marshalCardProperties E _); [discriminate|].
      destruct (liveRows (ID board) st); [|discriminate].
      destruct (IsErrNotFound E _); discriminate.
    + intros e He. rewrite He. reflexivity.
    + intros b'.
      destruct (marshalProperties E (Some m')); [discriminate|].
      destruct (marshalCardProperties E _); [discriminate|].
      destruct (liveRows (ID board) st) as [|row0 rows] eqn:Hrows.
      * destruct (IsErrNotFound E _); [|discriminate].
        cbn [fst snd]. intros H; injection H as <-.
        split; [reflexivity|]. split; [|reflexivity].
        intros row Hin Hid. cbn in Hin.
        apply in_app_iff in Hin as [Hin|[<-|[]]]; [|reflexivity].
        assert (Hl : In row (liveRows (ID board) st))
          by (apply liveRows_In; auto).
        rewrite Hrows in Hl. destruct Hl.
      * cbn [fst snd]. intros H; injection H as <-.
        split; [reflexivity|]. split; [|reflexivity].
        intros row Hin Hid. cbn in Hin.
        apply in_map_iff in Hin as (row1 & Hrow & _).
        destruct (String.eqb (ID row1) (ID board)) eqn:H1.
        -- subst row. reflexivity.
        -- subst row1. apply String.eqb_neq in H1. contradiction.
Qed.

(** ** C1 *)

Lemma In_remove_dups (l : list Board) (b : Board) :
  In b (remove_dups l) <-> In b l.
Proof. rewrite <- !list_elem_of_In. apply elem_of_remove_dups. Qed.

(** C1, as the code has it.  For a guest the statement never holds the
    channel-membership select, and holds the team-wide select of open boards
    exactly when [includePublicBoards] is set: the search succeeds, reads
    only, and a board is among its results exactly when the
    explicit-membership select returns it or, with [includePublicBoards]
    set, the team-wide select does. *)
Theorem searchBoardsForUser_guest (E : Env) (term : string)
    (searchField : BoardSearchField) (userID : string)
    (includePublicBoards : bool) (st : Store) (user : User) :
  getUserByID E userID = Ok user ->
  IsGuest user = true ->
  exists found,
    searchBoardsForUser E term searchField userID includePublicBoards st
    = (Ok found, st)
    /\ branches (unionQ user includePublicBoards)
       = boardMembersQ :: (if includePublicBoards then [teamMembersQ] else [])
    /\ (forall b,
          In b found <->
          In b (selectBranch E userID (searchConditions E term searchField)
                             boardMembersQ st)
          \/ (includePublicBoards = true
              /\ In b (selectBranch E userID
                                    (searchConditions E term searchField)
                                    teamMembersQ st))).
Proof.
  intros Hu Hg. unfold searchBoardsForUser; run. rewrite Hu.
  unfold unionQ. rewrite Hg. cbn [negb].
  destruct includePublicBoards; cbn [addUnion branches runQuery];
    eexists; (split; [reflexivity|]); (split; [reflexivity|]); intros b.
  - rewrite In_remove_dups, in_app_iff. cbn [flat_map].
    rewrite app_nil_r. intuition.
  - intuition. discriminate.
Qed.

(** ** Deleting and restoring a board *)


Lemma deleteBoardAndChildren_run (E : Env) (boardID userID : string)
    (keepChildren : bool) (now ts : Z) (st : Store) (board : Board)
    (rest : list Board) :
  liveRows boardID st = board :: rest ->
  marshalProperties E (Properties board) = None ->
  marshalCardProperties E (CardProperties board) = None ->
  keepChildren = true \/ deleteBlockChildren E boardID EmptyString userID = None ->
  exists st',
    deleteBoardAndChildren E boardID userID keepChildren now ts st = (Ok tt, st')
    /\ boards_history st'
       = (boards_history st ++ [mkHistoryRow ts (deletedSnapshot board userID now)])%list
    /\ boards st'
       = List.filter (fun b => negb (String.eqb (ID b) boardID
                                     && String.eqb (TeamID b) (TeamID board)))
                     (boards st).
Proof.
  intros Hrows Hp Hc Hk.
  unfold deleteBoardAndChildren, bind at 1. rewrite getBoard_run, Hrows.
  unfold bind at 1. rewrite Hp. unfold check at 1, ret at 1, bind at 1.
  rewrite Hc. unfold check at 1, ret at 1.
  destruct Hk as [->|Hk].
  - eexists. split; [reflexivity|]. split; reflexivity.
  - destruct keepChildren.
    + eexists. split; [reflexivity|]. split; reflexivity.
    + unfold callDeleteBlockChildren. rewrite Hk.
      eexists. split; [reflexivity|]. split; reflexivity.
Qed.

Lemma undeleteBoard_run (E : Env) (boardID modifiedBy : string) (now ts : Z)
    (st : Store) (board : Board) :
  (getBoardHistory boardID latest st).1 = Ok [board] ->
  DeleteAt board <> 0 ->
  marshalProperties E (Properties board) = None ->
  marshalCardProperties E (CardProperties board) = None ->
  liveRows (ID board) st = [] ->
  undeleteBlockChildren E (ID board) EmptyString modifiedBy = None ->
  exists st',
    undeleteBoard E boardID modifiedBy now ts st = (Ok tt, st')
    /\ boards_history st'
       = (boards_history st ++ [mkHistoryRow ts (restoredRow board modifiedBy now)])%list
    /\ boards st' = (boards st ++ [restoredRow board modifiedBy now])%list.
Proof.
  intros Hh Hd Hp Hc Hlive Hk.
  assert (G : getBoardHistory boardID latest st = (Ok [board], st))
    by (apply injective_projections; [exact Hh|reflexivity]).
  unfold undeleteBoard, bind at 1. rewrite G.
  apply Z.eqb_neq in Hd. rewrite Hd.
  unfold bind at 1. rewrite Hp. unfold check at 1, ret at 1, bind at 1.
  rewrite Hc. unfold check at 1, ret at 1.
  unfold bind at 1, execInsertBoardHistory at 1, modify at 1.
  unfold bind at 1, execInsertBoard, bind at 1, gets at 1.
  cbn [boards set_boards_history ID].
  rewrite (liveRows_none _ _ Hlive).
  unfold callUndeleteBlockChildren. rewrite Hk.
  eexists. split; [reflexivity|]. split; reflexivity.
Qed.

Lemma liveRows_deleted (boardID : string) (board : Board) (l : list Board) :
  ID board = boardID ->
  List.filter (fun b => String.eqb (ID b) boardID) l = [board] ->
  List.filter (fun b => String.eqb (ID b) boardID)
    (List.filter (fun b => negb (String.eqb (ID b) boardID
                                 && String.eqb (TeamID b) (TeamID board))) l)
  = [].
Proof.
  intros Hid. induction l as [|b l IH]; cbn; [reflexivity|].
  destruct (String.eqb (ID b) boardID) eqn:Hb; cbn.
  - intros H; injection H as -> Hl. rewrite String.eqb_refl. cbn.
    clear IH Hb. induction l as [|b l IH]; cbn in *; [reflexivity|].
    destruct (String.eqb (ID b) boardID) eqn:Hb; [discriminate|].
    cbn. rewrite Hb. auto.
  - rewrite Hb. exact IH.
Qed.

(** What delete followed by undelete gives back: the row as it was, with
    the undelete's actor and time, [DeleteAt] 0, and no channel. *)
Lemma deleteBoard_undeleteBoard (E : Env) (boardID userID modifiedBy : string)
    (keepChildren : bool) (now1 ts1 now2 ts2 : Z) (st : Store) (board : Board) :
  liveRows boardID st = [board] ->
  marshalProperties E (Properties board) = None ->
  marshalCardProperties E (CardProperties board) = None ->
  keepChildren = true \/ deleteBlockChildren E boardID EmptyString userID = None ->
  undeleteBlockChildren E boardID EmptyString modifiedBy = None ->
  now1 <> 0 ->
  newerThanAll boardID ts1 now1 st ->
  exists st1 st2,
    deleteBoardAndChildren E boardID userID keepChildren now1 ts1 st = (Ok tt, st1)
    /\ (getBoard boardID st1).1 = Err (ErrNotFound "boards")
    /\ undeleteBoard E boardID modifiedBy now2 ts2 st1 = (Ok tt, st2)
    /\ (getBoard boardID st2).1 = Ok (restoredRow board modifiedBy now2).
Proof.
  intros Hrows Hp Hc Hk Hu Hnow Hnew.
  assert (Hid : ID board = boardID).
  { apply (liveRows_In boardID st board). rewrite Hrows. left; reflexivity. }
  destruct (deleteBoardAndChildren_run E boardID userID keepChildren now1 ts1
              st board [] Hrows Hp Hc Hk) as (st1 & Hdel & Hh1 & Hb1).
  assert (Hgone : liveRows boardID st1 = []).
  { unfold liveRows. rewrite Hb1. apply liveRows_deleted; assumption. }
  assert (Hlatest : (getBoardHistory boardID latest st1).1
                    = Ok [deletedSnapshot board userID now1]).
  { rewrite getBoardHistory_latest, Hh1.
    rewrite <- Hid in Hnew |- *.
    exact (getBoardHistory_appended ts1 (deletedSnapshot board userID now1)
             st Hnew). }
  destruct (undeleteBoard_run E boardID modifiedBy now2 ts2 st1
              (deletedSnapshot board userID now1) Hlatest Hnow Hp Hc)
    as (st2 & Hun & Hh2 & Hb2).
  { cbn [ID deletedSnapshot]. rewrite Hid. exact Hgone. }
  { cbn [ID deletedSnapshot]. rewrite Hid. exact Hu. }
  exists st1, st2. split; [exact Hdel|].
  split; [rewrite getBoard_run, Hgone; reflexivity|].
  split; [exact Hun|].
  rewrite getBoard_run. unfold liveRows. rewrite Hb2, List.filter_app.
  fold (liveRows boardID st1). rewrite Hgone. cbn.
  rewrite Hid, String.eqb_refl. reflexivity.
Qed.

(** * The operations on the sample installation *)

(** C1, where the sentence fails.  A guest who belongs to the team of an
    open board, with no explicit row and no channel: with
    [includePublicBoards] set the board is found, through the team-wide
    select, though neither the explicit-membership select nor the
    channel-membership select returns it. *)
Lemma searchBoardsForUser_guest_counterexample :
  getUserByID Sample.env "guest" = Ok (mkUser "guest" true)
  /\ searchBoardsForUser Sample.env EmptyString BoardSearchFieldTitle "guest"
       true Sample.open
     = (Ok [Sample.board "b2" EmptyString], Sample.open)
  /\ selectBranch Sample.env "guest" [] boardMembersQ Sample.open = []
  /\ selectBranch Sample.env "guest" [] channelMembersQ Sample.open = []
  /\ selectBranch Sample.env "guest" [] teamMembersQ Sample.open
     = [Sample.board "b2" EmptyString]
  /\ branches (unionQ (mkUser "guest" true) true) = [boardMembersQ; teamMembersQ].
Proof. repeat split; vm_compute; reflexivity. Qed.

Lemma searchBoardsForUser_guest_witness :
  exists found,
    searchBoardsForUser Sample.env "road" BoardSearchFieldTitle "guest" false
      Sample.open = (Ok found, Sample.open)
    /\ branches (unionQ (mkUser "guest" true) false) = [boardMembersQ]
    /\ (forall b,
          In b found <->
          In b (selectBranch Sample.env "guest"
                  (searchConditions Sample.env "road" BoardSearchFieldTitle)
                  boardMembersQ Sample.open)
          \/ (false = true
              /\ In b (selectBranch Sample.env "guest"
                         (searchConditions Sample.env "road" BoardSearchFieldTitle)
                         teamMembersQ Sample.open))).
Proof.
  exact (searchBoardsForUser_guest Sample.env "road" BoardSearchFieldTitle
           "guest" false Sample.open (mkUser "guest" true) eq_refl eq_refl).
Defined.

(** C2, on a board linked to a channel.  The board is live with channel
    [c1]; it is deleted and undeleted, both with success; the live row read
    back has every field of the row before except [ModifiedBy], [UpdateAt]
    and [DeleteAt] -- and except [ChannelID], which is empty. *)
Theorem undeleteBoard_drops_channel :
  exists st1 st2,
    (getBoard "b1" Sample.linked).1 = Ok (Sample.board "b1" "c1")
    /\ deleteBoardAndChildren Sample.env "b1" "bob" false 200 200 Sample.linked
       = (Ok tt, st1)
    /\ undeleteBoard Sample.env "b1" "carol" 300 300 st1 = (Ok tt, st2)
    /\ (getBoard "b1" st2).1
       = Ok (restoredRow (Sample.board "b1" "c1") "carol" 300)
    /\ ChannelID (Sample.board "b1" "c1") = "c1"
    /\ ChannelID (restoredRow (Sample.board "b1" "c1") "carol" 300) = EmptyString.
Proof.
  destruct (deleteBoard_undeleteBoard Sample.env "b1" "bob" "carol" false
              200 200 300 300 Sample.linked (Sample.board "b1" "c1"))
    as (st1 & st2 & Hdel & _ & Hun & Hget); try reflexivity.
  - right; reflexivity.
  - discriminate.
  - intros r [<-|[]] _. reflexivity.
  - exists st1, st2. repeat split; assumption || reflexivity.
Qed.



Lemma undeleteBoard_noop_witness :
  undeleteBoard Sample.env "b9" "carol" 300 300 Sample.emptyStore
  = (Ok tt, Sample.emptyStore)
  /\ undeleteBoard Sample.env "b1" "carol" 300 300 Sample.linked
     = (Ok tt, Sample.linked).
Proof.
  split.
  - apply undeleteBoard_noop. left. intros r [].
  - apply undeleteBoard_noop. right.
    exists (Sample.board "b1" "c1"), []. split; reflexivity.
Defined.





Lemma insertBoard_tracking_witness :
  insertBoard Sample.env (Sample.template None) "system" 50 50 Sample.emptyStore
  = (Panic "assignment to entry in nil map", Sample.emptyStore)
  /\ forall msg,
       (insertBoard Sample.env (Sample.template (Some ∅)) "system" 50 50
          Sample.emptyStore).1 <> Panic msg.
Proof.
  split.
  - apply (insertBoard_tracking Sample.env (Sample.template None) "system" 50 50
             Sample.emptyStore eq_refl eq_refl).
    reflexivity.
  - destruct (insertBoard_tracking Sample.env (Sample.template (Some ∅))
                "system" 50 50 Sample.emptyStore eq_refl eq_refl) as [_ H].
    exact (proj1 (proj2 (H ∅ eq_refl))).
Defined.


Lemma getMemberForBoard_system_user_witness :
  getMemberForBoard Sample.env "b1" "system" Sample.linked
  = (Err (ErrNotFound "system"), Sample.linked).
Proof.
  exact (proj1 (getMemberForBoard_system_user Sample.env "b1" Sample.linked
                  eq_refl)).
Defined.

(** * More of the file *)

(** ** Reading the history *)

Section OrderByFacts.

Context {A : Type} (leb : A -> A -> bool).

Lemma insertSorted_Permutation (x : A) (l : list A) :
  Permutation (insertSorted leb x l) (x :: l).
Proof.
  induction l as [|y l IH]; cbn; [reflexivity|].
  destruct (leb x y); [reflexivity|].
  rewrite IH. apply perm_swap.
Qed.

Lemma orderBy_Permutation (l : list A) : Permutation (orderBy leb l) l.
Proof.
  unfold orderBy. induction l as [|x l IH]; cbn; [reflexivity|].
  rewrite insertSorted_Permutation, IH. reflexivity.
Qed.

Hypothesis leb_total : forall x y, leb x y = true \/ leb y x = true.
Hypothesis leb_trans :
  forall x y z, leb x y = true -> leb y z = true -> leb x z = true.

Lemma insertSorted_sorted (x : A) (l : list A) :
  StronglySorted (fun a b => leb a b = true) l ->
  StronglySorted (fun a b => leb a b = true) (insertSorted leb x l).
Proof.
  induction 1 as [|y l Hs IH Hy]; cbn.
  - repeat constructor.
  - destruct (leb x y) eqn:Hxy.
    + constructor; [constructor; assumption|].
      constructor; [exact Hxy|].
      apply List.Forall_forall. intros z Hz.
      rewrite List.Forall_forall in Hy. eapply leb_trans; eauto.
    + constructor; [exact IH|].
      apply List.Forall_forall. intros z Hz.
      apply (Permutation_in _ (insertSorted_Permutation x l)) in Hz.
      destruct Hz as [<-|Hz].
      * destruct (leb_total x y) as [H|H]; congruence.
      * rewrite List.Forall_forall in Hy. auto.
Qed.

Lemma orderBy_sorted (l : list A) :
  StronglySorted (fun a b => leb a b = true) (orderBy leb l).
Proof.
  unfold orderBy. induction l as [|x l IH]; cbn; [constructor|].
  apply insertSorted_sorted, IH.
Qed.

End OrderByFacts.

Lemma key_leb_total (a b : Z * Z) : key_leb a b = true \/ key_leb b a = true.
Proof.
  unfold key_leb. destruct a as [a1 a2], b as [b1 b2]; cbn.
  destruct (Z.lt_trichotomy a1 b1) as [H|[H|H]].
  - left. apply orb_true_iff. left. apply Z.ltb_lt, H.
  - subst. destruct (Z.le_ge_cases a2 b2) as [H|H]; [left|right];
      apply orb_true_iff; right; apply andb_true_iff;
      (split; [apply Z.eqb_refl|apply Z.leb_le; lia]).
  - right. apply orb_true_iff. left. apply Z.ltb_lt, H.
Qed.

Lemma key_leb_trans (a b c : Z * Z) :
  key_leb a b = true -> key_leb b c = true -> key_leb a c = true.
Proof.
  unfold key_leb. destruct a as [a1 a2], b as [b1 b2], c as [c1 c2]; cbn.
  rewrite !orb_true_iff, !andb_true_iff, !Z.ltb_lt, !Z.eqb_eq, !Z.leb_le.
  lia.
Qed.

Lemma historyOrder_total (d : bool) (r1 r2 : BoardHistoryRow) :
  historyOrder d r1 r2 = true \/ historyOrder d r2 r1 = true.
Proof. unfold historyOrder. destruct d; apply key_leb_total. Qed.

Lemma historyOrder_trans (d : bool) (r1 r2 r3 : BoardHistoryRow) :
  historyOrder d r1 r2 = true -> historyOrder d r2 r3 = true ->
  historyOrder d r1 r3 = true.
Proof.
  unfold historyOrder. destruct d; intros H1 H2;
    eapply key_leb_trans; eauto.
Qed.

(** The rows [getBoardHistory] keeps before it orders and limits them. *)
Lemma historyWindow_In (boardID : string) (opts : QueryBoardHistoryOptions)
    (st : Store) (r : BoardHistoryRow) :
  let rows0 := List.filter (fun r => String.eqb (ID (snapshot r)) boardID)
                           (boards_history st) in
  let rows1 := if BeforeUpdateAt opts =? 0 then rows0
               else List.filter (fun r => UpdateAt (snapshot r) <? BeforeUpdateAt opts) rows0 in
  let rows2 := if AfterUpdateAt opts =? 0 then rows1
               else List.filter (fun r => AfterUpdateAt opts <? UpdateAt (snapshot r)) rows1 in
  In r rows2 <->
  In r (boards_history st) /\ ID (snapshot r) = boardID
  /\ (BeforeUpdateAt opts <> 0 -> UpdateAt (snapshot r) < BeforeUpdateAt opts)
  /\ (AfterUpdateAt opts <> 0 -> AfterUpdateAt opts < UpdateAt (snapshot r)).
Proof.
  cbv zeta.
  destruct (Z.eqb_spec (BeforeUpdateAt opts) 0) as [Hb|Hb],
           (Z.eqb_spec (AfterUpdateAt opts) 0) as [Ha|Ha];
    rewrite ?List.filter_In, ?String.eqb_eq, ?Z.ltb_lt; intuition.
Qed.

Lemma In_firstn {A : Type} (n : nat) (l : list A) (x : A) :
  In x (firstn n l) -> In x l.
Proof.
  revert n. induction l as [|y l IH]; intros [|n]; cbn; try tauto.
  intros [->|H]; [left; reflexivity|right; eapply IH; exact H].
Qed.

Lemma StronglySorted_firstn {A : Type} (R : A -> A -> Prop) (n : nat)
    (l : list A) :
  StronglySorted R l -> StronglySorted R (firstn n l).
Proof.
  intros H; revert n. induction H as [|x l Hs IH Hx]; intros [|n]; cbn;
    try constructor; [apply IH|].
  apply List.Forall_forall. intros y Hy.
  rewrite List.Forall_forall in Hx. apply Hx.
  eapply In_firstn; exact Hy.
Qed.

(** X1. [getBoardHistory] reads only and succeeds; every snapshot it returns
    is a stored snapshot of the board asked for, strictly inside the time
    window the options give (a bound of 0 is no bound), and with a limit
    other than 0 it returns at most that many. *)
Theorem getBoardHistory_window (boardID : string)
    (opts : QueryBoardHistoryOptions) (st : Store) :
  exists found,
    getBoardHistory boardID opts st = (Ok found, st)
    /\ (forall b, In b found ->
          ID b = boardID
          /\ (BeforeUpdateAt opts <> 0 -> UpdateAt b < BeforeUpdateAt opts)
          /\ (AfterUpdateAt opts <> 0 -> AfterUpdateAt opts < UpdateAt b)
          /\ exists ts, In (mkHistoryRow ts b) (boards_history st))
    /\ (Limit opts <> 0%N -> (length found <= N.to_nat (Limit opts))%nat).
Proof.
  eexists. split; [reflexivity|]. split.
  - intros b Hb. apply in_map_iff in Hb as (r & <- & Hr).
    assert (Hw : In r (orderBy (historyOrder (Descending opts))
      (if AfterUpdateAt opts =? 0
       then if BeforeUpdateAt opts =? 0
            then List.filter (fun r => String.eqb (ID (snapshot r)) boardID)
                             (boards_history st)
            else List.filter (fun r => UpdateAt (snapshot r) <? BeforeUpdateAt opts)
                   (List.filter (fun r => String.eqb (ID (snapshot r)) boardID)
                                (boards_history st))
       else List.filter (fun r => AfterUpdateAt opts <? UpdateAt (snapshot r))
              (if BeforeUpdateAt opts =? 0
               then List.filter (fun r => String.eqb (ID (snapshot r)) boardID)
                                (boards_history st)
               else List.filter (fun r => UpdateAt (snapshot r) <? BeforeUpdateAt opts)
                      (List.filter (fun r => String.eqb (ID (snapshot r)) boardID)
                                   (boards_history st)))))).
    { destruct (Limit opts =? 0)%N; [exact Hr|].
      eapply In_firstn; exact Hr. }
    apply (Permutation_in _ (orderBy_Permutation _ _)) in Hw.
    apply (historyWindow_In boardID opts st r) in Hw
      as (Hin & Hid & Hbefore & Hafter).
    repeat split; try assumption.
    exists (insert_at r). destruct r; exact Hin.
  - intros Hl. apply N.eqb_neq in Hl. rewrite Hl.
    rewrite length_map. apply firstn_le_length.
Qed.

(** X2. The snapshots [getBoardHistory] returns are those of stored rows
    that come out ordered by [(insert_at, update_at)], descending when the
    options say so and ascending otherwise; without a limit no snapshot of
    the board inside the window is left out. *)
Theorem getBoardHistory_ordered (boardID : string)
    (opts : QueryBoardHistoryOptions) (st : Store) :
  exists rows,
    (getBoardHistory boardID opts st).1 = Ok (map snapshot rows)
    /\ StronglySorted
         (fun r1 r2 =>
            if Descending opts then key_leb (historyKey r2) (historyKey r1) = true
            else key_leb (historyKey r1) (historyKey r2) = true) rows
    /\ (forall r, In r rows -> In r (boards_history st))
    /\ (Limit opts = 0%N ->
        forall r, In r (boards_history st) -> ID (snapshot r) = boardID ->
          (BeforeUpdateAt opts <> 0 -> UpdateAt (snapshot r) < BeforeUpdateAt opts) ->
          (AfterUpdateAt opts <> 0 -> AfterUpdateAt opts < UpdateAt (snapshot r)) ->
          In r rows).
Proof.
  eexists. split; [reflexivity|].
  set (window := if AfterUpdateAt opts =? 0 then _ else _).
  assert (S : StronglySorted
                (fun r1 r2 => historyOrder (Descending opts) r1 r2 = true)
                (orderBy (historyOrder (Descending opts)) window)).
  { apply orderBy_sorted.
    - apply historyOrder_total.
    - apply historyOrder_trans. }
  assert (S' : forall l,
    StronglySorted (fun r1 r2 => historyOrder (Descending opts) r1 r2 = true) l ->
    StronglySorted
      (fun r1 r2 =>
         if Descending opts then key_leb (historyKey r2) (historyKey r1) = true
         else key_leb (historyKey r1) (historyKey r2) = true) l).
  { unfold historyOrder. destruct (Descending opts); auto. }
  assert (W : forall r, In r window <->
    In r (boards_history st) /\ ID (snapshot r) = boardID
    /\ (BeforeUpdateAt opts <> 0 -> UpdateAt (snapshot r) < BeforeUpdateAt opts)
    /\ (AfterUpdateAt opts <> 0 -> AfterUpdateAt opts < UpdateAt (snapshot r)))
    by (intros r; apply (historyWindow_In boardID opts st r)).
  split; [|split].
  - apply S'. destruct (Limit opts =? 0)%N; [exact S|].
    apply StronglySorted_firstn, S.
  - intros r Hr.
    assert (Hw : In r (orderBy (historyOrder (Descending opts)) window)).
    { destruct (Limit opts =? 0)%N; [exact Hr|]. eapply In_firstn; exact Hr. }
    apply (Permutation_in _ (orderBy_Permutation _ _)) in Hw.
    apply W in Hw. tauto.
  - intros Hl r Hin Hid Hb Ha. rewrite Hl. cbn.
    apply (Permutation_in _ (Permutation_sym (orderBy_Permutation _ _))).
    apply W. tauto.
Qed.

(** ** Inserting and updating boards *)

(** What a successful [insertBoard] returns, by the path it took. *)
Lemma insertBoard_Ok (E : Env) (board : Board) (userID : string) (now ts : Z)
    (st st' : Store) (b' : Board) :
  insertBoard E board userID now ts st = (Ok b', st') ->
  exists p,
    (liveRows (ID board) st <> [] /\
     b' = with_Modified userID now (with_Properties p board) /\
     st' = afterUpdate ts b' st)
    \/ (liveRows (ID board) st = [] /\
        b' = with_Created userID now
               (with_Modified userID now (with_Properties p board)) /\
        st' = afterInsert ts b' st).
Proof.
  intros Hrun. rewrite insertBoard_run in Hrun.
  destruct (setTrackingTemplateId E board st).1 as [b1|e|msg] eqn:H1;
    try discriminate.
  destruct (setTrackingTemplateId_fields _ _ _ _ H1) as (p & ->).
  destruct (marshalProperties E _); [discriminate|].
  destruct (marshalCardProperties E _); [discriminate|].
  cbv zeta in Hrun.
  change (ID (with_Properties p board)) with (ID board) in Hrun.
  exists p.
  destruct (liveRows (ID board) st) as [|row rows] eqn:Hrows.
  - destruct (IsErrNotFound E (ErrNotFound "boards")); [|discriminate].
    injection Hrun as <- <-. right. auto.
  - injection Hrun as <- <-. left. split; [discriminate|]. auto.
Qed.

(** What [insertBoard] leaves when the id had no live row. *)
Lemma insertBoard_fresh (E : Env) (board : Board) (userID : string)
    (now ts : Z) (st st' : Store) (b' : Board) :
  insertBoard E board userID now ts st = (Ok b', st') ->
  (getBoard (ID board) st).1 = Err (ErrNotFound "boards") ->
  liveRows (ID board) st = []
  /\ exists p,
       b' = with_Created userID now
              (with_Modified userID now (with_Properties p board))
       /\ st' = afterInsert ts b' st.
Proof.
  intros Hrun Hnone. rewrite getBoard_run in Hnone.
  destruct (insertBoard_Ok _ _ _ _ _ _ _ _ Hrun)
    as (p & [(Hrows & _)|(Hrows & Hb & Hst)]).
  - destruct (liveRows (ID board) st); [contradiction|discriminate].
  - split; [exact Hrows|]. exists p. auto.
Qed.





(** ** One live row per id *)

Lemma liveRows_none_notin (boardID : string) (st : Store) :
  liveRows boardID st = [] -> ~ In boardID (map ID (boards st)).
Proof.
  intros Hnone Hin. apply in_map_iff in Hin as (b & Hid & Hb).
  assert (H : In b (liveRows boardID st)) by (apply liveRows_In; auto).
  rewrite Hnone in H. destruct H.
Qed.

Lemma NoDup_map_filter {A B : Type} (f : A -> B) (p : A -> bool) (l : list A) :
  List.NoDup (map f l) -> List.NoDup (map f (List.filter p l)).
Proof.
  induction l as [|x l IH]; cbn; [auto|].
  intros H. apply List.NoDup_cons_iff in H as [Hx Hl].
  destruct (p x); cbn; [|auto].
  apply List.NoDup_cons_iff. split; [|auto].
  intros Hin. apply Hx. apply in_map_iff in Hin as (y & Hy & Hin).
  apply in_map_iff. exists y. split; [exact Hy|].
  apply List.filter_In in Hin. tauto.
Qed.

Lemma insertBoard_boards (E : Env) (board : Board) (userID : string)
    (now ts : Z) (st : Store) :
  let st' := (insertBoard E board userID now ts st).2 in
  map ID (boards st') = map ID (boards st)
  \/ (liveRows (ID board) st = []
      /\ map ID (boards st') = (map ID (boards st) ++ [ID board])%list).
Proof.
  cbv zeta. rewrite insertBoard_run.
  destruct (setTrackingTemplateId E board st).1 as [b1|e|msg] eqn:H1;
    try (left; reflexivity).
  pose proof (setTrackingTemplateId_ID _ _ _ _ H1) as Hid.
  destruct (marshalProperties E _); [left; reflexivity|].
  destruct (marshalCardProperties E _); [left; reflexivity|].
  cbv zeta. rewrite Hid.
  destruct (liveRows (ID board) st) eqn:Hrows.
  - destruct (IsErrNotFound E _); [|left; reflexivity].
    right. split; [reflexivity|]. cbn. rewrite map_app. cbn.
    rewrite Hid. reflexivity.
  - left. cbn. rewrite map_map. apply map_ext. intros r.
    destruct (String.eqb (ID r) (ID b1)); reflexivity.
Qed.

(** X6. That no two live rows share an id is kept by [insertBoard], by
    [patchBoard] and by [deleteBoardAndChildren], whatever their outcome. *)
Theorem uniqueIDs_kept (E : Env) (st : Store) :
  uniqueIDs st ->
  (forall board userID now ts,
     uniqueIDs (insertBoard E board userID now ts st).2)
  /\ (forall boardID boardPatch userID now ts,
        uniqueIDs (patchBoard E boardID boardPatch userID now ts st).2)
  /\ (forall boardID userID keepChildren now ts,
        uniqueIDs (deleteBoardAndChildren E boardID userID keepChildren now ts st).2).
Proof.
  unfold uniqueIDs. intros Hu.
  assert (I : forall board userID now ts,
            List.NoDup (map ID (boards (insertBoard E board userID now ts st).2))).
  { intros board userID now ts.
    destruct (insertBoard_boards E board userID now ts st) as [->|(Hnone & ->)];
      [exact Hu|].
    apply List.NoDup_app; [exact Hu|repeat constructor; intros []|].
    intros x Hx [<-|[]]. exact (liveRows_none_notin _ _ Hnone Hx). }
  split; [exact I|]. split.
  - intros boardID boardPatch userID now ts.
    unfold patchBoard, bind. rewrite getBoard_run.
    destruct (liveRows boardID st); [exact Hu|apply I].
  - intros boardID userID keepChildren now ts.
    unfold deleteBoardAndChildren, bind at 1. rewrite getBoard_run.
    destruct (liveRows boardID st) as [|board rows]; [exact Hu|].
    unfold bind at 1, check at 1.
    destruct (marshalProperties E _); [exact Hu|].
    unfold ret at 1, bind at 1, check at 1.
    destruct (marshalCardProperties E _); [exact Hu|].
    unfold ret at 1.
    assert (F : List.NoDup (map ID (List.filter (fun b =>
                  negb (String.eqb (ID b) boardID
                        && String.eqb (TeamID b) (TeamID board))) (boards st))))
      by (apply NoDup_map_filter, Hu).
    destruct keepChildren; [exact F|].
    unfold callDeleteBlockChildren; run; cbn.
    destruct (deleteBlockChildren E boardID EmptyString userID); exact F.
Qed.

(** ** Deleting, restoring and patching boards *)

Lemma liveRows_unique (boardID : string) (st : Store) (board : Board)
    (rest : list Board) :
  uniqueIDs st -> liveRows boardID st = board :: rest -> rest = [].
Proof.
  unfold uniqueIDs, liveRows.
  induction (boards st) as [|b l IH]; cbn; [discriminate|].
  intros Hu. apply List.NoDup_cons_iff in Hu as [Hb Hl].
  destruct (String.eqb (ID b) boardID) eqn:Hid; [|auto].
  apply String.eqb_eq in Hid. intros H; injection H as _ <-.
  destruct (List.filter _ l) as [|b2 l2] eqn:Hf; [reflexivity|].
  exfalso. apply Hb. apply in_map_iff. exists b2.
  assert (Hin : In b2 (List.filter (fun b0 => String.eqb (ID b0) boardID) l))
    by (rewrite Hf; left; reflexivity).
  apply List.filter_In in Hin as [Hin Hid2]. apply String.eqb_eq in Hid2.
  split; [congruence|exact Hin].
Qed.

Lemma liveRows_filtered_other (boardID other : string) (q : Board -> bool)
    (l : list Board) :
  (forall b, ID b = other -> q b = true) ->
  List.filter (fun b => String.eqb (ID b) other) (List.filter q l)
  = List.filter (fun b => String.eqb (ID b) other) l.
Proof.
  intros Hq. induction l as [|b l IH]; cbn; [reflexivity|].
  destruct (String.eqb (ID b) other) eqn:Hid.
  - apply String.eqb_eq in Hid. rewrite (Hq b Hid). cbn.
    rewrite Hid, String.eqb_refl, IH. reflexivity.
  - destruct (q b); cbn; rewrite ?Hid; exact IH.
Qed.

(** X7. [deleteBoardAndChildren] of an id that has no live row answers
    NotFound and leaves the store as it was: no snapshot is written and the
    children collaborator is not called. *)
Theorem deleteBoardAndChildren_missing (E : Env) (boardID userID : string)
    (keepChildren : bool) (now ts : Z) (st : Store) :
  (forall b, In b (boards st) -> ID b <> boardID) ->
  deleteBoardAndChildren E boardID userID keepChildren now ts st
  = (Err (ErrNotFound "boards"), st).
Proof.
  intros Hnone.
  assert (Hl : liveRows boardID st = []).
  { destruct (liveRows boardID st) as [|b l] eqn:Hl; [reflexivity|].
    assert (Hin : In b (liveRows boardID st)) by (rewrite Hl; left; reflexivity).
    apply liveRows_In in Hin as [Hin Hid]. destruct (Hnone b Hin Hid). }
  unfold deleteBoardAndChildren, bind at 1. rewrite getBoard_run, Hl.
  reflexivity.
Qed.

(** X8. On a board that is live, with ids unique and an encoder that
    accepts its properties, [deleteBoardAndChildren] appends one snapshot --
    the row as read, with the acting user as modifier and the clock reading
    as update and delete time -- and removes the live row, so that the id
    reads NotFound, leaving the rows of other ids alone.  With
    [keepChildren] it succeeds without calling the children collaborator;
    without it the collaborator is called once, after the row is gone, and
    its refusal is the error returned. *)
Theorem deleteBoardAndChildren_effect (E : Env) (boardID userID : string)
    (keepChildren : bool) (now ts : Z) (st : Store) (board : Board) :
  uniqueIDs st ->
  (getBoard boardID st).1 = Ok board ->
  marshalProperties E (Properties board) = None ->
  marshalCardProperties E (CardProperties board) = None ->
  let r := deleteBoardAndChildren E boardID userID keepChildren now ts st in
  r.1 = (if keepChildren then Ok tt
         else match deleteBlockChildren E boardID EmptyString userID with
              | None => Ok tt
              | Some e => Err e
              end)
  /\ boards_history r.2
     = (boards_history st
        ++ [mkHistoryRow ts (deletedSnapshot board userID now)])%list
  /\ (getBoard boardID r.2).1 = Err (ErrNotFound "boards")
  /\ (forall other, other <> boardID -> liveRows other r.2 = liveRows other st)
  /\ children r.2
     = (children st
        ++ if keepChildren then []
           else [DeleteBlockChildren boardID EmptyString userID])%list.
Proof.
  intros Hu Hget Hp Hc; cbv zeta. rewrite getBoard_run in Hget.
  destruct (liveRows boardID st) as [|b rest] eqn:Hrows; [discriminate|].
  injection Hget as ->.
  pose proof (liveRows_unique _ _ _ _ Hu Hrows) as ->.
  assert (Hid : ID board = boardID).
  { apply (liveRows_In boardID st board). rewrite Hrows. left; reflexivity. }
  assert (R : deleteBoardAndChildren E boardID userID keepChildren now ts st
    = (let st1 :=
         set_boards (List.filter (fun b =>
           negb (String.eqb (ID b) boardID
                 && String.eqb (TeamID b) (TeamID board))))
           (execInsertBoardHistory ts (deletedSnapshot board userID now) st).2 in
       if keepChildren then (Ok tt, st1)
       else
         (match deleteBlockChildren E boardID EmptyString userID with
          | None => Ok tt
          | Some e => Err e
          end,
          set_children (fun l =>
            (l ++ [DeleteBlockChildren boardID EmptyString userID])%list) st1))).
  { unfold deleteBoardAndChildren, bind at 1. rewrite getBoard_run, Hrows.
    unfold bind at 1. rewrite Hp. unfold check at 1, ret at 1, bind at 1.
    rewrite Hc. unfold check at 1, ret at 1. cbv zeta.
    destruct keepChildren; [reflexivity|].
    unfold callDeleteBlockChildren; run; cbn.
    destruct (deleteBlockChildren E boardID EmptyString userID); reflexivity. }
  rewrite R; cbv zeta.
  assert (Hgone : forall s, boards s = List.filter (fun b =>
             negb (String.eqb (ID b) boardID
                   && String.eqb (TeamID b) (TeamID board))) (boards st) ->
           (getBoard boardID s).1 = Err (ErrNotFound "boards")
           /\ forall other, other <> boardID ->
                liveRows other s = liveRows other st).
  { intros s Hs. split.
    - rewrite getBoard_run. unfold liveRows. rewrite Hs.
      rewrite (liveRows_deleted boardID board (boards st) Hid Hrows).
      reflexivity.
    - intros other Hne. unfold liveRows. rewrite Hs.
      apply (liveRows_filtered_other boardID).
      intros b Hb. apply negb_true_iff, andb_false_iff. left.
      apply String.eqb_neq. congruence. }
  set (st1 := set_boards (List.filter (fun b =>
                 negb (String.eqb (ID b) boardID
                       && String.eqb (TeamID b) (TeamID board))))
                (execInsertBoardHistory ts (deletedSnapshot board userID now) st).2).
  destruct keepChildren; cbn [fst snd].
  - split; [reflexivity|]. split; [reflexivity|].
    destruct (Hgone st1 eq_refl) as [G1 G2].
    split; [exact G1|]. split; [exact G2|].
    cbn. symmetry; apply app_nil_r.
  - split; [reflexivity|]. split; [reflexivity|].
    destruct (Hgone (set_children (fun l =>
                (l ++ [DeleteBlockChildren boardID EmptyString userID])%list)
                st1) eq_refl) as [G1 G2].
    split; [exact G1|]. split; [exact G2|]. reflexivity.
Qed.

Lemma latest_of_appended (boardID : string) (h : list BoardHistoryRow)
    (ts : Z) (b : Board) (st : Store) :
  ID b = boardID ->
  boards_history st = (h ++ [mkHistoryRow ts b])%list ->
  (forall r, In r h -> ID (snapshot r) = boardID ->
             key_leb (ts, UpdateAt b) (historyKey r) = false) ->
  getBoardHistory boardID latest st = (Ok [b], st).
Proof.
  intros Hid Hh Hnew. apply injective_projections; [|reflexivity].
  cbn [fst]. rewrite getBoardHistory_latest, Hh, List.filter_app.
  assert (F : List.filter (fun r => String.eqb (ID (snapshot r)) boardID)
                          [mkHistoryRow ts b] = [mkHistoryRow ts b])
    by (cbn; rewrite Hid, String.eqb_refl; reflexivity).
  rewrite F, orderBy_last_first; [reflexivity|].
  intros x Hx. apply List.filter_In in Hx as [Hin Hx].
  apply String.eqb_eq in Hx. exact (Hnew x Hin Hx).
Qed.

(** X9. A live board, deleted and then undeleted, both stamped after the
    snapshots the board had: both calls succeed; the history has gained the
    snapshot of the delete and the row the undelete wrote, in that order;
    the live row read back has the id, team, creator, type, minimum role,
    title, description, icon, flags, template version, properties, card
    properties and creation time it had, the undelete's actor and time, and
    delete time 0; the children collaborator was asked to delete and then
    to undelete; and undeleting once more changes nothing. *)
Theorem undeleteBoard_after_delete (E : Env)
    (boardID userID modifiedBy : string) (now1 ts1 now2 ts2 now3 ts3 : Z)
    (st : Store) (board : Board) :
  uniqueIDs st ->
  (getBoard boardID st).1 = Ok board ->
  marshalProperties E (Properties board) = None ->
  marshalCardProperties E (CardProperties board) = None ->
  deleteBlockChildren E boardID EmptyString userID = None ->
  undeleteBlockChildren E boardID EmptyString modifiedBy = None ->
  now1 <> 0 ->
  newerThanAll boardID ts1 now1 st ->
  newerThanAll boardID ts2 now2 st ->
  key_leb (ts2, now2) (ts1, now1) = false ->
  exists st1 st2 live,
    deleteBoardAndChildren E boardID userID false now1 ts1 st = (Ok tt, st1)
    /\ undeleteBoard E boardID modifiedBy now2 ts2 st1 = (Ok tt, st2)
    /\ boards_history st2
       = (boards_history st
          ++ [mkHistoryRow ts1 (deletedSnapshot board userID now1);
              mkHistoryRow ts2 live])%list
    /\ (getBoard boardID st2).1 = Ok live
    /\ (ID live = ID board /\ TeamID live = TeamID board
        /\ CreatedBy live = CreatedBy board /\ Type_ live = Type_ board
        /\ MinimumRole live = MinimumRole board /\ Title live = Title board
        /\ Description live = Description board /\ Icon live = Icon board
        /\ ShowDescription live = ShowDescription board
        /\ IsTemplate live = IsTemplate board
        /\ TemplateVersion live = TemplateVersion board
        /\ Properties live = Properties board
        /\ CardProperties live = CardProperties board
        /\ CreateAt live = CreateAt board)
    /\ (ModifiedBy live = modifiedBy /\ UpdateAt live = now2
        /\ DeleteAt live = 0)
    /\ children st2
       = (children st
          ++ [DeleteBlockChildren boardID EmptyString userID;
              UndeleteBlockChildren boardID EmptyString modifiedBy])%list
    /\ undeleteBoard E boardID modifiedBy now3 ts3 st2 = (Ok tt, st2).
Proof.
  intros Hu Hget Hp Hc Hk Hk' Hnow Hnew1 Hnew2 Hlater.
  rewrite getBoard_run in Hget.
  destruct (liveRows boardID st) as [|b rest] eqn:Hrows; [discriminate|].
  injection Hget as ->.
  pose proof (liveRows_unique _ _ _ _ Hu Hrows) as ->.
  assert (Hid : ID board = boardID).
  { apply (liveRows_In boardID st board). rewrite Hrows. left; reflexivity. }
  set (snap := deletedSnapshot board userID now1).
  set (live := restoredRow snap modifiedBy now2).
  set (st1 := set_children (fun l =>
                (l ++ [DeleteBlockChildren boardID EmptyString userID])%list)
              (set_boards (List.filter (fun b =>
                 negb (String.eqb (ID b) boardID
                       && String.eqb (TeamID b) (TeamID board))))
                 (execInsertBoardHistory ts1 snap st).2)).
  set (st2 := set_children (fun l =>
                (l ++ [UndeleteBlockChildren boardID EmptyString modifiedBy])%list)
              (set_boards (fun l => (l ++ [live])%list)
                 (execInsertBoardHistory ts2 live st1).2)).
  assert (Hdel : deleteBoardAndChildren E boardID userID false now1 ts1 st
                 = (Ok tt, st1)).
  { unfold deleteBoardAndChildren, bind at 1. rewrite getBoard_run, Hrows.
    unfold bind at 1. rewrite Hp. unfold check at 1, ret at 1, bind at 1.
    rewrite Hc. unfold check at 1, ret at 1.
    unfold callDeleteBlockChildren; run; cbn. rewrite Hk. reflexivity. }
  assert (Hgone : liveRows boardID st1 = []).
  { unfold liveRows. apply liveRows_deleted; assumption. }
  assert (G1 : getBoardHistory boardID latest st1 = (Ok [snap], st1)).
  { apply (latest_of_appended boardID (boards_history st) ts1 snap st1 Hid eq_refl).
    exact Hnew1. }
  assert (Hun : undeleteBoard E boardID modifiedBy now2 ts2 st1 = (Ok tt, st2)).
  { unfold undeleteBoard, bind at 1. rewrite G1.
    change (DeleteAt snap) with now1.
    apply Z.eqb_neq in Hnow. rewrite Hnow.
    change (Properties snap) with (Properties board).
    change (CardProperties snap) with (CardProperties board).
    unfold bind at 1. rewrite Hp. unfold check at 1, ret at 1, bind at 1.
    rewrite Hc. unfold check at 1, ret at 1.
    unfold bind at 1, execInsertBoardHistory at 1, modify at 1.
    unfold bind at 1, execInsertBoard, bind at 1, gets at 1.
    cbn [boards set_boards_history ID].
    change (ID snap) with (ID board).
    assert (Hgone' : liveRows (ID board) st1 = []) by (rewrite Hid; exact Hgone).
    rewrite (liveRows_none (ID board) st1 Hgone').
    assert (Hk2 : undeleteBlockChildren E (ID board) EmptyString modifiedBy = None)
      by (rewrite Hid; exact Hk').
    unfold callUndeleteBlockChildren; run. rewrite Hk2.
    unfold st2, live, restoredRow. change (ID snap) with (ID board).
    rewrite Hid. reflexivity. }
  assert (G2 : getBoardHistory boardID latest st2 = (Ok [live], st2)).
  { apply (latest_of_appended boardID
             (boards_history st ++ [mkHistoryRow ts1 snap])%list ts2 live st2
             Hid eq_refl).
    intros r Hr Hrid. apply in_app_iff in Hr as [Hr|[<-|[]]].
    - exact (Hnew2 r Hr Hrid).
    - exact Hlater. }
  exists st1, st2, live.
  split; [exact Hdel|]. split; [exact Hun|].
  split; [cbn; rewrite <- app_assoc; reflexivity|].
  split.
  { rewrite getBoard_run. unfold liveRows. cbn [st2 boards set_children set_boards].
    rewrite List.filter_app.
    change (List.filter (fun b => String.eqb (ID b) boardID)
              (boards (execInsertBoardHistory ts2 live st1).2))
      with (liveRows boardID st1).
    rewrite Hgone. cbn. rewrite Hid, String.eqb_refl. reflexivity. }
  split; [repeat split; reflexivity|].
  split; [repeat split; reflexivity|].
  split; [cbn; rewrite <- app_assoc; reflexivity|].
  unfold undeleteBoard, bind. rewrite G2. reflexivity.
Qed.


(** ** Explicit members *)

(** The minimum role the LEFT JOIN with [boards] gives a member row. *)
Lemma selectBoardMembers_head (boardID userID : string) (st : Store)
    (r : BoardMemberRow) (rest : list BoardMemberRow) :
  List.filter (isKey boardID userID) (board_members st) = r :: rest ->
  exists more,
    selectBoardMembers (isKey boardID userID) st
    = memberOfRow (match liveRows boardID st with
                   | [] => EmptyString
                   | b :: _ => MinimumRole b
                   end) r :: more.
Proof.
  unfold selectBoardMembers.
  induction (board_members st) as [|x l IH]; cbn; [discriminate|].
  destruct (isKey boardID userID x) eqn:Hk.
  - intros H; injection H as -> _.
    assert (Hb : board_id r = boardID).
    { unfold isKey in Hk. apply andb_true_iff in Hk as [Hk _].
      apply String.eqb_eq, Hk. }
    rewrite Hb. fold (liveRows boardID st).
    destruct (liveRows boardID st) as [|b bs]; cbn; eauto.
  - intros H. destruct (IH H) as (more & Hm). cbn [app]. eauto.
Qed.

(** The lookup when the select of the pair returns a member. *)
Lemma getMemberForBoard_found (E : Env) (boardID userID : string) (st : Store)
    (m : BoardMember) (more : list BoardMember) :
  selectBoardMembers (isKey boardID userID) st = m :: more ->
  getMemberForBoard E boardID userID st = (Ok m, st).
Proof. intros Hs. unfold getMemberForBoard; run. rewrite Hs. reflexivity. Qed.

(** X11. An explicit row decides the lookup: when [board_members] has a row
    for the pair, [getMemberForBoard] returns the first such row as stored,
    with the minimum role of the board's live row (empty if there is none)
    and [Synthetic] false, and leaves the store as it is -- for every
    environment, so for guests and for the system user too, and whatever the
    user directory, the board lookup and the rosters would say. *)
Theorem getMemberForBoard_explicit_row (boardID userID : string) (st : Store)
    (r : BoardMemberRow) (rest : list BoardMemberRow) :
  List.filter (isKey boardID userID) (board_members st) = r :: rest ->
  forall E : Env,
    getMemberForBoard E boardID userID st
    = (Ok (mkBoardMember boardID userID (roles r)
             (match liveRows boardID st with
              | [] => EmptyString
              | b :: _ => MinimumRole b
              end)
             (scheme_admin r) (scheme_editor r) (scheme_commenter r)
             (scheme_viewer r) false), st).
Proof.
  intros Hf E.
  destruct (selectBoardMembers_head _ _ _ _ _ Hf) as (more & Hs).
  rewrite (getMemberForBoard_found E _ _ _ _ _ Hs).
  assert (Hin : In r (List.filter (isKey boardID userID) (board_members st)))
    by (rewrite Hf; left; reflexivity).
  apply List.filter_In in Hin as [_ Hk].
  unfold isKey in Hk. apply andb_true_iff in Hk as [Hb Hu].
  apply String.eqb_eq in Hb, Hu. unfold memberOfRow. rewrite Hb, Hu.
  reflexivity.
Qed.

Lemma filter_key_nonempty (boardID userID : string) (l : list BoardMemberRow) :
  existsb (isKey boardID userID) l = true ->
  exists r rest, List.filter (isKey boardID userID) l = r :: rest.
Proof.
  induction l as [|x l IH]; cbn; [discriminate|].
  destruct (isKey boardID userID x); cbn; eauto.
Qed.

(** X12. Save, then look up.  When the lookup at its head lets it go on,
    [saveMember] succeeds, and the lookup of the pair in the store it leaves
    returns, in every environment, an explicit member of the pair:
    [Synthetic] false, the four capability flags of the member given, and an
    empty [Roles] when the pair had no row before, whatever [Roles] and
    [Synthetic] the member given carried. *)
Theorem saveMember_then_lookup (E : Env) (bm : BoardMember) (ts : Z)
    (st : Store) :
  lookupSettles E (BoardID bm) (UserID bm) st ->
  exists st' m,
    saveMember E bm ts st = (Ok bm, st')
    /\ (forall E' : Env,
          getMemberForBoard E' (BoardID bm) (UserID bm) st' = (Ok m, st'))
    /\ BoardID m = BoardID bm /\ UserID m = UserID bm
    /\ SchemeAdmin m = SchemeAdmin bm /\ SchemeEditor m = SchemeEditor bm
    /\ SchemeCommenter m = SchemeCommenter bm
    /\ SchemeViewer m = SchemeViewer bm
    /\ Synthetic m = false
    /\ (hasExplicit (BoardID bm) (UserID bm) st = false -> Roles m = EmptyString).
Proof.
  unfold lookupSettles. intros H.
  pose proof (saveMember_run E bm ts st) as R.
  set (l' := upsertMember (memberValues bm) (board_members st)).
  assert (Hst : exists st', saveMember E bm ts st = (Ok bm, st')
                            /\ board_members st' = l' /\ boards st' = boards st).
  { destruct (getMemberForBoard E (BoardID bm) (UserID bm) st).1 as [m|e|msg];
      [| rewrite H in R |contradiction]; eexists; (split; [exact R|]);
      split; reflexivity. }
  destruct Hst as (st' & Hsave & Hm & Hb).
  destruct (filter_key_nonempty (BoardID bm) (UserID bm) l'
              (upsertMember_present (memberValues bm) (board_members st)))
    as (r & rest & Hf).
  assert (Hin : In r l' /\ isKey (BoardID bm) (UserID bm) r = true).
  { apply List.filter_In. rewrite Hf. left; reflexivity. }
  destruct Hin as [Hin Hk].
  destruct (upsertMember_flags (memberValues bm) (board_members st) r Hin Hk)
    as (Ha & He & Hc & Hv).
  rewrite <- Hm in Hf.
  destruct (selectBoardMembers_head _ _ _ _ _ Hf) as (more & Hsel).
  pose proof Hk as Hk0.
  unfold isKey in Hk. apply andb_true_iff in Hk as [Hkb Hku].
  apply String.eqb_eq in Hkb, Hku.
  eexists st', _. split; [exact Hsave|].
  split; [intros E'; apply (getMemberForBoard_found E' _ _ _ _ _ Hsel)|].
  cbn. repeat split; try assumption.
  intros Hno. unfold hasExplicit in Hno. unfold l', upsertMember in Hin.
  change (existsb (isKey (board_id (memberValues bm)) (user_id (memberValues bm)))
            (board_members st))
    with (existsb (isKey (BoardID bm) (UserID bm)) (board_members st)) in Hin.
  rewrite Hno in Hin. apply in_app_iff in Hin as [Hin|[<-|[]]]; [|reflexivity].
  assert (existsb (isKey (BoardID bm) (UserID bm)) (board_members st) = true)
    by (apply existsb_exists; eauto).
  congruence.
Qed.

Lemma upsertMember_keys (row : BoardMemberRow) (l : list BoardMemberRow) :
  map memberKey (upsertMember row l)
  = (map memberKey l
     ++ if existsb (isKey (board_id row) (user_id row)) l then []
        else [memberKey row])%list.
Proof.
  unfold upsertMember.
  destruct (existsb (isKey (board_id row) (user_id row)) l).
  - rewrite app_nil_r. induction l as [|r l IH]; cbn; [reflexivity|].
    rewrite IH. destruct (isKey (board_id row) (user_id row) r); reflexivity.
  - apply map_app.
Qed.

Lemma isKey_memberKey (boardID userID : string) (r : BoardMemberRow) :
  isKey boardID userID r = true <-> memberKey r = (boardID, userID).
Proof.
  unfold isKey, memberKey. rewrite andb_true_iff, !String.eqb_eq.
  split; [intros [-> ->]; reflexivity|intros H; injection H; auto].
Qed.

(** The stores [saveMember] can leave. *)
Lemma saveMember_members (E : Env) (bm : BoardMember) (ts : Z) (st : Store) :
  board_members (saveMember E bm ts st).2 = board_members st
  \/ board_members (saveMember E bm ts st).2
     = upsertMember (memberValues bm) (board_members st).
Proof.
  rewrite saveMember_run.
  destruct (getMemberForBoard E (BoardID bm) (UserID bm) st).1 as [m|e|msg];
    [right; reflexivity| |left; reflexivity].
  destruct (IsErrNotFound E e); [right|left]; reflexivity.
Qed.

(** X13. That no two member rows share a (board, user) pair is kept by
    [saveMember] and by [deleteMember], whatever their outcome, and both
    leave the rows of every other pair as they were, in order. *)
Theorem uniqueMembers_kept (E : Env) (st : Store) :
  (forall bm ts,
     (uniqueMembers st -> uniqueMembers (saveMember E bm ts st).2)
     /\ List.filter (fun r => negb (isKey (BoardID bm) (UserID bm) r))
          (board_members (saveMember E bm ts st).2)
        = List.filter (fun r => negb (isKey (BoardID bm) (UserID bm) r))
            (board_members st))
  /\ (forall boardID userID ts,
        (uniqueMembers st -> uniqueMembers (deleteMember boardID userID ts st).2)
        /\ List.filter (fun r => negb (isKey boardID userID r))
             (board_members (deleteMember boardID userID ts st).2)
           = List.filter (fun r => negb (isKey boardID userID r))
               (board_members st)).
Proof.
  unfold uniqueMembers. split.
  - intros bm ts.
    destruct (saveMember_members E bm ts st) as [->| ->]; [auto|].
    split.
    + intros Hu. rewrite upsertMember_keys.
      change (board_id (memberValues bm)) with (BoardID bm).
      change (user_id (memberValues bm)) with (UserID bm).
      destruct (existsb (isKey (BoardID bm) (UserID bm)) (board_members st))
        eqn:Hex; [rewrite app_nil_r; exact Hu|].
      apply List.NoDup_app; [exact Hu|repeat constructor; intros []|].
      intros k Hk [<-|[]].
      apply in_map_iff in Hk as (r & Hr & Hin).
      assert (existsb (isKey (BoardID bm) (UserID bm)) (board_members st) = true).
      { apply existsb_exists. exists r. split; [exact Hin|].
        apply isKey_memberKey. exact Hr. }
      congruence.
    + exact (upsertMember_others (memberValues bm) (board_members st)).
  - intros boardID userID ts.
    assert (D : board_members (deleteMember boardID userID ts st).2
                = List.filter (fun r => negb (isKey boardID userID r))
                    (board_members st)).
    { unfold deleteMember; run; cbn.
      destruct (0 <? _); reflexivity. }
    rewrite D. clear D. split.
    + intros Hu. apply NoDup_map_filter, Hu.
    + induction (board_members st) as [|r l IH]; cbn; [reflexivity|].
      destruct (isKey boardID userID r) eqn:Hk; cbn; rewrite ?Hk; cbn;
        rewrite IH; reflexivity.
Qed.

(** X14. Save, then remove.  For a pair whose lookup reports NotFound, a
    save followed by a remove both succeed, leave [board_members] as it was
    before the save, and add to [board_members_history] exactly the rows
    "created" and "deleted" of the pair, in that order. *)
Theorem saveMember_then_deleteMember (E : Env) (bm : BoardMember)
    (ts ts' : Z) (st : Store) :
  lookupNotFound E (BoardID bm) (UserID bm) st ->
  exists st1 st2,
    saveMember E bm ts st = (Ok bm, st1)
    /\ deleteMember (BoardID bm) (UserID bm) ts' st1 = (Ok tt, st2)
    /\ board_members st2 = board_members st
    /\ board_members_history st2
       = (board_members_history st
          ++ [mkMemberHistoryRow (BoardID bm) (UserID bm) "created" ts;
              mkMemberHistoryRow (BoardID bm) (UserID bm) "deleted" ts'])%list.
Proof.
  intros (e & He & Hnf).
  assert (Hno : existsb (isKey (BoardID bm) (UserID bm)) (board_members st)
                = false).
  { destruct (existsb (isKey (BoardID bm) (UserID bm)) (board_members st))
      eqn:Hex; [|reflexivity].
    destruct (getMemberForBoard_explicit E _ _ st Hex) as (m & Hm).
    rewrite Hm in He. discriminate. }
  pose proof (saveMember_run E bm ts st) as R. rewrite He, Hnf in R.
  eexists _, _. split; [exact R|].
  unfold deleteMember; run. cbn [board_members set_board_members_history
                                 set_board_members].
  rewrite filter_key_count.
  pose proof (upsertMember_present (memberValues bm) (board_members st)) as P.
  change (board_id (memberValues bm)) with (BoardID bm) in P.
  change (user_id (memberValues bm)) with (UserID bm) in P.
  rewrite P.
  split; [reflexivity|]. cbn. split.
  - unfold upsertMember.
    change (existsb (isKey (board_id (memberValues bm)) (user_id (memberValues bm)))
              (board_members st))
      with (existsb (isKey (BoardID bm) (UserID bm)) (board_members st)).
    rewrite Hno, List.filter_app.
    pose proof (isKey_self (memberValues bm)) as K.
    change (board_id (memberValues bm)) with (BoardID bm) in K.
    change (user_id (memberValues bm)) with (UserID bm) in K.
    cbn [List.filter]. rewrite K. cbn [negb].
    rewrite app_nil_r. apply filter_out_absent, Hno.
  - rewrite <- app_assoc. reflexivity.
Qed.

(** X15. A successful [insertBoardWithAdmin] of an id that has no live row
    returns the board as inserted, created by the acting user, and the
    member it saved for that user; afterwards the board is live and the
    lookup of the acting user on it returns, in every environment, an
    explicit member who is admin and editor, neither commenter nor viewer,
    with the minimum role of the board. *)
Theorem insertBoardWithAdmin_new (E : Env) (board : Board) (userID : string)
    (now ts ts' : Z) (st st' : Store) (nb : Board) (nbm : BoardMember) :
  insertBoardWithAdmin E board userID now ts ts' st = (Ok (nb, nbm), st') ->
  (getBoard (ID board) st).1 = Err (ErrNotFound "boards") ->
  (getBoard (ID board) st').1 = Ok nb
  /\ CreatedBy nb = userID
  /\ nbm = mkBoardMember (ID board) userID EmptyString EmptyString
                         true true false false false
  /\ exists m,
       (forall E' : Env,
          getMemberForBoard E' (ID board) userID st' = (Ok m, st'))
       /\ SchemeAdmin m = true /\ SchemeEditor m = true
       /\ SchemeCommenter m = false /\ SchemeViewer m = false
       /\ Synthetic m = false
       /\ MemberMinimumRole m = MinimumRole board.
Proof.
  intros Hrun Hnone.
  unfold insertBoardWithAdmin, bind at 1 in Hrun.
  destruct (insertBoard E board userID now ts st) as [[b1|e|msg] st1] eqn:Hins;
    try discriminate.
  destruct (insertBoard_fresh E board userID now ts st st1 b1 Hins Hnone)
    as (Hrows0 & p & Hb1 & Hst1).
  assert (Hboards : boards st1 = (boards st ++ [b1])%list)
    by (rewrite Hst1; reflexivity).
  assert (Hid : ID b1 = ID board) by (rewrite Hb1; reflexivity).
  assert (Hcb : CreatedBy b1 = userID) by (rewrite Hb1; reflexivity).
  rewrite Hid, Hcb in Hrun.
  set (bm := mkBoardMember (ID board) userID EmptyString EmptyString
                           true true false false false) in *.
  unfold bind at 1, try in Hrun.
  pose proof (saveMember_run E bm ts' st1) as R.
  destruct (saveMember E bm ts' st1) as [r s2] eqn:Hsave. cbn [fst snd] in Hrun.
  assert (Hs : r = Ok bm /\ boards s2 = boards st1
               /\ board_members s2
                  = upsertMember (memberValues bm) (board_members st1)).
  { destruct r as [x|e|msg]; try discriminate.
    destruct (getMemberForBoard E (BoardID bm) (UserID bm) st1).1 as [m|e|msg];
      [|destruct (IsErrNotFound E e)|]; inversion R; subst; auto. }
  destruct Hs as (-> & Hb2 & Hm2).
  injection Hrun as <- <- <-.
  assert (Hlive : liveRows (ID board) s2 = [b1]).
  { unfold liveRows in *. rewrite Hb2, Hboards, List.filter_app, Hrows0.
    cbn. rewrite Hid, String.eqb_refl. reflexivity. }
  split; [rewrite getBoard_run, Hlive; reflexivity|].
  split; [exact Hcb|]. split; [reflexivity|].
  destruct (filter_key_nonempty (ID board) userID (board_members s2))
    as (r & rest & Hf).
  { rewrite Hm2.
    exact (upsertMember_present (memberValues bm) (board_members st1)). }
  assert (Hin : In r (board_members s2) /\ isKey (ID board) userID r = true).
  { apply List.filter_In. rewrite Hf. left; reflexivity. }
  destruct Hin as [Hin Hk]. rewrite Hm2 in Hin.
  destruct (upsertMember_flags (memberValues bm) (board_members st1) r Hin Hk)
    as (Ha & He & Hc & Hv).
  destruct (selectBoardMembers_head _ _ _ _ _ Hf) as (more & Hsel).
  eexists. split.
  - intros E'. apply (getMemberForBoard_found E' _ _ _ _ _ Hsel).
  - rewrite Hlive. cbn. repeat split; try assumption.
    rewrite Hb1. reflexivity.
Qed.

(** ** Members of a user and of a board *)

Lemma selectBoardMembers_In (keep : BoardMemberRow -> bool) (st : Store)
    (m : BoardMember) :
  In m (selectBoardMembers keep st) ->
  exists r, In r (board_members st) /\ keep r = true
            /\ BoardID m = board_id r /\ UserID m = user_id r
            /\ Synthetic m = false.
Proof.
  unfold selectBoardMembers. intros H.
  apply in_flat_map in H as (r & Hr & Hm). exists r.
  destruct (keep r); [|destruct Hm].
  split; [exact Hr|]. split; [reflexivity|].
  destruct (List.filter _ (boards st)) as [|b bs].
  - destruct Hm as [<-|[]]. auto.
  - apply in_map_iff in Hm as (b' & <- & _). auto.
Qed.

Lemma selectBoardMembers_row (keep : BoardMemberRow -> bool) (st : Store)
    (r : BoardMemberRow) :
  In r (board_members st) -> keep r = true ->
  exists m, In m (selectBoardMembers keep st)
            /\ BoardID m = board_id r /\ UserID m = user_id r.
Proof.
  unfold selectBoardMembers. intros Hr Hk.
  destruct (List.filter (fun b => String.eqb (ID b) (board_id r)) (boards st))
    as [|b bs] eqn:Hf.
  - exists (memberOfRow EmptyString r). split; [|auto].
    apply in_flat_map. exists r. split; [exact Hr|].
    rewrite Hk, Hf. left; reflexivity.
  - exists (memberOfRow (MinimumRole b) r). split; [|auto].
    apply in_flat_map. exists r. split; [exact Hr|].
    rewrite Hk, Hf. left; reflexivity.
Qed.

Lemma existingMembers_board (userID : string) (st : Store) (k : string) :
  existingMembers BoardID
    (selectBoardMembers (fun bm => String.eqb (user_id bm) userID) st) k
  = hasExplicit k userID st.
Proof.
  unfold existingMembers, hasExplicit.
  apply eq_true_iff_eq. rewrite !existsb_exists. split.
  - intros (m & Hm & Hk). apply String.eqb_eq in Hk.
    apply selectBoardMembers_In in Hm as (r & Hr & Hu & Hb & _).
    exists r. split; [exact Hr|]. unfold isKey.
    rewrite Hu, <- Hb, Hk, String.eqb_refl. reflexivity.
  - intros (r & Hr & Hk). unfold isKey in Hk.
    apply andb_true_iff in Hk as [Hb Hu].
    destruct (selectBoardMembers_row (fun bm => String.eqb (user_id bm) userID)
                st r Hr Hu) as (m & Hm & Hmb & _).
    exists m. split; [exact Hm|]. rewrite Hmb. exact Hb.
Qed.

Lemma existingMembers_user (boardID : string) (st : Store) (k : string) :
  existingMembers UserID
    (selectBoardMembers (fun bm => String.eqb (board_id bm) boardID) st) k
  = hasExplicit boardID k st.
Proof.
  unfold existingMembers, hasExplicit.
  apply eq_true_iff_eq. rewrite !existsb_exists. split.
  - intros (m & Hm & Hk). apply String.eqb_eq in Hk.
    apply selectBoardMembers_In in Hm as (r & Hr & Hb & _ & Hu & _).
    exists r. split; [exact Hr|]. unfold isKey.
    rewrite Hb, <- Hu, Hk, String.eqb_refl. reflexivity.
  - intros (r & Hr & Hk). unfold isKey in Hk.
    apply andb_true_iff in Hk as [Hb Hu].
    destruct (selectBoardMembers_row (fun bm => String.eqb (board_id bm) boardID)
                st r Hr Hb) as (m & Hm & _ & Hmu).
    exists m. split; [exact Hm|]. rewrite Hmu. exact Hu.
Qed.

Lemma channelBoardsOfUser_In (userID : string) (st : Store)
    (row : string * string) :
  In row (channelBoardsOfUser userID st) <->
  row.1 = userID
  /\ exists b cm, In b (boards st) /\ In cm (ChannelMembers st)
                  /\ ChannelID b = cm_channelId cm /\ cm_userId cm = userID
                  /\ row.2 = ID b.
Proof.
  unfold channelBoardsOfUser. rewrite in_flat_map. split.
  - intros (b & Hb & H). apply in_flat_map in H as (cm & Hcm & H).
    destruct (String.eqb (ChannelID b) (cm_channelId cm)) eqn:Hc;
      [|destruct H].
    destruct (String.eqb (cm_userId cm) userID) eqn:Hu; [|destruct H].
    destruct H as [<-|[]]. apply String.eqb_eq in Hc, Hu.
    split; [exact Hu|]. exists b, cm. auto.
  - intros (Hu & b & cm & Hb & Hcm & Hc & Hu' & Hid).
    exists b. split; [exact Hb|]. apply in_flat_map. exists cm.
    split; [exact Hcm|]. rewrite Hc, Hu', !String.eqb_refl. cbn.
    left. destruct row; cbn in *; congruence.
Qed.

(** X16. [getMembersForUser] for a user the directory knows reads only and
    succeeds.  Every member returned is of that user.  Every explicit row of
    the user is returned, as an explicit member.  A guest gets explicit
    members only.  A user who is not a guest also gets a synthetic editor
    membership for a board exactly when a channel roster row links the user
    to the board's channel and the user has no explicit row on that
    board. *)
Theorem getMembersForUser_members (E : Env) (userID : string) (st : Store)
    (user : User) :
  GetUserByID E userID = Ok user ->
  exists found,
    getMembersForUser E userID st = (Ok found, st)
    /\ (forall m, In m found -> UserID m = userID)
    /\ (forall r, In r (board_members st) -> user_id r = userID ->
          exists m, In m found /\ BoardID m = board_id r
                    /\ Synthetic m = false)
    /\ (IsGuest user = true -> forall m, In m found -> Synthetic m = false)
    /\ (IsGuest user = false -> forall boardID,
          In (syntheticEditor boardID userID) found <->
          hasExplicit boardID userID st = false
          /\ exists b cm, In b (boards st) /\ In cm (ChannelMembers st)
                          /\ ChannelID b = cm_channelId cm
                          /\ cm_userId cm = userID /\ ID b = boardID)
    /\ (forall m, In m found -> Synthetic m = true ->
          m = syntheticEditor (BoardID m) userID).
Proof.
  intros Hu. unfold getMembersForUser; run. rewrite Hu.
  set (explicit := selectBoardMembers
                     (fun bm => String.eqb (user_id bm) userID) st).
  assert (Hex : forall m, In m explicit ->
                  UserID m = userID /\ Synthetic m = false).
  { intros m Hm. apply selectBoardMembers_In in Hm as (r & _ & Hk & _ & Hmu & Hs).
    apply String.eqb_eq in Hk. split; congruence. }
  assert (Hrow : forall r, In r (board_members st) -> user_id r = userID ->
                   exists m, In m explicit /\ BoardID m = board_id r
                             /\ Synthetic m = false).
  { intros r Hr Hk. apply String.eqb_eq in Hk.
    destruct (selectBoardMembers_row
                (fun bm => String.eqb (user_id bm) userID) st r Hr Hk)
      as (m & Hm & Hb & _).
    exists m. split; [exact Hm|]. split; [exact Hb|]. apply Hex, Hm. }
  destruct (IsGuest user) eqn:Hg.
  - exists explicit. split; [reflexivity|].
    split; [intros m Hm; apply Hex, Hm|].
    split; [exact Hrow|].
    split; [intros _ m Hm; apply Hex, Hm|].
    split; [discriminate|].
    intros m Hm Hs. apply Hex in Hm as [_ Hm]. congruence.
  - set (implicit := implicitBoardMembershipsFromRows
                       (channelBoardsOfUser userID st)).
    assert (Him : forall m, In m implicit <->
              exists b cm, In b (boards st) /\ In cm (ChannelMembers st)
                /\ ChannelID b = cm_channelId cm /\ cm_userId cm = userID
                /\ m = syntheticEditor (ID b) userID).
    { intros m. unfold implicit, implicitBoardMembershipsFromRows.
      rewrite in_map_iff. split.
      - intros (row & <- & Hrow'). apply channelBoardsOfUser_In in Hrow'
          as (H1 & b & cm & Hb & Hcm & Hc & Hcu & H2).
        exists b, cm. rewrite H1, H2. auto 6.
      - intros (b & cm & Hb & Hcm & Hc & Hcu & ->).
        exists (userID, ID b). split; [reflexivity|].
        apply channelBoardsOfUser_In. split; [reflexivity|].
        exists b, cm. auto 6. }
    exists (mergeMembers BoardID explicit implicit).
    split; [reflexivity|]. unfold mergeMembers.
    split.
    { intros m Hm. apply in_app_iff in Hm as [Hm|Hm]; [apply Hex, Hm|].
      apply List.filter_In in Hm as [Hm _].
      apply Him in Hm as (b & cm & _ & _ & _ & _ & ->). reflexivity. }
    split.
    { intros r Hr Hk. destruct (Hrow r Hr Hk) as (m & Hm & H).
      exists m. split; [apply in_app_iff; left; exact Hm|exact H]. }
    split; [discriminate|].
    split.
    { intros _ boardID. rewrite in_app_iff, List.filter_In, Him.
      unfold explicit at 2. rewrite existingMembers_board.
      cbn [BoardID syntheticEditor]. split.
      - intros [Hm|((b & cm & Hb & Hcm & Hc & Hcu & Heq) & Hno)].
        + apply Hex in Hm as [_ Hm]. discriminate.
        + injection Heq as ->. apply negb_true_iff in Hno.
          split; [exact Hno|]. exists b, cm. auto 6.
      - intros (Hno & b & cm & Hb & Hcm & Hc & Hcu & <-).
        right. split; [exists b, cm; auto 6|].
        apply negb_true_iff, Hno. }
    intros m Hm Hs. apply in_app_iff in Hm as [Hm|Hm].
    + apply Hex in Hm as [_ Hm]. congruence.
    + apply List.filter_In in Hm as [Hm _].
      apply Him in Hm as (b & cm & _ & _ & _ & _ & ->). reflexivity.
Qed.

Lemma channelUsersOfBoard_In (Users : list UserRow) (Bots : list BotRow)
    (boardID : string) (st : Store) (row : string * string) :
  In row (channelUsersOfBoard Users Bots boardID st) <->
  row.2 = boardID
  /\ exists b cm u, In b (boards st) /\ In cm (ChannelMembers st) /\ In u Users
       /\ ID b = boardID /\ ChannelID b <> EmptyString
       /\ ChannelID b = cm_channelId cm /\ cm_userId cm = u_id u
       /\ u_roles u <> "system_guest"
       /\ (forall bo, In bo Bots -> bo_UserId bo <> u_id u)
       /\ row.1 = u_id u.
Proof.
  unfold channelUsersOfBoard. rewrite in_flat_map.
  assert (Hbots : forall u,
    negb (existsb (fun bo => String.eqb (u_id u) (bo_UserId bo)) Bots) = true
    <-> forall bo, In bo Bots -> bo_UserId bo <> u_id u).
  { intros u. rewrite negb_true_iff. split.
    - intros Hno bo Hbo Heq.
      assert (existsb (fun bo => String.eqb (u_id u) (bo_UserId bo)) Bots = true).
      { apply existsb_exists. exists bo. split; [exact Hbo|].
        rewrite Heq. apply String.eqb_refl. }
      congruence.
    - intros Hall.
      destruct (existsb _ Bots) eqn:Hex; [|reflexivity].
      apply existsb_exists in Hex as (bo & Hbo & Heq).
      apply String.eqb_eq in Heq. destruct (Hall bo Hbo). auto. }
  split.
  - intros (b & Hb & H). apply in_flat_map in H as (cm & Hcm & H).
    apply in_flat_map in H as (u & Hu & H).
    match type of H with In _ (if ?c then _ else _) => destruct c eqn:Hc end;
      [|destruct H].
    destruct H as [<-|[]].
    repeat (apply andb_true_iff in Hc as [Hc ?]).
    apply String.eqb_eq in Hc.
    repeat match goal with
           | H : String.eqb _ _ = true |- _ => apply String.eqb_eq in H
           | H : negb (String.eqb _ _) = true |- _ =>
               apply negb_true_iff, String.eqb_neq in H
           end.
    split; [assumption|]. exists b, cm, u.
    repeat split; try assumption. apply Hbots. assumption.
  - intros (Hid & b & cm & u & Hb & Hcm & Hu & Hbid & Hne & Hc & Hcu & Hr & Hbo & H1).
    exists b. split; [exact Hb|]. apply in_flat_map. exists cm.
    split; [exact Hcm|]. apply in_flat_map. exists u. split; [exact Hu|].
    apply String.eqb_neq in Hne, Hr. apply Hbots in Hbo.
    rewrite Hc, Hcu, Hbid, !String.eqb_refl, Hr, Hbo.
    rewrite <- Hc, Hne. cbn. left.
    destruct row; cbn in *; congruence.
Qed.

(** X17. [getMembersForBoard] reads only and succeeds.  Every member
    returned is of that board.  Every explicit row of the board is
    returned, as an explicit member.  A synthetic editor membership of a
    user is returned exactly when the user has no explicit row on the board,
    the board has a channel that is not empty with a roster row for the
    user, the user's roles are not "system_guest", and no bot row has the
    user's id; no other synthetic member is returned. *)
Theorem getMembersForBoard_members (Users : list UserRow) (Bots : list BotRow)
    (boardID : string) (st : Store) :
  exists found,
    getMembersForBoard Users Bots boardID st = (Ok found, st)
    /\ (forall m, In m found -> BoardID m = boardID)
    /\ (forall r, In r (board_members st) -> board_id r = boardID ->
          exists m, In m found /\ UserID m = user_id r
                    /\ Synthetic m = false)
    /\ (forall userID,
          In (syntheticEditor boardID userID) found <->
          hasExplicit boardID userID st = false
          /\ exists b cm u, In b (boards st) /\ In cm (ChannelMembers st)
               /\ In u Users /\ ID b = boardID
               /\ ChannelID b <> EmptyString
               /\ ChannelID b = cm_channelId cm /\ cm_userId cm = u_id u
               /\ u_roles u <> "system_guest"
               /\ (forall bo, In bo Bots -> bo_UserId bo <> u_id u)
               /\ userID = u_id u)
    /\ (forall m, In m found -> Synthetic m = true ->
          m = syntheticEditor boardID (UserID m)).
Proof.
  unfold getMembersForBoard; run.
  set (explicit := selectBoardMembers
                     (fun bm => String.eqb (board_id bm) boardID) st).
  set (implicit := implicitBoardMembershipsFromRows
                     (channelUsersOfBoard Users Bots boardID st)).
  assert (Hex : forall m, In m explicit ->
                  BoardID m = boardID /\ Synthetic m = false).
  { intros m Hm. apply selectBoardMembers_In in Hm as (r & _ & Hk & Hmb & _ & Hs).
    apply String.eqb_eq in Hk. split; congruence. }
  assert (Him : forall m, In m implicit <->
            exists b cm u, In b (boards st) /\ In cm (ChannelMembers st)
              /\ In u Users /\ ID b = boardID
              /\ ChannelID b <> EmptyString
              /\ ChannelID b = cm_channelId cm /\ cm_userId cm = u_id u
              /\ u_roles u <> "system_guest"
              /\ (forall bo, In bo Bots -> bo_UserId bo <> u_id u)
              /\ m = syntheticEditor boardID (u_id u)).
  { intros m. unfold implicit, implicitBoardMembershipsFromRows.
    rewrite in_map_iff. split.
    - intros (row & <- & Hrow). apply channelUsersOfBoard_In in Hrow
        as (H2 & b & cm & u & Hb & Hcm & Hu & Hid & Hne & Hc & Hcu & Hr & Hbo & H1).
      exists b, cm, u. rewrite H1, H2. repeat split; assumption.
    - intros (b & cm & u & Hb & Hcm & Hu & Hid & Hne & Hc & Hcu & Hr & Hbo & ->).
      exists (u_id u, boardID). split; [reflexivity|].
      apply channelUsersOfBoard_In. split; [reflexivity|].
      exists b, cm, u. repeat split; assumption. }
  exists (mergeMembers UserID explicit implicit).
  split; [reflexivity|]. unfold mergeMembers.
  split.
  { intros m Hm. apply in_app_iff in Hm as [Hm|Hm]; [apply Hex, Hm|].
    apply List.filter_In in Hm as [Hm _].
    apply Him in Hm as (b & cm & u & H). destruct H as (_&_&_&_&_&_&_&_&_& ->).
    reflexivity. }
  split.
  { intros r Hr Hk. apply String.eqb_eq in Hk.
    destruct (selectBoardMembers_row
                (fun bm => String.eqb (board_id bm) boardID) st r Hr Hk)
      as (m & Hm & _ & Hmu).
    exists m. split; [apply in_app_iff; left; exact Hm|].
    split; [exact Hmu|]. apply Hex, Hm. }
  split.
  { intros userID. rewrite in_app_iff, List.filter_In, Him.
    unfold explicit at 2. rewrite existingMembers_user.
    cbn [UserID syntheticEditor]. split.
    - intros [Hm|((b & cm & u & Hb & Hcm & Hu & Hid & Hne & Hc & Hcu & Hr & Hbo & Heq)
                  & Hno)].
      + apply Hex in Hm as [_ Hm]. discriminate.
      + injection Heq as ->. apply negb_true_iff in Hno.
        split; [exact Hno|]. exists b, cm, u. repeat split; assumption.
    - intros (Hno & b & cm & u & Hb & Hcm & Hu & Hid & Hne & Hc & Hcu & Hr & Hbo & ->).
      right. split; [exists b, cm, u; repeat split; assumption|].
      apply negb_true_iff, Hno. }
  intros m Hm Hs. apply in_app_iff in Hm as [Hm|Hm].
  - apply Hex in Hm as [_ Hm]. congruence.
  - apply List.filter_In in Hm as [Hm _].
    apply Him in Hm as (b & cm & u & H). destruct H as (_&_&_&_&_&_&_&_&_& ->).
    reflexivity.
Qed.

(** ** Searches *)

Lemma hasExplicit_row (boardID userID : string) (st : Store) :
  hasExplicit boardID userID st = true <->
  exists bm, In bm (board_members st)
             /\ board_id bm = boardID /\ user_id bm = userID.
Proof.
  unfold hasExplicit, isKey. rewrite existsb_exists. split.
  - intros (bm & Hin & Hk). apply andb_true_iff in Hk as [Hb Hu].
    apply String.eqb_eq in Hb, Hu. eauto.
  - intros (bm & Hin & <- & <-). exists bm. split; [exact Hin|].
    rewrite !String.eqb_refl. reflexivity.
Qed.

(** Membership in a join of [boards] with another table. *)
Lemma join_In {R : Type} (rows : list R) (keep : Board -> R -> bool)
    (l : list Board) (b : Board) :
  In b (flat_map (fun b => flat_map (fun r =>
          if keep b r then [b] else []) rows) l)
  <-> In b l /\ exists r, In r rows /\ keep b r = true.
Proof.
  rewrite in_flat_map. split.
  - intros (b0 & Hb0 & H). apply in_flat_map in H as (r & Hr & H).
    destruct (keep b0 r) eqn:Hk; [|destruct H].
    destruct H as [<-|[]]. eauto.
  - intros (Hb & r & Hr & Hk). exists b. split; [exact Hb|].
    apply in_flat_map. exists r. split; [exact Hr|].
    rewrite Hk. left; reflexivity.
Qed.

Lemma selectTeamBranch_In (E : Env) (teamID userID : string)
    (conds : list Where) (st : Store) (b : Board) :
  (In b (selectTeamBranch E teamID userID conds openBoardsQ st)
   \/ In b (selectTeamBranch E teamID userID conds memberBoardsQ st)
   \/ In b (selectTeamBranch E teamID userID conds channelMemberBoardsQ st))
  <->
  In b (boards st) /\ IsTemplate b = false /\ TeamID b = teamID
  /\ forallb (fun w => evalWhere E w b) conds = true
  /\ (Type_ b = BoardTypeOpen E
      \/ hasExplicit (ID b) userID st = true
      \/ exists cm, In cm (ChannelMembers st)
                    /\ cm_channelId cm = ChannelID b /\ cm_userId cm = userID).
Proof.
  cbn [selectTeamBranch].
  rewrite List.filter_In, !join_In, hasExplicit_row.
  repeat setoid_rewrite andb_true_iff.
  repeat setoid_rewrite negb_true_iff.
  repeat setoid_rewrite String.eqb_eq.
  split.
  - intros [H|[(Hb & r & Hr & H)|(Hb & r & Hr & H)]]; [tauto| |].
    + repeat split; try tauto. right; left. exists r. intuition congruence.
    + repeat split; try tauto. right; right. exists r. tauto.
  - intros (Hb & Ht & Htm & Hc & [Ho|[(r & Hr & Hrb & Hru)|(r & Hr & Hrc & Hru)]]).
    + left. tauto.
    + right; left. split; [exact Hb|]. exists r. intuition congruence.
    + right; right. split; [exact Hb|]. exists r. tauto.
Qed.

(** X18. [searchBoardsForUserInTeam] reads only and succeeds, and returns
    no row twice.  A live board is returned exactly when it is of the team,
    is not a template, satisfies the conditions made from the term, and is
    open, or has an explicit member row of the user, or is linked to a
    channel with a roster row of the user.  With the empty term there are no
    conditions, so every open board of the team that is not a template is
    returned, to any user. *)
Theorem searchBoardsForUserInTeam_results (E : Env)
    (teamID term userID : string) (st : Store) :
  exists found,
    searchBoardsForUserInTeam E teamID term userID st = (Ok found, st)
    /\ List.NoDup found
    /\ (forall b,
          In b found <->
          In b (boards st) /\ IsTemplate b = false /\ TeamID b = teamID
          /\ forallb (fun w => evalWhere E w b) (teamSearchConditions E term)
             = true
          /\ (Type_ b = BoardTypeOpen E
              \/ hasExplicit (ID b) userID st = true
              \/ exists cm, In cm (ChannelMembers st)
                            /\ cm_channelId cm = ChannelID b
                            /\ cm_userId cm = userID))
    /\ (term = EmptyString ->
        forall b, In b (boards st) -> IsTemplate b = false ->
                  TeamID b = teamID -> Type_ b = BoardTypeOpen E ->
                  In b found).
Proof.
  eexists. split; [reflexivity|].
  assert (M : forall b,
    In b (remove_dups
            (selectTeamBranch E teamID userID (teamSearchConditions E term)
               openBoardsQ st
             ++ selectTeamBranch E teamID userID (teamSearchConditions E term)
                  memberBoardsQ st
             ++ selectTeamBranch E teamID userID (teamSearchConditions E term)
                  channelMemberBoardsQ st)%list)
    <-> In b (boards st) /\ IsTemplate b = false /\ TeamID b = teamID
        /\ forallb (fun w => evalWhere E w b) (teamSearchConditions E term)
           = true
        /\ (Type_ b = BoardTypeOpen E
            \/ hasExplicit (ID b) userID st = true
            \/ exists cm, In cm (ChannelMembers st)
                          /\ cm_channelId cm = ChannelID b
                          /\ cm_userId cm = userID)).
  { intros b. rewrite In_remove_dups, !in_app_iff.
    apply selectTeamBranch_In. }
  split; [apply NoDup_ListNoDup, NoDup_remove_dups|].
  split; [exact M|].
  intros -> b Hb Ht Htm Ho. apply M. cbn. auto 6.
Qed.

Lemma selectBranch_In (E : Env) (userID : string) (conds : list Where)
    (st : Store) (b : Board) :
  (In b (selectBranch E userID conds boardMembersQ st) <->
   In b (boards st) /\ IsTemplate b = false
   /\ forallb (fun w => evalWhere E w b) conds = true
   /\ hasExplicit (ID b) userID st = true)
  /\ (In b (selectBranch E userID conds channelMembersQ st) <->
      In b (boards st) /\ IsTemplate b = false
      /\ forallb (fun w => evalWhere E w b) conds = true
      /\ exists cm, In cm (ChannelMembers st)
                    /\ cm_channelId cm = ChannelID b /\ cm_userId cm = userID)
  /\ (In b (selectBranch E userID conds teamMembersQ st) <->
      In b (boards st) /\ IsTemplate b = false
      /\ forallb (fun w => evalWhere E w b) conds = true
      /\ Type_ b = BoardTypeOpen E
      /\ exists tm, In tm (TeamMembers st)
                    /\ tm_teamid tm = TeamID b /\ tm_userID tm = userID
                    /\ tm_deleteAt tm = 0).
Proof.
  cbn [selectBranch]. rewrite !join_In, hasExplicit_row.
  repeat setoid_rewrite andb_true_iff.
  repeat setoid_rewrite negb_true_iff.
  repeat setoid_rewrite String.eqb_eq.
  repeat setoid_rewrite Z.eqb_eq.
  split; [|split].
  - split.
    + intros (Hb & r & Hr & H). repeat split; try tauto.
      exists r. intuition congruence.
    + intros (Hb & Ht & Hc & r & Hr & Hrb & Hru). split; [exact Hb|].
      exists r. intuition congruence.
  - split.
    + intros (Hb & r & Hr & H). repeat split; try tauto. exists r. tauto.
    + intros (Hb & Ht & Hc & r & Hr & Hrc & Hru). split; [exact Hb|].
      exists r. tauto.
  - split.
    + intros (Hb & r & Hr & H). repeat split; try tauto. exists r. tauto.
    + intros (Hb & Ht & Hc & Ho & r & Hr & H). split; [exact Hb|].
      exists r. tauto.
Qed.

(** X19. [searchBoardsForUser] for a user the directory knows reads only
    and succeeds.  A live board is returned exactly when it is not a
    template, satisfies the conditions made from the term, and has an
    explicit member row of the user, or -- for a user who is not a guest --
    is linked to a channel with a roster row of the user, or -- with
    [includePublicBoards] -- is open and of a team with a live roster row of
    the user.  Whenever the statement is a UNION, that is for every user who
    is not a guest and for every call with [includePublicBoards], no row is
    returned twice. *)
Theorem searchBoardsForUser_results (E : Env) (term : string)
    (searchField : BoardSearchField) (userID : string)
    (includePublicBoards : bool) (st : Store) (user : User) :
  getUserByID E userID = Ok user ->
  exists found,
    searchBoardsForUser E term searchField userID includePublicBoards st
    = (Ok found, st)
    /\ (forall b,
          In b found <->
          In b (boards st) /\ IsTemplate b = false
          /\ forallb (fun w => evalWhere E w b)
               (searchConditions E term searchField) = true
          /\ (hasExplicit (ID b) userID st = true
              \/ (IsGuest user = false
                  /\ exists cm, In cm (ChannelMembers st)
                                /\ cm_channelId cm = ChannelID b
                                /\ cm_userId cm = userID)
              \/ (includePublicBoards = true
                  /\ Type_ b = BoardTypeOpen E
                  /\ exists tm, In tm (TeamMembers st)
                                /\ tm_teamid tm = TeamID b
                                /\ tm_userID tm = userID
                                /\ tm_deleteAt tm = 0)))
    /\ (IsGuest user = false \/ includePublicBoards = true ->
        List.NoDup found).
Proof.
  intros Hu. unfold searchBoardsForUser; run. rewrite Hu.
  eexists. split; [reflexivity|].
  set (conds := searchConditions E term searchField).
  assert (S : forall b, _) by (exact (selectBranch_In E userID conds st)).
  unfold unionQ.
  destruct (IsGuest user), includePublicBoards;
    cbn [negb addUnion runQuery flat_map app]; (split; [intros b|]).
  - rewrite In_remove_dups, !in_app_iff.
    destruct (S b) as (-> & _ & ->). cbn [In]. intuition discriminate.
  - intros _. apply NoDup_ListNoDup, NoDup_remove_dups.
  - destruct (S b) as (-> & _ & _). intuition discriminate.
  - intros [H|H]; discriminate.
  - rewrite In_remove_dups, !in_app_iff.
    destruct (S b) as (-> & -> & ->). cbn [In]. intuition.
  - intros _. apply NoDup_ListNoDup, NoDup_remove_dups.
  - rewrite In_remove_dups, !in_app_iff.
    destruct (S b) as (-> & -> & _). cbn [In]. intuition discriminate.
  - intros _. apply NoDup_ListNoDup, NoDup_remove_dups.
Qed.

(** ** Boards by id, and the boards of a user in a team *)

Lemma getBoardsInTeamByIds_In (boardIDs : list string) (teamID : string)
    (st : Store) (b : Board) :
  In b (getBoardsInTeamByIds boardIDs teamID st).1 <->
  In b (boards st) /\ TeamID b = teamID /\ In (ID b) boardIDs.
Proof.
  unfold getBoardsInTeamByIds.
  destruct (negb _); cbn [fst];
    rewrite List.filter_In, andb_true_iff, String.eqb_eq, existsb_exists;
    (split; [intros (Hb & Ht & id & Hid & He); apply String.eqb_eq in He;
             subst; auto
            |intros (Hb & Ht & Hid); split; [exact Hb|]; split; [exact Ht|];
             exists (ID b); split; [exact Hid|apply String.eqb_refl]]).
Qed.

(** X20. [getBoardsInTeamByIds] returns the live boards of the team whose
    id is among those asked for, and returns them also when it reports an
    error.  It reports [ErrNotAllFound], with the ids asked for, exactly
    when the number of boards found differs from the number of ids.  So
    with ids unique in the table and no id asked for twice, there is no
    error exactly when every id asked for is a live board of the team; and
    with the empty list of ids it returns no board and no error. *)
Theorem getBoardsInTeamByIds_found (boardIDs : list string) (teamID : string)
    (st : Store) :
  (forall b, In b (getBoardsInTeamByIds boardIDs teamID st).1 <->
             In b (boards st) /\ TeamID b = teamID /\ In (ID b) boardIDs)
  /\ ((getBoardsInTeamByIds boardIDs teamID st).2 = None <->
      length (getBoardsInTeamByIds boardIDs teamID st).1 = length boardIDs)
  /\ ((getBoardsInTeamByIds boardIDs teamID st).2 <> None ->
      (getBoardsInTeamByIds boardIDs teamID st).2
      = Some (NewErrNotAllFound "board" boardIDs))
  /\ (uniqueIDs st -> List.NoDup boardIDs ->
      ((getBoardsInTeamByIds boardIDs teamID st).2 = None <->
       forall id, In id boardIDs ->
         exists b, In b (boards st) /\ ID b = id /\ TeamID b = teamID))
  /\ (boardIDs = [] -> getBoardsInTeamByIds boardIDs teamID st = ([], None)).
Proof.
  pose proof (getBoardsInTeamByIds_In boardIDs teamID st) as HIn.
  assert (Hlen : (getBoardsInTeamByIds boardIDs teamID st).2 = None <->
                 length (getBoardsInTeamByIds boardIDs teamID st).1
                 = length boardIDs).
  { unfold getBoardsInTeamByIds.
    destruct (Nat.eqb_spec
                (length (List.filter (fun b =>
                   String.eqb (TeamID b) teamID
                   && existsb (String.eqb (ID b)) boardIDs) (boards st)))
                (length boardIDs)) as [He|Hne]; cbn [negb fst snd].
    - tauto.
    - split; [discriminate|contradiction]. }
  split; [exact HIn|]. split; [exact Hlen|]. split.
  { unfold getBoardsInTeamByIds. destruct (negb _); cbn; congruence. }
  split.
  - intros Hu Hnd. rewrite Hlen.
    set (found := (getBoardsInTeamByIds boardIDs teamID st).1) in *.
    assert (Hfd : List.NoDup (map ID found)).
    { unfold found, getBoardsInTeamByIds. destruct (negb _); cbn [fst];
        apply NoDup_map_filter, Hu. }
    assert (Hincl : incl (map ID found) boardIDs).
    { intros id Hid. apply in_map_iff in Hid as (b & <- & Hb).
      apply HIn in Hb. tauto. }
    rewrite <- (length_map ID found). split.
    + intros Heq id Hid.
      assert (Hback : incl boardIDs (map ID found)).
      { apply List.NoDup_length_incl; [exact Hfd| |exact Hincl].
        rewrite Heq. apply Nat.le_refl. }
      apply Hback in Hid. apply in_map_iff in Hid as (b & Hb & Hin).
      apply HIn in Hin. exists b. tauto.
    + intros Hall.
      assert (Hback : incl boardIDs (map ID found)).
      { intros id Hid. destruct (Hall id Hid) as (b & Hb & Hbid & Ht).
        apply in_map_iff. exists b. split; [exact Hbid|].
        apply HIn. subst. auto. }
      apply Nat.le_antisymm; apply List.NoDup_incl_length; assumption.
  - intros ->. clear HIn Hlen. unfold getBoardsInTeamByIds. cbn [existsb].
    assert (F : List.filter (fun b : Board =>
                  String.eqb (TeamID b) teamID && false) (boards st) = []).
    { induction (boards st) as [|b l IH]; cbn; [reflexivity|].
      rewrite andb_false_r. exact IH. }
    rewrite F. reflexivity.
Qed.

Lemma HasSuffix_dot (s : string) : HasSuffix (s ++ ".") "." = true.
Proof.
  induction s as [|c s IH]; [reflexivity|].
  change (HasSuffix (String c s ++ ".") ".")
    with (String.eqb (String c (s ++ ".")) "." || HasSuffix (s ++ ".") ".").
  rewrite IH. apply orb_true_r.
Qed.

(** X21. [boardFields] names eighteen columns, and an alias may be given
    with or without its final dot: an alias that is not empty and does not
    end in a dot selects the same columns as the alias followed by a dot. *)
Theorem boardFields_alias (tableAlias : string) :
  length (boardFields tableAlias) = 18%nat
  /\ (tableAlias <> EmptyString -> HasSuffix tableAlias "." = false ->
      boardFields tableAlias = boardFields (tableAlias ++ ".")).
Proof.
  split; [reflexivity|].
  intros Hne Hdot. unfold boardFields.
  apply String.eqb_neq in Hne. rewrite Hne, Hdot, HasSuffix_dot.
  rewrite andb_false_r. reflexivity.
Qed.

Lemma uniqueIDs_same (st : Store) (b b' : Board) :
  uniqueIDs st -> In b (boards st) -> In b' (boards st) -> ID b = ID b' ->
  b = b'.
Proof.
  unfold uniqueIDs. induction (boards st) as [|x l IH]; cbn; [tauto|].
  intros Hu. apply List.NoDup_cons_iff in Hu as [Hx Hl].
  intros [->|Hb] [->|Hb'] Hid; auto.
  - exfalso. apply Hx. rewrite Hid. apply in_map. exact Hb'.
  - exfalso. apply Hx. rewrite <- Hid. apply in_map. exact Hb.
Qed.

(** The board ids of the members [getMembersForUser] returns. *)
Lemma getMembersForUser_ids (E : Env) (userID : string) (st : Store)
    (user : User) :
  GetUserByID E userID = Ok user ->
  exists found,
    getMembersForUser E userID st = (Ok found, st)
    /\ forall id,
         In id (map BoardID found) <->
         hasExplicit id userID st = true
         \/ (IsGuest user = false
             /\ exists b cm, In b (boards st) /\ In cm (ChannelMembers st)
                             /\ ChannelID b = cm_channelId cm
                             /\ cm_userId cm = userID /\ ID b = id).
Proof.
  intros Hu. unfold getMembersForUser; run. rewrite Hu.
  set (explicit := selectBoardMembers
                     (fun bm => String.eqb (user_id bm) userID) st).
  assert (Hex : forall id, In id (map BoardID explicit) <->
                           hasExplicit id userID st = true).
  { intros id. rewrite <- (existingMembers_board userID st id).
    fold explicit. unfold existingMembers.
    rewrite in_map_iff, existsb_exists.
    split; intros (m & H1 & H2); exists m.
    - subst. split; [exact H2|apply String.eqb_refl].
    - apply String.eqb_eq in H2. auto. }
  destruct (IsGuest user).
  - exists explicit. split; [reflexivity|]. intros id. rewrite Hex.
    intuition discriminate.
  - eexists. split; [reflexivity|]. intros id.
    unfold mergeMembers. rewrite map_app, in_app_iff, Hex.
    split.
    + intros [H|H]; [left; exact H|]. right. split; [reflexivity|].
      apply in_map_iff in H as (m & <- & Hm).
      apply List.filter_In in Hm as [Hm _].
      apply in_map_iff in Hm as (row & <- & Hrow).
      apply channelBoardsOfUser_In in Hrow as (_ & b & cm & H).
      exists b, cm. cbn. intuition.
    + intros [H|(_ & b & cm & Hb & Hcm & Hc & Hcu & <-)]; [left; exact H|].
      destruct (hasExplicit (ID b) userID st) eqn:Hh; [left; reflexivity|].
      right. apply in_map_iff.
      exists (syntheticEditor (ID b) userID). split; [reflexivity|].
      apply List.filter_In. split.
      * apply in_map_iff. exists (userID, ID b). split; [reflexivity|].
        apply channelBoardsOfUser_In. split; [reflexivity|].
        exists b, cm. auto 6.
      * unfold explicit. rewrite existingMembers_board. cbn.
        rewrite Hh. reflexivity.
Qed.

(** X22. [getBoardsForUserAndTeam].  With [includePublicBoards] it is the
    team search with the empty term: it succeeds with the boards of the
    team that are not templates and are open, or have an explicit member
    row of the user, or a channel with a roster row of the user, none
    twice.  Without it, for a user the directory knows and ids unique in
    the table, the boards it returns are the live boards of the team --
    templates included -- that have an explicit member row of the user or,
    for a user who is not a guest, a channel with a roster row of the user;
    it returns them whenever the fetch by ids found all of them or its
    error counts as NotFound, and otherwise returns that error.  An error
    of the user directory is returned as it is. *)
Theorem getBoardsForUserAndTeam_results (E : Env)
    (notFound : ErrNotAllFound -> bool) (userID teamID : string) (st : Store) :
  (exists found,
     getBoardsForUserAndTeam E notFound userID teamID true st
     = TeamBoardsOk found
     /\ List.NoDup found
     /\ forall b,
          In b found <->
          In b (boards st) /\ IsTemplate b = false /\ TeamID b = teamID
          /\ (Type_ b = BoardTypeOpen E
              \/ hasExplicit (ID b) userID st = true
              \/ exists cm, In cm (ChannelMembers st)
                            /\ cm_channelId cm = ChannelID b
                            /\ cm_userId cm = userID))
  /\ (forall user, GetUserByID E userID = Ok user -> uniqueIDs st ->
        (forall found,
           getBoardsForUserAndTeam E notFound userID teamID false st
           = TeamBoardsOk found ->
           forall b,
             In b found <->
             In b (boards st) /\ TeamID b = teamID
             /\ (hasExplicit (ID b) userID st = true
                 \/ (IsGuest user = false
                     /\ exists cm, In cm (ChannelMembers st)
                                   /\ cm_channelId cm = ChannelID b
                                   /\ cm_userId cm = userID)))
        /\ ((exists found,
               getBoardsForUserAndTeam E notFound userID teamID false st
               = TeamBoardsOk found)
            \/ (exists e,
                  getBoardsForUserAndTeam E notFound userID teamID false st
                  = TeamBoardsNotAllFound e
                  /\ notFound e = false)))
  /\ (forall e, GetUserByID E userID = Err e ->
        getBoardsForUserAndTeam E notFound userID teamID false st
        = TeamBoardsErr e).
Proof.
  split; [|split].
  - eexists. split; [reflexivity|].
    split; [apply NoDup_ListNoDup, NoDup_remove_dups|].
    intros b. rewrite In_remove_dups, !in_app_iff.
    rewrite (selectTeamBranch_In E teamID userID
               (teamSearchConditions E EmptyString) st b).
    cbn. tauto.
  - intros user Hu Huniq.
    destruct (getMembersForUser_ids E userID st user Hu) as (members & Hm & Hids).
    unfold getBoardsForUserAndTeam. rewrite Hm. cbn [fst].
    pose proof (getBoardsInTeamByIds_In (map BoardID members) teamID st) as HIn.
    assert (Hchar : forall b,
      In b (getBoardsInTeamByIds (map BoardID members) teamID st).1 <->
      In b (boards st) /\ TeamID b = teamID
      /\ (hasExplicit (ID b) userID st = true
          \/ (IsGuest user = false
              /\ exists cm, In cm (ChannelMembers st)
                            /\ cm_channelId cm = ChannelID b
                            /\ cm_userId cm = userID))).
    { intros b. rewrite HIn, Hids. split.
      - intros (Hb & Ht & [H|(Hg & b' & cm & Hb' & Hcm & Hc & Hcu & Hid)]).
        + auto.
        + assert (b' = b) by (eapply uniqueIDs_same; eauto). subst b'.
          split; [exact Hb|]. split; [exact Ht|]. right.
          split; [exact Hg|]. exists cm. auto.
      - intros (Hb & Ht & [H|(Hg & cm & Hcm & Hc & Hcu)]).
        + auto.
        + split; [exact Hb|]. split; [exact Ht|]. right.
          split; [exact Hg|]. exists b, cm. auto 6. }
    destruct (getBoardsInTeamByIds (map BoardID members) teamID st)
      as [found [err|]]; cbn [fst] in Hchar.
    + destruct (notFound err) eqn:Hnf.
      * split; [intros f Hf; injection Hf as <-; exact Hchar|left; eauto].
      * split; [discriminate|right; eauto].
    + split; [intros f Hf; injection Hf as <-; exact Hchar|left; eauto].
  - intros e He. unfold getBoardsForUserAndTeam, getMembersForUser; run.
    rewrite He. reflexivity.
Qed.

(** ** The history of a membership *)

Lemma memberHistoryRows_In (boardID userID : string) (limit : N) (st : Store)
    (r : BoardMemberHistoryRow) :
  In r (memberHistoryRows boardID userID limit st) ->
  In r (board_members_history st)
  /\ h_board_id r = boardID /\ h_user_id r = userID.
Proof.
  unfold memberHistoryRows. intros H.
  assert (Hw : In r (orderBy memberHistoryOrder
                 (List.filter (fun r => String.eqb (h_board_id r) boardID
                                        && String.eqb (h_user_id r) userID)
                              (board_members_history st)))).
  { destruct (0 <? limit)%N; [eapply In_firstn|]; exact H. }
  apply (Permutation_in _ (orderBy_Permutation _ _)) in Hw.
  apply List.filter_In in Hw as [Hin Hk].
  apply andb_true_iff in Hk as [Hb Hu]. apply String.eqb_eq in Hb, Hu. auto.
Qed.

Lemma entriesFromRows_Ok (E : Env) (render : Z -> string)
    (Parse : string -> string -> Result Z) (rows : list BoardMemberHistoryRow)
    (entries : list BoardMemberHistoryEntry) :
  boardMemberHistoryEntriesFromRows E render Parse rows = Ok entries ->
  Forall2 (fun r e =>
             EntryBoardID e = h_board_id r /\ EntryUserID e = h_user_id r
             /\ Action e = h_action r
             /\ Parse (dateTemplate E) (render (h_insert_at r))
                = Ok (InsertAt e)) rows entries.
Proof.
  revert entries. induction rows as [|r rows IH]; cbn; intros entries H.
  - injection H as <-. constructor.
  - destruct (Parse (dateTemplate E) (render (h_insert_at r))) as [t|e|msg]
      eqn:Hp; try discriminate.
    destruct (boardMemberHistoryEntriesFromRows E render Parse rows)
      as [es|e|msg]; try discriminate.
    injection H as <-. constructor; [cbn; auto|apply IH; reflexivity].
Qed.

Lemma entriesFromRows_fails (E : Env) (render : Z -> string)
    (Parse : string -> string -> Result Z) (rows : list BoardMemberHistoryRow)
    (r : BoardMemberHistoryRow) :
  In r rows ->
  (forall t, Parse (dateTemplate E) (render (h_insert_at r)) <> Ok t) ->
  forall entries,
    boardMemberHistoryEntriesFromRows E render Parse rows <> Ok entries.
Proof.
  intros Hin Hbad entries H. apply entriesFromRows_Ok in H.
  revert entries H. induction rows as [|x rows IH]; [destruct Hin|].
  intros entries H. inversion H as [|? e ? es (_ & _ & _ & Hp) Hrest]; subst.
  destruct Hin as [->|Hin]; [exact (Hbad _ Hp)|exact (IH Hin es Hrest)].
Qed.

(** X23. [getBoardMemberHistory] reads only.  The rows it scans are rows of
    [board_members_history] of the pair asked for, newest stamp first, at
    most [limit] of them when [limit] is above 0 and all of them when it is
    0.  When it succeeds it returns one entry per row scanned, in that
    order, with the row's board, user and action and the time its stamp
    parses to under the layout of the dialect; when the stamp of a row
    scanned does not parse, it does not succeed. *)
Theorem getBoardMemberHistory_entries (E : Env) (render : Z -> string)
    (Parse : string -> string -> Result Z) (boardID userID : string)
    (limit : N) (st : Store) :
  let rows := memberHistoryRows boardID userID limit st in
  (getBoardMemberHistory E render Parse boardID userID limit st).2 = st
  /\ (forall r, In r rows ->
        In r (board_members_history st)
        /\ h_board_id r = boardID /\ h_user_id r = userID)
  /\ StronglySorted (fun r1 r2 => h_insert_at r2 <= h_insert_at r1) rows
  /\ ((0 < limit)%N -> (length rows <= N.to_nat limit)%nat)
  /\ (limit = 0%N ->
      forall r, In r (board_members_history st) ->
                h_board_id r = boardID -> h_user_id r = userID -> In r rows)
  /\ (forall entries,
        (getBoardMemberHistory E render Parse boardID userID limit st).1
        = Ok entries ->
        Forall2 (fun r e =>
                   EntryBoardID e = boardID /\ EntryUserID e = userID
                   /\ Action e = h_action r
                   /\ Parse (dateTemplate E) (render (h_insert_at r))
                      = Ok (InsertAt e)) rows entries)
  /\ (forall r, In r rows ->
        (forall t, Parse (dateTemplate E) (render (h_insert_at r)) <> Ok t) ->
        forall entries,
          (getBoardMemberHistory E render Parse boardID userID limit st).1
          <> Ok entries).
Proof.
  cbv zeta. split; [reflexivity|].
  split; [apply memberHistoryRows_In|].
  split.
  { unfold memberHistoryRows.
    assert (S : StronglySorted (fun r1 r2 => memberHistoryOrder r1 r2 = true)
      (orderBy memberHistoryOrder
         (List.filter (fun r => String.eqb (h_board_id r) boardID
                                && String.eqb (h_user_id r) userID)
                      (board_members_history st)))).
    { apply orderBy_sorted; unfold memberHistoryOrder.
      - intros x y. rewrite !Z.leb_le. lia.
      - intros x y z. rewrite !Z.leb_le. lia. }
    assert (S' : forall l,
      StronglySorted (fun r1 r2 => memberHistoryOrder r1 r2 = true) l ->
      StronglySorted (fun r1 r2 => h_insert_at r2 <= h_insert_at r1) l).
    { induction 1 as [|x l Hs IH Hx]; constructor; [exact IH|].
      apply List.Forall_forall. intros y Hy.
      rewrite List.Forall_forall in Hx. apply Z.leb_le. exact (Hx y Hy). }
    apply S'. destruct (0 <? limit)%N; [apply StronglySorted_firstn|]; exact S. }
  split.
  { intros Hl. unfold memberHistoryRows. apply N.ltb_lt in Hl. rewrite Hl.
    apply firstn_le_length. }
  split.
  { intros -> r Hin Hb Hu. unfold memberHistoryRows. cbn.
    apply (Permutation_in _ (Permutation_sym (orderBy_Permutation _ _))).
    apply List.filter_In. split; [exact Hin|].
    rewrite Hb, Hu, !String.eqb_refl. reflexivity. }
  split.
  { intros entries H. unfold getBoardMemberHistory in H; run.
    apply entriesFromRows_Ok in H.
    pose proof (memberHistoryRows_In boardID userID limit st) as HIn.
    revert H HIn. generalize (memberHistoryRows boardID userID limit st).
    intros rows H. induction H as [|r e rows es (Hb & Hu & Ha & Hp) Hrest IH];
      intros HIn; constructor.
    - destruct (HIn r (or_introl eq_refl)) as (_ & Hrb & Hru).
      repeat split; congruence.
    - apply IH. intros r' Hr'. apply HIn. right. exact Hr'. }
  intros r Hr Hbad entries. unfold getBoardMemberHistory; run.
  exact (entriesFromRows_fails E render Parse _ r Hr Hbad entries).
Qed.

Lemma memberHistoryRows_appended (boardID userID action : string) (ts : Z)
    (st st' : Store) :
  board_members_history st'
  = (board_members_history st
     ++ [mkMemberHistoryRow boardID userID action ts])%list ->
  (forall r, In r (board_members_history st) ->
             h_board_id r = boardID -> h_user_id r = userID ->
             h_insert_at r < ts) ->
  memberHistoryRows boardID userID 1 st'
  = [mkMemberHistoryRow boardID userID action ts].
Proof.
  intros Hh Hnew. unfold memberHistoryRows. rewrite Hh, List.filter_app.
  assert (F : List.filter (fun r => String.eqb (h_board_id r) boardID
                                    && String.eqb (h_user_id r) userID)
                          [mkMemberHistoryRow boardID userID action ts]
              = [mkMemberHistoryRow boardID userID action ts])
    by (cbn; rewrite !String.eqb_refl; reflexivity).
  rewrite F, orderBy_last_first; [reflexivity|].
  intros x Hx. apply List.filter_In in Hx as [Hin Hk].
  apply andb_true_iff in Hk as [Hb Hu]. apply String.eqb_eq in Hb, Hu.
  unfold memberHistoryOrder. cbn. apply Z.leb_gt. auto.
Qed.

(** X24. What the history of a membership shows after a change.  With a
    stamp after those the pair already has, and a stamp that parses: after
    a save for a pair whose lookup reported NotFound, the newest entry
    ([limit] 1) is the pair's "created" entry; after a remove of a pair that
    had an explicit row, it is the pair's "deleted" entry. *)
Theorem getBoardMemberHistory_newest (E : Env) (render : Z -> string)
    (Parse : string -> string -> Result Z) (ts t : Z) (st : Store) :
  Parse (dateTemplate E) (render ts) = Ok t ->
  (forall bm,
     lookupNotFound E (BoardID bm) (UserID bm) st ->
     (forall r, In r (board_members_history st) ->
                h_board_id r = BoardID bm -> h_user_id r = UserID bm ->
                h_insert_at r < ts) ->
     (getBoardMemberHistory E render Parse (BoardID bm) (UserID bm) 1
        (saveMember E bm ts st).2).1
     = Ok [mkHistoryEntry (BoardID bm) (UserID bm) "created" t])
  /\ (forall boardID userID,
        hasExplicit boardID userID st = true ->
        (forall r, In r (board_members_history st) ->
                   h_board_id r = boardID -> h_user_id r = userID ->
                   h_insert_at r < ts) ->
        (getBoardMemberHistory E render Parse boardID userID 1
           (deleteMember boardID userID ts st).2).1
        = Ok [mkHistoryEntry boardID userID "deleted" t]).
Proof.
  intros Hp. split.
  - intros bm (e & He & Hnf) Hnew.
    pose proof (saveMember_run E bm ts st) as R. rewrite He, Hnf in R.
    unfold getBoardMemberHistory; run.
    rewrite (memberHistoryRows_appended (BoardID bm) (UserID bm) "created" ts st);
      [cbn; rewrite Hp; reflexivity| |exact Hnew].
    rewrite R. reflexivity.
  - intros boardID userID Hex Hnew.
    unfold getBoardMemberHistory; run.
    rewrite (memberHistoryRows_appended boardID userID "deleted" ts st);
      [cbn; rewrite Hp; reflexivity| |exact Hnew].
    unfold deleteMember; run. cbn [board_members]. rewrite filter_key_count.
    unfold hasExplicit in Hex. rewrite Hex. reflexivity.
Qed.

(** ** Edges of inserting and of the lookup *)

(** X25. For a board that is not a template, or not of the reserved global
    team, [insertBoard] writes nothing into [Properties]: it cannot panic,
    a nil map included, the encoder is asked about the map as given, and on
    success the board returned carries the map as given. *)
Theorem insertBoard_plain (E : Env) (board : Board) (userID : string)
    (now ts : Z) (st : Store) :
  IsTemplate board = false \/ TeamID board <> GlobalTeamID E ->
  (forall msg, (insertBoard E board userID now ts st).1 <> Panic msg)
  /\ (forall e, marshalProperties E (Properties board) = Some e ->
        insertBoard E board userID now ts st = (Err e, st))
  /\ (forall b', (insertBoard E board userID now ts st).1 = Ok b' ->
        Properties b' = Properties board).
Proof.
  intros Hplain.
  assert (T : setTrackingTemplateId E board st = (Ok board, st)).
  { unfold setTrackingTemplateId. destruct Hplain as [->|Hne]; [reflexivity|].
    apply String.eqb_neq in Hne. rewrite Hne, andb_false_r. reflexivity. }
  rewrite insertBoard_run, T. cbn [fst].
  split; [|split].
  - intros msg.
    destruct (marshalProperties E _); [discriminate|].
    destruct (marshalCardProperties E _); [discriminate|].
    destruct (liveRows (ID board) st); [|discriminate].
    destruct (IsErrNotFound E _); discriminate.
  - intros e He. rewrite He. reflexivity.
  - intros b'.
    destruct (marshalProperties E _); [discriminate|].
    destruct (marshalCardProperties E _); [discriminate|].
    destruct (liveRows (ID board) st).
    + destruct (IsErrNotFound E _); [|discriminate].
      cbn. intros H; injection H as <-. reflexivity.
    + cbn. intros H; injection H as <-. reflexivity.
Qed.

(** X26. Errors on the way to a synthetic membership.  For a user other
    than the system user with no explicit row, an error of the user
    directory is returned as it is; for a user who is not a guest, an error
    of the board lookup is returned as it is; and an error of the channel
    roster that is not an [AppError] with status 404 is returned as it is,
    not turned into NotFound.  The store is untouched, and [saveMember] for
    such a pair returns the same error without writing, unless the error
    counts as NotFound. *)
Theorem getMemberForBoard_errors (E : Env) (boardID userID : string)
    (st : Store) :
  hasExplicit boardID userID st = false ->
  userID <> SystemUserID E ->
  (forall e, GetUserByID E userID = Err e ->
     getMemberForBoard E boardID userID st = (Err e, st))
  /\ (forall user e,
        GetUserByID E userID = Ok user -> IsGuest user = false ->
        GetBoard E st boardID = Err e ->
        getMemberForBoard E boardID userID st = (Err e, st))
  /\ (forall user b e,
        GetUserByID E userID = Ok user -> IsGuest user = false ->
        GetBoard E st boardID = Ok b -> ChannelID b <> EmptyString ->
        GetChannelMember E (ChannelID b) userID = Some e ->
        asAppError e <> Some StatusNotFound ->
        getMemberForBoard E boardID userID st = (Err e, st))
  /\ (forall e bm ts,
        BoardID bm = boardID -> UserID bm = userID ->
        getMemberForBoard E boardID userID st = (Err e, st) ->
        IsErrNotFound E e = false ->
        saveMember E bm ts st = (Err e, st)).
Proof.
  intros Hno Hsys. apply String.eqb_neq in Hsys.
  split; [|split; [|split]].
  - intros e He. unfold getMemberForBoard; run.
    rewrite (selectBoardMembers_none _ _ _ Hno), Hsys, He. reflexivity.
  - intros user e Hu Hg Hb. unfold getMemberForBoard; run.
    rewrite (selectBoardMembers_none _ _ _ Hno), Hsys, Hu, Hg, Hb. reflexivity.
  - intros user b e Hu Hg Hb Hc Hm Has. unfold getMemberForBoard; run.
    rewrite (selectBoardMembers_none _ _ _ Hno), Hsys, Hu, Hg, Hb.
    apply String.eqb_neq in Hc. rewrite Hc. cbn [negb]. rewrite Hm.
    destruct (asAppError e) as [code|]; [|reflexivity].
    destruct (Z.eqb_spec code StatusNotFound) as [->|Hne];
      [contradiction|reflexivity].
  - intros e bm ts <- <- He Hnf. rewrite saveMember_run, He. cbn [fst].
    rewrite Hnf. reflexivity.
Qed.

(** X27. [insertBoardWithAdmin] does not undo its first step: when the
    board is inserted and the save of the administrator then fails, the
    error returned wraps the error of the save, and the store is the one
    [insertBoard] left, with the board live. *)
Theorem insertBoardWithAdmin_member_fails (E : Env) (board : Board)
    (userID : string) (now ts ts' : Z) (st st1 : Store) (nb : Board)
    (e : error) :
  insertBoard E board userID now ts st = (Ok nb, st1) ->
  (saveMember E
     (mkBoardMember (ID nb) (CreatedBy nb) EmptyString EmptyString
                    true true false false false) ts' st1).1 = Err e ->
  insertBoardWithAdmin E board userID now ts ts' st
  = (Err (Errorf "cannot save member %s while inserting board %s: %w"
                 (CreatedBy nb ++ " " ++ ID nb) e), st1)
  /\ exists live, (getBoard (ID board) st1).1 = Ok live.
Proof.
  intros Hins Hsave.
  set (bm := mkBoardMember (ID nb) (CreatedBy nb) EmptyString EmptyString
                           true true false false false) in *.
  assert (Hst : (saveMember E bm ts' st1).2 = st1).
  { pose proof (saveMember_run E bm ts' st1) as R. rewrite R in Hsave |- *.
    destruct (getMemberForBoard E (BoardID bm) (UserID bm) st1).1 as [m|e0|msg];
      try discriminate.
    destruct (IsErrNotFound E e0); [discriminate|reflexivity]. }
  split.
  - unfold insertBoardWithAdmin, bind at 1. rewrite Hins.
    unfold bind at 1, try. fold bm. rewrite Hsave, Hst. reflexivity.
  - destruct (insertBoard_Ok _ _ _ _ _ _ _ _ Hins)
      as (p & [(Hrows & -> & ->)|(Hrows & -> & ->)]).
    + set (b2 := with_Modified userID now (with_Properties p board)).
      rewrite getBoard_run.
      change (liveRows (ID board) (afterUpdate ts b2 st))
        with (liveRows (ID b2) (execUpdateBoard b2 st).2).
      rewrite liveRows_updated. change (ID b2) with (ID board).
      destruct (liveRows (ID board) st); [contradiction|]. cbn. eauto.
    + set (b3 := with_Created userID now
                   (with_Modified userID now (with_Properties p board))).
      rewrite getBoard_run.
      change (liveRows (ID board) (afterInsert ts b3 st))
        with (liveRows (ID b3) (set_boards (fun l => (l ++ [b3])%list) st)).
      rewrite liveRows_inserted by exact Hrows. eauto.
Qed.

(** * More operations on the sample installation *)




Lemma uniqueIDs_kept_witness :
  uniqueIDs (insertBoard Sample.env Sample.stale "bob" 200 200 Sample.linked).2
  /\ uniqueIDs (deleteBoardAndChildren Sample.env "b1" "bob" false 200 200
                  Sample.linked).2.
Proof.
  assert (U : uniqueIDs Sample.linked).
  { unfold uniqueIDs. cbn. repeat constructor. intros []. }
  destruct (uniqueIDs_kept Sample.env Sample.linked U) as (H1 & _ & H3).
  split; [apply H1|apply H3].
Defined.

Lemma deleteBoardAndChildren_missing_witness :
  deleteBoardAndChildren Sample.env "b9" "bob" false 200 200 Sample.emptyStore
  = (Err (ErrNotFound "boards"), Sample.emptyStore).
Proof.
  apply deleteBoardAndChildren_missing. intros b [].
Defined.

Lemma deleteBoardAndChildren_effect_witness :
  (getBoard "b1" (deleteBoardAndChildren Sample.env "b1" "bob" false 200 200
                    Sample.linked).2).1 = Err (ErrNotFound "boards")
  /\ children (deleteBoardAndChildren Sample.env "b1" "bob" false 200 200
                 Sample.linked).2
     = ([] ++ [DeleteBlockChildren "b1" EmptyString "bob"])%list.
Proof.
  assert (U : uniqueIDs Sample.linked).
  { unfold uniqueIDs. cbn. repeat constructor. intros []. }
  destruct (deleteBoardAndChildren_effect Sample.env "b1" "bob" false 200 200
              Sample.linked (Sample.board "b1" "c1") U eq_refl eq_refl eq_refl)
    as (_ & _ & H3 & _ & H5).
  split; [exact H3|exact H5].
Defined.

Lemma undeleteBoard_after_delete_witness :
  exists st1 st2 live,
    deleteBoardAndChildren Sample.env "b1" "bob" false 200 200 Sample.linked
    = (Ok tt, st1)
    /\ undeleteBoard Sample.env "b1" "carol" 300 300 st1 = (Ok tt, st2)
    /\ (getBoard "b1" st2).1 = Ok live
    /\ Title live = "Roadmap"
    /\ undeleteBoard Sample.env "b1" "carol" 400 400 st2 = (Ok tt, st2).
Proof.
  assert (U : uniqueIDs Sample.linked).
  { unfold uniqueIDs. cbn. repeat constructor. intros []. }
  destruct (undeleteBoard_after_delete Sample.env "b1" "bob" "carol"
              200 200 300 300 400 400 Sample.linked (Sample.board "b1" "c1")
              U eq_refl eq_refl eq_refl eq_refl eq_refl)
    as (st1 & st2 & live & Hd & Hu & _ & Hg & Hf & _ & _ & Hn).
  - discriminate.
  - intros r [<-|[]] _. reflexivity.
  - intros r [<-|[]] _. reflexivity.
  - reflexivity.
  - exists st1, st2, live. split; [exact Hd|]. split; [exact Hu|].
    split; [exact Hg|]. split; [|exact Hn].
    destruct Hf as (_ & _ & _ & _ & _ & Ht & _). exact Ht.
Defined.


Lemma getMemberForBoard_explicit_row_witness :
  getMemberForBoard Fixture.unreachable "b1" "alice" Fixture.staffed
  = (Ok (mkBoardMember "b1" "alice" EmptyString "viewer"
                       true true false false false), Fixture.staffed).
Proof.
  exact (getMemberForBoard_explicit_row "b1" "alice" Fixture.staffed
           (mkMemberRow "b1" "alice" EmptyString true true false false) []
           eq_refl Fixture.unreachable).
Defined.

Lemma saveMember_then_lookup_witness :
  exists st' m,
    saveMember Sample.env (Sample.member "b1" "u9" "admin" true true) 7
      Sample.linked
    = (Ok (Sample.member "b1" "u9" "admin" true true), st')
    /\ getMemberForBoard Fixture.unreachable "b1" "u9" st' = (Ok m, st')
    /\ SchemeAdmin m = true /\ Synthetic m = false /\ Roles m = EmptyString.
Proof.
  destruct (saveMember_then_lookup Sample.env
              (Sample.member "b1" "u9" "admin" true true) 7 Sample.linked)
    as (st' & m & Hs & Hl & _ & _ & Ha & _ & _ & _ & Hsyn & Hr).
  - vm_compute. reflexivity.
  - exists st', m. split; [exact Hs|]. split; [apply Hl|].
    split; [exact Ha|]. split; [exact Hsyn|]. apply Hr. reflexivity.
Defined.

Lemma uniqueMembers_kept_witness :
  uniqueMembers
    (saveMember Sample.env (Sample.member "b1" "alice" "viewer" false false) 7
       Fixture.staffed).2
  /\ uniqueMembers (deleteMember "b1" "alice" 7 Fixture.staffed).2.
Proof.
  assert (U : uniqueMembers Fixture.staffed).
  { unfold uniqueMembers. cbn. repeat constructor.
    - intros [H|[]]. discriminate.
    - intros []. }
  destruct (uniqueMembers_kept Sample.env Fixture.staffed) as [Hs Hd].
  split.
  - exact (proj1 (Hs (Sample.member "b1" "alice" "viewer" false false) 7) U).
  - exact (proj1 (Hd "b1" "alice" 7) U).
Defined.

Lemma saveMember_then_deleteMember_witness :
  exists st1 st2,
    saveMember Sample.env (Sample.member "b1" "u9" "admin" true true) 7
      Sample.linked
    = (Ok (Sample.member "b1" "u9" "admin" true true), st1)
    /\ deleteMember "b1" "u9" 8 st1 = (Ok tt, st2)
    /\ board_members st2 = []
    /\ board_members_history st2
       = ([] ++ [mkMemberHistoryRow "b1" "u9" "created" 7;
                 mkMemberHistoryRow "b1" "u9" "deleted" 8])%list.
Proof.
  apply (saveMember_then_deleteMember Sample.env
           (Sample.member "b1" "u9" "admin" true true) 7 8 Sample.linked).
  exists (ErrNotFound "member BoardID=b1 UserID=u9").
  split; vm_compute; reflexivity.
Defined.

Lemma insertBoardWithAdmin_new_witness :
  exists m,
    (forall E' : Env,
       getMemberForBoard E' "b7" "bob"
         (insertBoardWithAdmin Sample.env (Sample.board "b7" EmptyString) "bob"
            200 200 201 Sample.emptyStore).2
       = (Ok m,
          (insertBoardWithAdmin Sample.env (Sample.board "b7" EmptyString) "bob"
             200 200 201 Sample.emptyStore).2))
    /\ SchemeAdmin m = true /\ SchemeEditor m = true
    /\ MemberMinimumRole m = "viewer".
Proof.
  destruct (insertBoardWithAdmin_new Sample.env (Sample.board "b7" EmptyString)
              "bob" 200 200 201 Sample.emptyStore
              (insertBoardWithAdmin Sample.env (Sample.board "b7" EmptyString)
                 "bob" 200 200 201 Sample.emptyStore).2
              (with_Created "bob" 200
                 (with_Modified "bob" 200 (Sample.board "b7" EmptyString)))
              (mkBoardMember "b7" "bob" EmptyString EmptyString
                             true true false false false))
    as (_ & _ & _ & m & Hl & Ha & He & _ & _ & _ & Hr).
  - vm_compute; reflexivity.
  - vm_compute; reflexivity.
  - exists m. split; [exact Hl|]. split; [exact Ha|]. split; [exact He|exact Hr].
Defined.

Lemma getMembersForUser_members_witness :
  exists found,
    getMembersForUser Sample.env "u1" Fixture.staffed = (Ok found, Fixture.staffed)
    /\ In (syntheticEditor "b1" "u1") found.
Proof.
  destruct (getMembersForUser_members Sample.env "u1" Fixture.staffed
              (mkUser "u1" false) eq_refl)
    as (found & Hrun & _ & _ & _ & Hsyn & _).
  exists found. split; [exact Hrun|].
  apply (Hsyn eq_refl "b1"). split; [reflexivity|].
  exists (Sample.board "b1" "c1"), (mkChannelMember "c1" "u1").
  cbn. auto 8.
Defined.

Lemma searchBoardsForUser_results_witness :
  exists found,
    searchBoardsForUser Sample.env EmptyString BoardSearchFieldTitle "u1" false
      Fixture.staffed = (Ok found, Fixture.staffed)
    /\ In (Sample.board "b1" "c1") found
    /\ List.NoDup found.
Proof.
  destruct (searchBoardsForUser_results Sample.env EmptyString
              BoardSearchFieldTitle "u1" false Fixture.staffed
              (mkUser "u1" false) eq_refl)
    as (found & Hrun & Hin & Hnd).
  exists found. split; [exact Hrun|]. split; [|apply Hnd; left; reflexivity].
  apply Hin. split; [left; reflexivity|]. split; [reflexivity|].
  split; [reflexivity|]. right; left. split; [reflexivity|].
  exists (mkChannelMember "c1" "u1"). cbn. auto.
Defined.

Lemma getBoardsInTeamByIds_found_witness :
  (getBoardsInTeamByIds ["b1"; "b2"] "t1" Fixture.staffed).2 = None
  /\ getBoardsInTeamByIds [] "t1" Fixture.staffed = ([], None).
Proof.
  destruct (getBoardsInTeamByIds_found ["b1"; "b2"] "t1" Fixture.staffed)
    as (_ & _ & _ & Hall & _).
  destruct (getBoardsInTeamByIds_found [] "t1" Fixture.staffed)
    as (_ & _ & _ & _ & Hnil).
  split; [|exact (Hnil eq_refl)].
  apply Hall.
  - unfold uniqueIDs. cbn. repeat constructor.
    + intros [H|[]]. discriminate.
    + intros [].
  - repeat constructor.
    + intros [H|[]]. discriminate.
    + intros [].
  - intros id [<-|[<-|[]]].
    + exists (Sample.board "b1" "c1"). cbn. auto.
    + exists (Sample.board "b2" EmptyString). cbn. auto.
Defined.

Lemma boardFields_alias_witness : boardFields "b" = boardFields "b.".
Proof.
  apply (boardFields_alias "b"); [discriminate|reflexivity].
Defined.

Lemma getBoardsForUserAndTeam_results_witness :
  exists found,
    getBoardsForUserAndTeam Sample.env (fun _ => true) "guest" "t1" false
      Fixture.staffed = TeamBoardsOk found
    /\ forall b, In b found ->
         In b (boards Fixture.staffed) /\ TeamID b = "t1"
         /\ hasExplicit (ID b) "guest" Fixture.staffed = true.
Proof.
  destruct (getBoardsForUserAndTeam_results Sample.env (fun _ => true)
              "guest" "t1" Fixture.staffed) as (_ & H & _).
  destruct (H (mkUser "guest" true) eq_refl) as (Hchar & [(found & Hf)|(e & _ & He)]).
  - unfold uniqueIDs. cbn. repeat constructor.
    + intros [Hd|[]]. discriminate.
    + intros [].
  - exists found. split; [exact Hf|]. intros b Hb.
    apply (Hchar found Hf) in Hb as (H1 & H2 & [H3|(H3 & _)]);
      [auto|discriminate].
  - discriminate.
Defined.

Lemma getBoardMemberHistory_newest_witness :
  (getBoardMemberHistory Sample.env Fixture.render Fixture.Parse "b1" "alice" 1
     (deleteMember "b1" "alice" 150 Fixture.staffed).2).1
  = Ok [mkHistoryEntry "b1" "alice" "deleted" 1704067200000].
Proof.
  destruct (getBoardMemberHistory_newest Sample.env Fixture.render
              Fixture.Parse 150 1704067200000 Fixture.staffed eq_refl)
    as [_ H].
  apply (H "b1" "alice" eq_refl).
  intros r [<-|[<-|[]]]; cbn; intros; try lia; discriminate.
Defined.

Lemma insertBoard_plain_witness :
  (insertBoard Sample.env
     (with_Properties None (Sample.board "b7" EmptyString)) "bob" 200 200
     Sample.emptyStore).1 <> Panic "assignment to entry in nil map".
Proof.
  apply (insertBoard_plain Sample.env
           (with_Properties None (Sample.board "b7" EmptyString)) "bob" 200 200
           Sample.emptyStore).
  left; reflexivity.
Defined.

Lemma getMemberForBoard_errors_witness :
  getMemberForBoard Fixture.unreachable "b1" "u1" Sample.linked
  = (Err (ErrOther "connection refused"), Sample.linked)
  /\ saveMember Fixture.unreachable (Sample.member "b1" "u1" "admin" true true)
       7 Sample.linked
     = (Err (ErrOther "connection refused"), Sample.linked).
Proof.
  destruct (getMemberForBoard_errors Fixture.unreachable "b1" "u1"
              Sample.linked eq_refl ltac:(discriminate))
    as (H1 & _ & _ & H4).
  pose proof (H1 (ErrOther "connection refused") eq_refl) as Hl.
  split; [exact Hl|].
  exact (H4 (ErrOther "connection refused")
            (Sample.member "b1" "u1" "admin" true true) 7
            eq_refl eq_refl Hl eq_refl).
Defined.

Lemma insertBoardWithAdmin_member_fails_witness :
  insertBoardWithAdmin Fixture.unreachable (Sample.board "b7" EmptyString)
    "bob" 200 200 201 Sample.emptyStore
  = (Err (Errorf "cannot save member %s while inserting board %s: %w"
                 "bob b7" (ErrOther "connection refused")),
     afterInsert 200
       (with_Created "bob" 200
          (with_Modified "bob" 200 (Sample.board "b7" EmptyString)))
       Sample.emptyStore).
Proof.
  apply (insertBoardWithAdmin_member_fails Fixture.unreachable
           (Sample.board "b7" EmptyString) "bob" 200 200 201 Sample.emptyStore
           (afterInsert 200
              (with_Created "bob" 200
                 (with_Modified "bob" 200 (Sample.board "b7" EmptyString)))
              Sample.emptyStore)
           (with_Created "bob" 200
              (with_Modified "bob" 200 (Sample.board "b7" EmptyString)))
           (ErrOther "connection refused")).
  - vm_compute; reflexivity.
  - vm_compute; reflexivity.
Defined.
